(** * Supply-chain helper scripts: a shallow embedding and its properties

    The development embeds three JavaScript programs:

    - [RunTrustedScripts]: the selective script runner
      ([scripts/run-trusted-scripts.js]);
    - [VerifyPackages]: the five-check verifier, the variant of
      [scripts/verify-packages.js] that also requires [ignore-scripts]
      and validates [trusted-packages.json];
    - [VerifyPackagesLegacy]: the four-check variant of the same script.

    Files are given as already read and parsed ([JSON.parse] is a black
    box that either yields a document or throws; [.npmrc] may also be
    there and not readable); the commands handed to [execSync] are
    oracles whose answers are recorded in the trace of the run.
    Arithmetic on Numbers that decides an outcome (the coverage rate) is
    IEEE 754 binary64, through the Standard Library's [SpecFloat]. *)

From Stdlib Require Import ZArith List String Ascii Bool Lia.
From Stdlib Require Import SpecFloat.
Import ListNotations.

Open Scope string_scope.
Open Scope list_scope.
Open Scope Z_scope.

(** ** JavaScript strings *)

Module JsString.

(** [s.startsWith(p)] *)
Fixpoint startsWith (s p : string) {struct p} : bool :=
  match p, s with
  | EmptyString, _ => true
  | String _ _, EmptyString => false
  | String b p', String a s' => Ascii.eqb a b && startsWith s' p'
  end.

(** [s.includes(sub)] *)
Fixpoint includes (s sub : string) : bool :=
  startsWith s sub ||
  match s with
  | EmptyString => false
  | String _ s' => includes s' sub
  end.

(** The remainder of [s] after the prefix [p], when [s] starts with [p]. *)
Fixpoint afterPrefix (p s : string) {struct p} : option string :=
  match p, s with
  | EmptyString, _ => Some s
  | String _ _, EmptyString => None
  | String b p', String a s' =>
      if Ascii.eqb a b then afterPrefix p' s' else None
  end.

(** [s.replace(/^node_modules\//, '')]: the pattern is anchored, so at
    most the one leading occurrence is removed. *)
Definition removeLeadingNodeModules (s : string) : string :=
  match afterPrefix "node_modules/" s with
  | Some rest => rest
  | None => s
  end.

(** [s.split(sep)[0]] for a one-character separator: the text before
    the first separator, or all of [s] when there is none. *)
Fixpoint splitHead (sep : ascii) (s : string) : string :=
  match s with
  | EmptyString => EmptyString
  | String a s' => if Ascii.eqb a sep then EmptyString
                   else String a (splitHead sep s')
  end.

(** A property value that is either a string or [undefined]. *)
Definition value := option string.

(** [s === v] for a string [s]. *)
Definition strictEq (s : string) (v : value) : bool :=
  match v with
  | Some n => String.eqb s n
  | None => false
  end.

(** [v + s]: string concatenation after [ToString(v)]. *)
Definition plus (v : value) (s : string) : string :=
  match v with
  | Some n => (n ++ s)%string
  | None => ("undefined" ++ s)%string
  end.

(** Truthiness of a string-or-undefined value: the empty string is falsy. *)
Definition truthy (v : value) : bool :=
  match v with
  | Some EmptyString => false
  | Some _ => true
  | None => false
  end.

End JsString.

(** ** Documents read by the scripts *)

(** A file on disk as the scripts see it: not there, there but rejected
    by [JSON.parse], or parsed into a document.  Documents are typed as
    the formats of the lockfile and of the trust policy lay them out
    (objects, lists of objects, optional string fields).  For the trust
    policy as the verifier reads it, [TrustDocument] below adds the
    documents that parse but are laid out otherwise. *)
Inductive File (A : Type) : Type :=
| Missing
| Garbled
| Parsed (doc : A).
Arguments Missing {A}.
Arguments Garbled {A}.
Arguments Parsed {A} & doc.

(** A [Date]: its time value in milliseconds, or [None] for an invalid date. *)
Definition JsDate := option Z.

Module TrustEntry.
Record t := mk {
  name : JsString.value;
  reason : JsString.value;
  lastReviewed : JsString.value
}.
End TrustEntry.

Module TrustPolicy.
Record t := mk {
  (** [None] when the field is absent or an empty string; otherwise
      the result of [new Date(cfg.lastReviewed)] *)
  lastReviewed : option JsDate;
  reviewCadence : JsString.value;
  packages : option (list TrustEntry.t)
}.
End TrustPolicy.

(** What [JSON.parse] can hand the verifier for [trusted-packages.json]:
    any JSON value, told apart as far as [verifyTrustedPackages] tells
    it apart. *)
Module TrustDocument.
(** The value of [cfg.packages]. *)
Inductive packages :=
(** absent, or [null], [false], [0] or the empty string: [|| []]
    replaces it by the empty list *)
| Falsy
(** a list; [None] stands for an entry that is [null], on which
    [p.name] throws.  An entry that is a number, a text, a boolean or a
    list has no field and is read as an object without name and reason. *)
| Array (entries : list (option TrustEntry.t))
(** an object whose own [length] is 0 *)
| EmptyLike
(** any other value: [true], a number, a text, an object.  It has no
    [forEach]; [length] is the text [`${pkgs.length}`] prints *)
| NotAnArray (length : string).

Inductive t :=
(** the document [null]: reading [cfg.packages] throws *)
| Null
(** an object with its [lastReviewed], as in [TrustPolicy], and its
    [packages]; a number, a text, a boolean or a list as the document
    has neither and is read as the object without them *)
| Object (lastReviewed : option JsDate) (packages : packages).

(** A policy laid out as the format has it, as a document. *)
Definition ofPolicy (policy : TrustPolicy.t) : t :=
  Object (TrustPolicy.lastReviewed policy)
         (match TrustPolicy.packages policy with
          | Some l => Array (map Some l)
          | None => Falsy
          end).
End TrustDocument.

Coercion TrustDocument.ofPolicy : TrustPolicy.t >-> TrustDocument.t.

Module LockEntry.
Record t := mk { integrity : JsString.value }.
End LockEntry.

Module Lock.
(** [packages] lists the mapping in the order [Object.keys] and
    [Object.entries] enumerate it, which for install paths is the order
    in which the keys appear in the file; keys are pairwise distinct. *)
Record t := mk { packages : option (list (string * LockEntry.t)) }.

Definition entries (lock : t) : list (string * LockEntry.t) :=
  match packages lock with
  | Some m => m
  | None => []
  end.
End Lock.

(** ** Console output and child processes *)

Inductive Color := Reset | Red | Green | Yellow | Blue | Cyan.

(** The commands handed to [execSync], each a command line for the
    shell.  Those of the verifiers are fixed texts.  [NpmRebuild pkg] is
    the text [npm rebuild] followed by [pkg] as it stands, a lockfile key
    without its leading [node_modules/]: what the shell starts for it
    depends on the characters of [pkg] (see [shellWord]). *)
Inductive Command :=
| NpmRebuild (pkg : string)
| NpmAuditJson
| NpmAuditLevelHigh
| NpmVersion
| NpmAuditSignatures.

(** The text [execSync] gets. *)
Definition commandLine (cmd : Command) : string :=
  match cmd with
  | NpmRebuild pkg => ("npm rebuild " ++ pkg)%string
  | NpmAuditJson => "npm audit --json 2>/dev/null || true"
  | NpmAuditLevelHigh => "npm audit --audit-level=high"
  | NpmVersion => "npm --version"
  | NpmAuditSignatures => "npm audit signatures 2>/dev/null"
  end.

(** ** Numbers

    A JavaScript [Number] is an IEEE 754 binary64 value; the operations
    are those of the Standard Library's executable specification. *)

Module Number.

Definition prec : Z := 53.
Definition emax : Z := 1024.

Definition t := spec_float.

(** The Number for an integer (exact below [2^53]). *)
Definition ofZ (z : Z) : t := binary_normalize prec emax z 0 false.

Definition div (x y : t) : t := SFdiv prec emax x y.
Definition mul (x y : t) : t := SFmul prec emax x y.

(** [x >= y] on Numbers; false as soon as one side is [NaN]. *)
Definition ge (x y : t) : bool := SFleb y x.

(** The strings [x.toFixed(1)] can return, kept structured. *)
Inductive fixed1 :=
| FNaN                               (* "NaN" *)
| FInfinity (neg : bool)             (* "Infinity", "-Infinity" *)
| FTenths (neg : bool) (n : Z)       (* digits of n, a point before the last *)
| FExponent (x : t).                 (* x >= 1e21: the text of ToString(x) *)

(** The integer [n] for which [n / 10] is closest to [m * 2^e], the
    larger one on a tie. *)
Definition nearestTenths (m : positive) (e : Z) : Z :=
  if 0 <=? e then 10 * Zpos m * 2 ^ e
  else (20 * Zpos m + 2 ^ (- e)) / 2 ^ (1 - e).

(** [x.toFixed(1)] *)
Definition toFixed1 (x : t) : fixed1 :=
  match x with
  | S754_nan => FNaN
  | S754_infinity s => FInfinity s
  | S754_zero _ => FTenths false 0
  | S754_finite s m e =>
      if SFleb (ofZ (10 ^ 21)) (S754_finite false m e) then FExponent x
      else FTenths s (nearestTenths m e)
  end.

(** [ToNumber] of such a string, as the comparison [rate >= 95]
    applies it: the binary64 value nearest to the decimal [n / 10],
    which is the correctly rounded quotient of the integers [n] and 10. *)
Definition ofFixed1 (s : fixed1) : t :=
  match s with
  | FNaN => S754_nan
  | FInfinity s => S754_infinity s
  | FTenths s (Zpos n) =>
      SFdiv prec emax (S754_finite s n 0) (S754_finite false 10 0)
  | FTenths s _ => S754_zero s
  | FExponent x => x
  end.

End Number.

(** Console lines are kept as a colour, the text of the message with
    [{}] in place of each interpolated value, and the values
    interpolated; the glyph that opens a line and line breaks are left
    out, and quotation marks inside a message are written as apostrophes. *)

(** Values interpolated into a message. *)
Inductive Arg :=
| AStr (s : string)
| AVal (v : JsString.value)
| ANum (n : Z)
| ADays (d : option Z)
| ARate (r : Number.fixed1)
| AEntry (e : TrustEntry.t).

(** A line printed, or a call of [execSync] with the command line it
    hands to the shell and whether that command succeeded. *)
Inductive Event :=
| Say (c : Color) (text : string) (args : list Arg)
| Spawn (cmd : Command) (succeeded : bool).

Definition Trace := list Event.

(** ** Processes

    A computation extends the trace of the run and either completes
    with a value, ends the process through [process.exit], or throws. *)

Inductive Outcome (A : Type) : Type :=
| Done (a : A)
| Exited (code : Z)
| Thrown.
Arguments Done {A} a.
Arguments Exited {A} code.
Arguments Thrown {A}.

Definition Proc (A : Type) : Type := Trace -> Outcome A * Trace.

Definition ret {A} (a : A) : Proc A := fun tr => (Done a, tr).

Definition bind {A B} (p : Proc A) (k : A -> Proc B) : Proc B :=
  fun tr =>
    match p tr with
    | (Done a, tr') => k a tr'
    | (Exited code, tr') => (Exited code, tr')
    | (Thrown, tr') => (Thrown, tr')
    end.

Notation "x <- p ;; k" := (bind p (fun x => k))
  (at level 61, p at next level, right associativity).
Notation "p ;; k" := (bind p (fun _ => k))
  (at level 61, right associativity).

Definition emit (e : Event) : Proc unit := fun tr => (Done tt, tr ++ [e]).

Definition emitAll (es : list Event) : Proc unit :=
  fun tr => (Done tt, tr ++ es).

Definition process_exit {A} (code : Z) : Proc A := fun tr => (Exited code, tr).

Definition throw {A} : Proc A := fun tr => (Thrown, tr).

(** [try { body } catch { handler }]: [process.exit] is not an
    exception and leaves through the [try] untouched. *)
Definition try_catch {A} (body handler : Proc A) : Proc A :=
  fun tr =>
    match body tr with
    | (Thrown, tr') => handler tr'
    | r => r
    end.

(** [JSON.parse(fs.readFileSync(path))] on a file that exists. *)
Definition JSON_parse {A} (f : File A) : Proc A :=
  match f with
  | Parsed doc => ret doc
  | _ => throw
  end.

(** [JSON.parse(out)] on the output of a command. *)
Definition JSON_parse_output {A} (out : option A) : Proc A :=
  match out with
  | Some doc => ret doc
  | None => throw
  end.

(** [execSync(cmd)] for a command of which only the exit status
    matters: throws when the command fails. *)
Definition execSync (cmd : Command) (succeeds : bool) : Proc unit :=
  emit (Spawn cmd succeeds) ;;
  if succeeds then ret tt else throw.

(** [for (const x of xs) body(x)] *)
Fixpoint forOf {A} (xs : list A) (body : A -> Proc unit) : Proc unit :=
  match xs with
  | [] => ret tt
  | x :: rest => body x ;; forOf rest body
  end.

(** A run starts with an empty trace.  Node ends a process whose main
    function returns with status 0 and one whose exception nobody caught
    with status 1. *)
Definition run {A} (p : Proc A) : Outcome A * Trace := p [].

Definition exitCode {A} (r : Outcome A * Trace) : Z :=
  match fst r with
  | Done _ => 0
  | Exited code => code
  | Thrown => 1
  end.

Definition trace {A} (r : Outcome A * Trace) : Trace := snd r.

(** The [npm rebuild] command lines of a trace, in order: for each the
    text that follows [npm rebuild] and the result of the command. *)
Fixpoint rebuilds (tr : Trace) : list (string * bool) :=
  match tr with
  | [] => []
  | Spawn (NpmRebuild pkg) b :: rest => (pkg, b) :: rebuilds rest
  | _ :: rest => rebuilds rest
  end.

(** ** The selective script runner *)

Module RunTrustedScripts.

(** What a run finds around it.  [npm_rebuild] answers whether the
    command line [npm rebuild pkg] succeeds (exit status 0 within the
    60 s timeout), given the command lines already run. *)
Record World := mkWorld {
  trusted_packages_json : File TrustPolicy.t;
  package_lock_json : File Lock.t;
  bun_lockb : bool;
  npm_rebuild : list (string * bool) -> string -> bool
}.

Definition log (msg : string) (args : list Arg) (color : Color) : Proc unit :=
  emit (Say color msg args).

Definition matchesTrusted (pkgPath : string)
    (trustedList : list TrustEntry.t) : bool :=
  let pkgName := JsString.removeLeadingNodeModules pkgPath in
  existsb (fun t =>
             JsString.strictEq pkgName (TrustEntry.name t) ||
             JsString.startsWith pkgName
               (JsString.plus (TrustEntry.name t) "/"))
          trustedList.

(** The loop of [main] that collects [toRebuild]. *)
Fixpoint collect (installed : list string)
    (trusted : list TrustEntry.t) : list string :=
  match installed with
  | [] => []
  | pkgPath :: rest =>
      if matchesTrusted pkgPath trusted
      then JsString.removeLeadingNodeModules pkgPath :: collect rest trusted
      else collect rest trusted
  end.

Section Run.
Variable world : World.

Definition loadTrustedPackages : Proc (list TrustEntry.t) :=
  match trusted_packages_json world with
  | Missing =>
      log "trusted-packages.json not found" [] Red ;;
      process_exit 1
  | file =>
      config <- JSON_parse file ;;
      ret (match TrustPolicy.packages config with
           | Some l => l
           | None => []
           end)
  end.

Definition getInstalledPackages : Proc (list string) :=
  match package_lock_json world with
  | Missing =>
      (if bun_lockb world
       then log "Only bun.lockb found. Trusted-script rebuild uses npm rebuild; ensure package-lock.json is present for full verification." [] Yellow
       else ret tt) ;;
      ret []
  | file =>
      lock <- JSON_parse file ;;
      ret (filter (fun k => negb (String.eqb k ""))
                  (map fst (Lock.entries lock)))
  end.

(** [execSync(`npm rebuild ${pkg}`, ...)]: [pkg] is pasted into the
    command line unquoted; throws when the command fails. *)
Definition execSync_rebuild (pkg : string) : Proc unit :=
  fun tr =>
    if npm_rebuild world (rebuilds tr) pkg
    then (Done tt, tr ++ [Spawn (NpmRebuild pkg) true])
    else (Thrown, tr ++ [Spawn (NpmRebuild pkg) false]).

(** One turn of the rebuild loop: the [try] block with its [catch]. *)
Definition rebuildOne (pkg : string) : Proc unit :=
  try_catch
    (log "  Rebuilding: {}" [AStr pkg] Yellow ;;
     execSync_rebuild pkg ;;
     log "  {} rebuilt successfully" [AStr pkg] Green)
    (log "  Failed to rebuild {}" [AStr pkg] Red ;;
     process_exit 1).

Definition main : Proc unit :=
  log "Selective Script Execution for Trusted Packages" [] Cyan ;;
  log "===================================================" [] Cyan ;;
  trusted <- loadTrustedPackages ;;
  log "Trusted packages configured: {}"
      [ANum (Z.of_nat (List.length trusted))] Reset ;;
  emitAll (map (fun t => Say Green "  * {} - {}"
                   [AVal (TrustEntry.name t); AVal (TrustEntry.reason t)])
               trusted) ;;
  installed <- getInstalledPackages ;;
  let toRebuild := collect installed trusted in
  match toRebuild with
  | [] =>
      log "No trusted packages require rebuild." [] Green ;;
      process_exit 0
  | _ =>
      log "Rebuilding {} trusted package(s)..."
          [ANum (Z.of_nat (List.length toRebuild))] Cyan ;;
      forOf toRebuild rebuildOne ;;
      log "All trusted package scripts executed successfully" [] Green ;;
      process_exit 0
  end.
End Run.

End RunTrustedScripts.

(** ** What the verifier reads *)

Module Audit.
(** The severity breakdown of [npm audit --json]; a count is [None]
    when its key is absent. *)
Record counts := mkCounts {
  critical : option Z;
  high : option Z;
  moderate : option Z;
  low : option Z;
  info : option Z
}.
Record metadata := mkMetadata { vulnerabilities : option counts }.
Record report := mkReport { metadata_of : option metadata }.

(** [{}] *)
Definition noCounts : counts := mkCounts None None None None None.

(** [result.metadata?.vulnerabilities || {}] *)
Definition breakdown (result : report) : counts :=
  match metadata_of result with
  | Some m => match vulnerabilities m with
              | Some v => v
              | None => noCounts
              end
  | None => noCounts
  end.

(** [n || 0] *)
Definition orZero (n : option Z) : Z :=
  match n with
  | Some k => k
  | None => 0
  end.
End Audit.

Module Version.
(** The text printed by [npm --version] and the Numbers its first two
    dot-separated parts convert to ([None] for [NaN] or a missing part). *)
Record t := mk { text : string; major : option Z; minor : option Z }.

(** [maj > 8 || (maj === 8 && min >= 15)] *)
Definition supportsSignatures (v : t) : bool :=
  match major v with
  | None => false
  | Some maj =>
      (8 <? maj) ||
      ((maj =? 8) && match minor v with
                     | Some min => 15 <=? min
                     | None => false
                     end)
  end.
End Version.

(** [.npmrc] as [existsSync] and [readFileSync] find it: not there,
    there but not to be read (a directory, or no permission), so that
    [readFileSync] throws, or there with its text. *)
Inductive ConfigFile :=
| Absent
| Unreadable
| Text (content : string).

(** The text of a file that can be read, if there is a file. *)
Definition ConfigFile_ofOption (file : option string) : ConfigFile :=
  match file with
  | Some content => Text content
  | None => Absent
  end.

#[warning="-uniform-inheritance"] Coercion ConfigFile_ofOption : option >-> ConfigFile.

Record World := mkWorld {
  npmrc : ConfigFile;
  package_lock_json : File Lock.t;
  trusted_packages_json : File TrustDocument.t;
  (** [npm audit --json 2>/dev/null || true]: [None] when [execSync]
      itself throws, otherwise the output as [JSON.parse] takes it *)
  npm_audit_json : option (option Audit.report);
  (** whether [npm audit --audit-level=high] exits with status 0 *)
  npm_audit_level_high : bool;
  (** [npm --version], [None] when the command fails *)
  npm_version : option Version.t;
  (** whether [npm audit signatures] exits with status 0 in time *)
  npm_audit_signatures : bool;
  (** the time value of [new Date()] *)
  now : Z
}.

(** [execSync('npm audit --json 2>/dev/null || true', ...)]: the output
    of the command, unless [execSync] throws. *)
Definition exec_npm_audit_json (world : World) : Proc (option Audit.report) :=
  match npm_audit_json world with
  | Some out => emit (Spawn NpmAuditJson true) ;; ret out
  | None => emit (Spawn NpmAuditJson false) ;; throw
  end.

(** [execSync('npm --version', ...)] *)
Definition exec_npm_version (world : World) : Proc Version.t :=
  match npm_version world with
  | Some ver => emit (Spawn NpmVersion true) ;; ret ver
  | None => emit (Spawn NpmVersion false) ;; throw
  end.

(** ** The integrity tally

    Both verifiers run the same loop over [Object.entries(packages)]. *)

Module Tally.
(** The counters are Numbers that only take whole values; they are
    exact as long as a lockfile has fewer than [2^53] entries. *)
Record t := mk {
  total : Z;
  withHash : Z;
  sha512 : Z;
  missing : list string
}.

Definition start : t := mk 0 0 0 [].

Definition step (st : t) (entry : string * LockEntry.t) : t :=
  let (name, pkg) := entry in
  if String.eqb name "" then st
  else
    match LockEntry.integrity pkg with
    | Some (String _ _ as digest) =>
        mk (total st + 1) (withHash st + 1)
           (if JsString.startsWith digest "sha512-"
            then sha512 st + 1 else sha512 st)
           (missing st)
    | _ =>
        mk (total st + 1) (withHash st) (sha512 st) (missing st ++ [name])
    end.

Definition of_entries (entries : list (string * LockEntry.t)) : t :=
  fold_left step entries start.

(** [((withHash / total) * 100).toFixed(1)] *)
Definition rate (st : t) : Number.fixed1 :=
  Number.toFixed1
    (Number.mul (Number.div (Number.ofZ (withHash st))
                            (Number.ofZ (total st)))
                (Number.ofZ 100)).

(** [rate >= 95]: the string is converted back to a Number. *)
Definition rateAtLeast95 (r : Number.fixed1) : bool :=
  Number.ge (Number.ofFixed1 r) (Number.ofZ 95).
End Tally.

Definition rule : Event := Say Reset "============================================================" [].

Definition msPerDay : Z := 1000 * 60 * 60 * 24.

(** [Math.floor((now - reviewed) / (1000 * 60 * 60 * 24))]; [None] is
    [NaN], the result for an invalid date.  Time values are integers;
    for two instants less than [2^52] ms apart (some 140 000 years) the
    difference is exact and the binary64 quotient differs from the exact
    one by less than its distance to the next whole number, so the floor
    is that of the exact quotient. *)
Definition daysSince (now : Z) (reviewed : JsDate) : option Z :=
  match reviewed with
  | Some t => Some ((now - t) / msPerDay)
  | None => None
  end.

(** [daysSince > 90] *)
Definition moreThan90 (d : option Z) : bool :=
  match d with
  | Some n => 90 <? n
  | None => false
  end.

(** ** The five-check verifier *)

Module VerifyPackages.

Definition log (m : string) (args : list Arg) : Proc unit :=
  emit (Say Reset m args).
Definition section (t : string) : Proc unit :=
  emitAll [rule; Say Cyan t []; rule].
Definition ok (m : string) (args : list Arg) : Proc unit :=
  emit (Say Green m args).
Definition warn (m : string) (args : list Arg) : Proc unit :=
  emit (Say Yellow m args).
Definition fail (m : string) (args : list Arg) : Proc unit :=
  emit (Say Red m args).

Definition required : list string :=
  ["ignore-scripts=true"; "audit-level"; "package-lock=true"; "strict-ssl=true"].
Definition recommended : list string :=
  ["save-exact=true"; "engine-strict=true"; "prefer-offline=true"; "optional=false"].

(** The first loop of [verifyNpmrc], [allGood] being its local flag. *)
Fixpoint checkRequired (content : string) (settings : list string)
    (allGood : bool) : Proc bool :=
  match settings with
  | [] => ret allGood
  | s :: rest =>
      let key := JsString.splitHead "=" s in
      if JsString.includes content key
      then ok "Required: {}" [AStr key] ;;
           checkRequired content rest allGood
      else warn "Missing required: {}" [AStr s] ;;
           checkRequired content rest false
  end.

(** The callback of [pkgs.forEach] in [verifyTrustedPackages]. *)
Definition reportEntry (p : option TrustEntry.t) : Proc unit :=
  match p with
  | None => throw
  | Some p =>
      if negb (JsString.truthy (TrustEntry.name p)) ||
         negb (JsString.truthy (TrustEntry.reason p))
      then warn "  Incomplete entry: {}" [AEntry p]
      else ok "  {} - {}" [AVal (TrustEntry.name p); AVal (TrustEntry.reason p)]
  end.

Section Checks.
Variable world : World.

(** *** 1. Integrity hashes *)
Definition verifyIntegrity : Proc bool :=
  section "Verifying package-lock.json Integrity Hashes" ;;
  match package_lock_json world with
  | Missing =>
      fail "package-lock.json not found! Run 'bun install' to generate it." [] ;;
      ret false
  | file =>
      try_catch
        (lock <- JSON_parse file ;;
         let st := Tally.of_entries (Lock.entries lock) in
         let missing := Tally.missing st in
         log "Total packages: {}" [ANum (Tally.total st)] ;;
         log "With integrity hashes: {}" [ANum (Tally.withHash st)] ;;
         log "With SHA-512: {}" [ANum (Tally.sha512 st)] ;;
         match missing with
         | [] => ret tt
         | _ =>
             warn "Missing integrity: {}" [ANum (Z.of_nat (List.length missing))] ;;
             emitAll (map (fun p => Say Yellow "  - {}" [AStr p])
                          (firstn 10 missing)) ;;
             if 10 <? Z.of_nat (List.length missing)
             then warn "  ... and {} more"
                       [ANum (Z.of_nat (List.length missing) - 10)]
             else ret tt
         end ;;
         let rate := Tally.rate st in
         if Tally.withHash st =? Tally.total st
         then ok "All packages have integrity hashes ({}%)" [ARate rate] ;;
              ret true
         else if Tally.rateAtLeast95 rate
         then warn "{}% of packages have integrity hashes" [ARate rate] ;;
              ret true
         else fail "Only {}% of packages have integrity hashes" [ARate rate] ;;
              ret false)
        (fail "Failed to parse package-lock.json" [] ;;
         ret false)
  end.

(** *** 2. Security audit *)
Definition runAudit : Proc bool :=
  section "Running Security Audit" ;;
  try_catch
    (out <- exec_npm_audit_json world ;;
         try_catch
           (result <- JSON_parse_output out ;;
            let v := Audit.breakdown result in
            let critical := Audit.orZero (Audit.critical v) in
            let high := Audit.orZero (Audit.high v) in
            let moderate := Audit.orZero (Audit.moderate v) in
            log "Vulnerabilities found:" [] ;;
            (if 0 <? critical then fail "  Critical: {}" [ANum critical]
             else log "  Critical: {}" [ANum critical]) ;;
            (if 0 <? high then fail "  High: {}" [ANum high]
             else log "  High: {}" [ANum high]) ;;
            (if 0 <? moderate then warn "  Moderate: {}" [ANum moderate]
             else log "  Moderate: {}" [ANum moderate]) ;;
            log "  Low: {}" [ANum (Audit.orZero (Audit.low v))] ;;
            log "  Info: {}" [ANum (Audit.orZero (Audit.info v))] ;;
            if (0 <? critical) || (0 <? high)
            then fail "Critical/high vulnerabilities found! Run 'npm audit fix'." [] ;;
                 ret false
            else (if 0 <? moderate
                  then warn "Moderate vulnerabilities found. Review with 'npm audit'." []
                  else ok "No significant vulnerabilities found" []) ;;
                 ret true)
           (warn "Could not parse audit JSON; running standard mode..." [] ;;
            try_catch
              (execSync NpmAuditLevelHigh (npm_audit_level_high world) ;;
               ok "Audit passed" [] ;;
               ret true)
              (fail "Audit failed" [] ;;
               ret false)))
    (fail "Audit error" [] ;;
     ret false).

(** *** 3. Signature support *)
Definition verifySignatures : Proc bool :=
  section "Checking Package Signature Verification" ;;
  try_catch
    (ver <- exec_npm_version world ;;
         log "npm version: {}" [AStr (Version.text ver)] ;;
         (if Version.supportsSignatures ver
          then ok "npm version supports signature verification" [] ;;
               try_catch
                 (execSync NpmAuditSignatures (npm_audit_signatures world) ;;
                  ok "Signature verification available" [])
                 (warn "Signature check skipped (registry support may be required)" [])
          else warn "npm {} has limited signature support - consider upgrading"
                    [AStr (Version.text ver)]) ;;
         ret true)
    (warn "Could not check npm version" [] ;;
     ret true).

(** *** 4. .npmrc validation *)
Definition verifyNpmrc : Proc bool :=
  section "Verifying .npmrc Security Configuration" ;;
  match npmrc world with
  | Absent => warn ".npmrc not found" [] ;; ret true
  | Unreadable => throw
  | Text content =>
      allGood <- checkRequired content required true ;;
      emitAll (map (fun s =>
                      let key := JsString.splitHead "=" s in
                      if JsString.includes content key
                      then Say Green "Recommended: {}" [AStr key]
                      else Say Yellow "Consider adding: {}" [AStr s])
                   recommended) ;;
      ret allGood
  end.

(** *** 5. Trusted packages validation *)
Definition verifyTrustedPackages : Proc bool :=
  section "Validating trusted-packages.json" ;;
  match trusted_packages_json world with
  | Missing =>
      warn "trusted-packages.json not found - no selective script execution configured" [] ;;
      ret true
  | file =>
      try_catch
        (cfg <- JSON_parse file ;;
         match cfg with
         | TrustDocument.Null => throw
         | TrustDocument.Object lastReviewed packages =>
             match packages with
             | TrustDocument.Falsy
             | TrustDocument.Array []
             | TrustDocument.EmptyLike =>
                 warn "Trusted packages list is empty" [] ;; ret true
             | TrustDocument.NotAnArray length =>
                 ok "{} trusted package(s) configured" [AStr length] ;;
                 throw
             | TrustDocument.Array pkgs =>
                 ok "{} trusted package(s) configured"
                    [ANum (Z.of_nat (List.length pkgs))] ;;
                 forOf pkgs reportEntry ;;
                 match lastReviewed with
                 | Some reviewed =>
                     let days := daysSince (now world) reviewed in
                     if moreThan90 days
                     then warn "Last reviewed {} days ago - due for quarterly review" [ADays days]
                     else ok "Last reviewed {} day(s) ago" [ADays days]
                 | None => ret tt
                 end ;;
                 ret true
             end
         end)
        (fail "Failed to parse trusted-packages.json" [] ;;
         ret false)
  end.

(** *** Main *)
Definition main : Proc unit :=
  try_catch
    (emit (Say Blue "Package Integrity Verification (Bun + npm-compat)" []) ;;
     emit (Say Blue "=====================================================" []) ;;
     r_npmrc <- verifyNpmrc ;;
     r_integrity <- verifyIntegrity ;;
     r_audit <- runAudit ;;
     r_signatures <- verifySignatures ;;
     r_trusted <- verifyTrustedPackages ;;
     let results := [("npmrc", r_npmrc); ("integrity", r_integrity);
                     ("audit", r_audit); ("signatures", r_signatures);
                     ("trusted", r_trusted)] in
     section "Verification Summary" ;;
     let allPassed := forallb snd results in
     emitAll (map (fun kv : string * bool =>
                     if snd kv then Say Green "{}: PASSED" [AStr (fst kv)]
                     else Say Red "{}: FAILED" [AStr (fst kv)])
                  results) ;;
     emit (Say Reset "" []) ;;
     (if allPassed then ok "All security verifications passed!" []
      else fail "Some verifications failed. Review output above." []) ;;
     process_exit (if allPassed then 0 else 1))
    (fail "Unexpected error" [] ;;
     process_exit 1).
End Checks.

End VerifyPackages.

(** ** The four-check verifier *)

Module VerifyPackagesLegacy.

Definition log (message : string) (args : list Arg) : Proc unit :=
  emit (Say Reset message args).
Definition logSection (title : string) : Proc unit :=
  emitAll [rule; Say Cyan title []; rule].
Definition logSuccess (message : string) (args : list Arg) : Proc unit :=
  emit (Say Green message args).
Definition logWarning (message : string) (args : list Arg) : Proc unit :=
  emit (Say Yellow message args).
Definition logError (message : string) (args : list Arg) : Proc unit :=
  emit (Say Red message args).

Definition requiredSettings : list string :=
  ["audit-level"; "package-lock=true"; "strict-ssl=true"].
Definition recommendedSettings : list string :=
  ["save-exact=true"; "engine-strict=true"; "prefer-offline=true"].

(** The first loop of [verifyNpmrcConfiguration]. *)
Fixpoint checkRequired (npmrc : string) (settings : list string)
    (allRequired : bool) : Proc bool :=
  match settings with
  | [] => ret allRequired
  | setting :: rest =>
      if JsString.includes npmrc (JsString.splitHead "=" setting)
      then logSuccess "Found required setting: {}"
             [AStr (JsString.splitHead "=" setting)] ;;
           checkRequired npmrc rest allRequired
      else logWarning "Missing required setting: {}" [AStr setting] ;;
           checkRequired npmrc rest false
  end.

Section Checks.
Variable world : World.

Definition verifyPackageLockIntegrity : Proc bool :=
  logSection "Verifying package-lock.json Integrity Hashes" ;;
  match package_lock_json world with
  | Missing =>
      logError "package-lock.json not found!" [] ;;
      logError "Run 'npm install' to generate package-lock.json" [] ;;
      ret false
  | file =>
      try_catch
        (lockfile <- JSON_parse file ;;
         let st := Tally.of_entries (Lock.entries lockfile) in
         let missingIntegrity := Tally.missing st in
         log "Total packages: {}" [ANum (Tally.total st)] ;;
         log "Packages with integrity hashes: {}" [ANum (Tally.withHash st)] ;;
         log "Packages with SHA-512 hashes: {}" [ANum (Tally.sha512 st)] ;;
         match missingIntegrity with
         | [] => ret tt
         | _ =>
             logWarning "Packages missing integrity hashes: {}"
               [ANum (Z.of_nat (List.length missingIntegrity))] ;;
             if Z.of_nat (List.length missingIntegrity) <=? 10
             then emitAll (map (fun pkg => Say Yellow "  - {}" [AStr pkg])
                               missingIntegrity)
             else emitAll (map (fun pkg => Say Yellow "  - {}" [AStr pkg])
                               (firstn 10 missingIntegrity)) ;;
                  logWarning "  ... and {} more"
                    [ANum (Z.of_nat (List.length missingIntegrity) - 10)]
         end ;;
         let integrityRate := Tally.rate st in
         if Tally.withHash st =? Tally.total st
         then logSuccess "All packages have integrity hashes ({}%)"
                [ARate integrityRate] ;;
              ret true
         else if Tally.rateAtLeast95 integrityRate
         then logWarning "{}% of packages have integrity hashes"
                [ARate integrityRate] ;;
              ret true
         else logError "Only {}% of packages have integrity hashes"
                [ARate integrityRate] ;;
              logError "Consider regenerating package-lock.json" [] ;;
              ret false)
        (logError "Failed to parse package-lock.json" [] ;;
         ret false)
  end.

Definition runSecurityAudit : Proc bool :=
  logSection "Running Security Audit" ;;
  try_catch
    (output <- exec_npm_audit_json world ;;
     try_catch
       (auditResult <- JSON_parse_output output ;;
        let vulnerabilities := Audit.breakdown auditResult in
        let critical := Audit.orZero (Audit.critical vulnerabilities) in
        let high := Audit.orZero (Audit.high vulnerabilities) in
        let moderate := Audit.orZero (Audit.moderate vulnerabilities) in
        let low := Audit.orZero (Audit.low vulnerabilities) in
        let info := Audit.orZero (Audit.info vulnerabilities) in
        log "Vulnerabilities found:" [] ;;
        (if 0 <? critical then logError "  Critical: {}" [ANum critical]
         else log "  Critical: {}" [ANum critical]) ;;
        (if 0 <? high then logError "  High: {}" [ANum high]
         else log "  High: {}" [ANum high]) ;;
        (if 0 <? moderate then logWarning "  Moderate: {}" [ANum moderate]
         else log "  Moderate: {}" [ANum moderate]) ;;
        log "  Low: {}" [ANum low] ;;
        log "  Info: {}" [ANum info] ;;
        if (0 <? critical) || (0 <? high)
        then logError "Critical or high severity vulnerabilities found!" [] ;;
             logError "Run 'npm audit' for details and 'npm audit fix' to attempt fixes" [] ;;
             ret false
        else if 0 <? moderate
        then logWarning "Moderate vulnerabilities found. Review with 'npm audit'" [] ;;
             ret true
        else logSuccess "No significant vulnerabilities found" [] ;;
             ret true)
       (logWarning "Could not parse audit results as JSON" [] ;;
        logWarning "Running npm audit in standard mode..." [] ;;
        try_catch
          (execSync NpmAuditLevelHigh (npm_audit_level_high world) ;;
           logSuccess "Security audit passed" [] ;;
           ret true)
          (logError "Security audit failed" [] ;;
           ret false)))
    (logError "Failed to run security audit" [] ;;
     ret false).

Definition verifySignatureSupport : Proc bool :=
  logSection "Checking Package Signature Verification" ;;
  try_catch
    (npmVersion <- exec_npm_version world ;;
     log "npm version: {}" [AStr (Version.text npmVersion)] ;;
     if Version.supportsSignatures npmVersion
     then logSuccess "npm version supports package signature verification" [] ;;
          try_catch
            (execSync NpmAuditSignatures (npm_audit_signatures world) ;;
             logSuccess "Package signature verification available" [])
            (logWarning "Signature verification check skipped (may require registry support)" []) ;;
          ret true
     else logWarning "npm {} has limited signature verification support"
            [AStr (Version.text npmVersion)] ;;
          logWarning "Consider upgrading to npm 8.15.0+ for full signature verification" [] ;;
          ret true)
    (logWarning "Could not verify npm version" [] ;;
     ret true).

Definition verifyNpmrcConfiguration : Proc bool :=
  logSection "Verifying .npmrc Security Configuration" ;;
  match npmrc world with
  | Absent =>
      logWarning ".npmrc file not found" [] ;;
      logWarning "Consider creating .npmrc with security settings" [] ;;
      ret true
  | Unreadable => throw
  | Text content =>
      allRequired <- checkRequired content requiredSettings true ;;
      emitAll (map (fun setting =>
                      if JsString.includes content (JsString.splitHead "=" setting)
                      then Say Green "Found recommended setting: {}"
                             [AStr (JsString.splitHead "=" setting)]
                      else Say Yellow "Consider adding: {}" [AStr setting])
                   recommendedSettings) ;;
      ret allRequired
  end.

(** The [results] object is created with the keys [integrity],
    [audit], [signatures], [npmrc] and keeps that order. *)
Definition main : Proc unit :=
  try_catch
    (emit (Say Blue "Package Integrity Verification" []) ;;
     emit (Say Blue "================================" []) ;;
     r_npmrc <- verifyNpmrcConfiguration ;;
     r_integrity <- verifyPackageLockIntegrity ;;
     r_audit <- runSecurityAudit ;;
     r_signatures <- verifySignatureSupport ;;
     let results := [("integrity", r_integrity); ("audit", r_audit);
                     ("signatures", r_signatures); ("npmrc", r_npmrc)] in
     logSection "Verification Summary" ;;
     let allPassed := forallb snd results in
     emitAll (map (fun kv : string * bool =>
                     if snd kv then Say Green "{}: PASSED" [AStr (fst kv)]
                     else Say Red "{}: FAILED" [AStr (fst kv)])
                  results) ;;
     emit (Say Reset "" []) ;;
     if allPassed
     then logSuccess "All security verifications passed!" [] ;;
          process_exit 0
     else logError "Some security verifications failed. Review the output above." [] ;;
          process_exit 1)
    (logError "Unexpected error" [] ;;
     process_exit 1).
End Checks.

End VerifyPackagesLegacy.

(** * Vocabulary of the statements *)

(** ** Runs of the script runner *)

(** [config.packages || []] *)
Definition trustedEntries (policy : TrustPolicy.t) : list TrustEntry.t :=
  match TrustPolicy.packages policy with
  | Some l => l
  | None => []
  end.

(** The non-root installed packages that match some trust entry, by
    name, in the order of the lockfile's package mapping. *)
Definition matchingPackages (policy : TrustPolicy.t) (lock : Lock.t)
    : list string :=
  map JsString.removeLeadingNodeModules
      (filter (fun key => negb (String.eqb key "") &&
                          RunTrustedScripts.matchesTrusted key
                            (trustedEntries policy))
              (map fst (Lock.entries lock))).

(** What a run of the runner sets out to rebuild: nothing unless the
    trust policy parses and the lockfile is there and parses. *)
Definition plannedRebuilds (world : RunTrustedScripts.World) : list string :=
  match RunTrustedScripts.trusted_packages_json world,
        RunTrustedScripts.package_lock_json world with
  | Parsed policy, Parsed lock => matchingPackages policy lock
  | _, _ => []
  end.

(** Rebuilding the packages [todo] one after the other until one fails:
    the invocations made, each with its result. *)
Fixpoint attempts (npm_rebuild : list (string * bool) -> string -> bool)
    (done : list (string * bool)) (todo : list string)
    : list (string * bool) :=
  match todo with
  | [] => []
  | pkg :: rest =>
      if npm_rebuild done pkg
      then (pkg, true) :: attempts npm_rebuild (done ++ [(pkg, true)]) rest
      else [(pkg, false)]
  end.

(** The texts that follow [npm rebuild] in the command lines of a run,
    in order. *)
Definition rebuildArguments {A} (r : Outcome A * Trace) : list string :=
  map fst (rebuilds (trace r)).

(** A character the shell leaves as it is inside a word: a letter, a
    digit, or one of [@ / . _ -]. *)
Definition wordChar (c : ascii) : bool :=
  let n := nat_of_ascii c in
  ((48 <=? n) && (n <=? 57) || (65 <=? n) && (n <=? 90) ||
   (97 <=? n) && (n <=? 122) ||
   (n =? 64) || (n =? 47) || (n =? 46) || (n =? 95) || (n =? 45))%nat.

Fixpoint wordChars (s : string) : bool :=
  match s with
  | EmptyString => true
  | String c rest => wordChar c && wordChars rest
  end.

(** A text that reaches the command as one argument, unchanged: it is
    not empty, holds such characters only, and does not start with a
    dash, which [npm] would read as an option. *)
Definition shellWord (s : string) : bool :=
  match s with
  | EmptyString => false
  | String c _ => negb (Ascii.eqb c "-") && wordChars s
  end.

(** The packages [npm] is asked to rebuild by the command line
    [npm rebuild] followed by [text].  For a text that is one word the
    shell starts [npm] with the arguments [rebuild] and that word.  Any
    other text (one with a blank, [;], [&], [|], [$], a quotation mark
    and the like) may be split or expanded by the shell, or start
    further commands; what then runs is left open, as [None]. *)
Definition rebuildTargets (text : string) : option (list string) :=
  if shellWord text then Some [text] else None.

Fixpoint targetsOf (calls : list (string * bool)) : option (list string) :=
  match calls with
  | [] => Some []
  | (text, _) :: rest =>
      match rebuildTargets text, targetsOf rest with
      | Some pkgs, Some more => Some (pkgs ++ more)
      | _, _ => None
      end
  end.

(** The packages for which a run invokes a rebuild, in order, where the
    command lines of the run determine them. *)
Definition rebuiltPackages {A} (r : Outcome A * Trace) : option (list string) :=
  targetsOf (rebuilds (trace r)).

(** No child process was started. *)
Definition spawnsNothing (tr : Trace) : Prop :=
  forall cmd b, ~ In (Spawn cmd b) tr.

(** ** Reading a trace *)

(** The section titles a trace prints, in order: every check of the
    verifiers opens with one. *)
Definition sectionTitle (e : Event) : list string :=
  match e with
  | Say Cyan title _ => [title]
  | _ => []
  end.

Definition sections (tr : Trace) : list string := flat_map sectionTitle tr.

(** The lines printed in red (failures). *)
Definition isFailure (e : Event) : bool :=
  match e with
  | Say Red _ _ => true
  | _ => false
  end.

Definition notFailure (e : Event) : bool := negb (isFailure e).

(** The lines printed in yellow (warnings). *)
Definition isWarning (e : Event) : bool :=
  match e with
  | Say Yellow _ _ => true
  | _ => false
  end.

Definition hasWarning (tr : Trace) : bool := existsb isWarning tr.
Definition hasFailure (tr : Trace) : bool := existsb isFailure tr.

(** A computation that never looks at what was printed before it: its
    outcome is the one it has from an empty trace, and it only adds the
    events it emits from an empty trace. *)
Definition Framed {A} (p : Proc A) : Prop :=
  forall tr, p tr = (fst (p []), tr ++ snd (p [])).

(** ** Verdicts of the checks *)

(** [key] occurs somewhere in [content]. *)
Definition occursIn (key content : string) : Prop :=
  exists before after, content = (before ++ key ++ after)%string.

(** The setting keys the configuration checks look for. *)
Definition requiredKeys : list string :=
  ["ignore-scripts"; "audit-level"; "package-lock"; "strict-ssl"].
Definition legacyRequiredKeys : list string :=
  ["audit-level"; "package-lock"; "strict-ssl"].

(** Verdicts of the checks, written as plain functions of what is read. *)
Definition npmrcVerdict (settings : list string) (file : ConfigFile) : bool :=
  match file with
  | Absent => true
  | Unreadable => false
  | Text content =>
      forallb (fun s => JsString.includes content (JsString.splitHead "=" s))
              settings
  end.

(** Non-root entries and those among them with a digest. *)
Definition nonRoot (lock : Lock.t) : list (string * LockEntry.t) :=
  filter (fun entry => negb (String.eqb (fst entry) "")) (Lock.entries lock).

Definition hasDigest (entry : string * LockEntry.t) : bool :=
  JsString.truthy (LockEntry.integrity (snd entry)).

Definition digestCount (lock : Lock.t) : Z :=
  Z.of_nat (List.length (filter hasDigest (nonRoot lock))).

Definition entryCount (lock : Lock.t) : Z :=
  Z.of_nat (List.length (nonRoot lock)).

Definition integrityVerdict (file : File Lock.t) : bool :=
  match file with
  | Parsed lock =>
      let st := Tally.of_entries (Lock.entries lock) in
      (Tally.withHash st =? Tally.total st) ||
      Tally.rateAtLeast95 (Tally.rate st)
  | _ => false
  end.

Definition auditVerdict (world : World) : bool :=
  match npm_audit_json world with
  | None => false
  | Some None => npm_audit_level_high world
  | Some (Some result) =>
      let v := Audit.breakdown result in
      negb ((0 <? Audit.orZero (Audit.critical v)) ||
            (0 <? Audit.orZero (Audit.high v)))
  end.

Definition isEntry (p : option TrustEntry.t) : bool :=
  match p with
  | Some _ => true
  | None => false
  end.

Definition documentVerdict (cfg : TrustDocument.t) : bool :=
  match cfg with
  | TrustDocument.Null => false
  | TrustDocument.Object _ (TrustDocument.NotAnArray _) => false
  | TrustDocument.Object _ (TrustDocument.Array pkgs) => forallb isEntry pkgs
  | TrustDocument.Object _ _ => true
  end.

Definition trustedVerdict (file : File TrustDocument.t) : bool :=
  match file with
  | Missing => true
  | Garbled => false
  | Parsed cfg => documentVerdict cfg
  end.

(** The verdict of the integrity check as a function of the two counts
    it rests on. *)
Definition verdictOfCounts (withHash total : Z) : bool :=
  (withHash =? total) ||
  Tally.rateAtLeast95 (Tally.rate (Tally.mk total withHash 0 [])).

(** For a lockfile of [total] packages and every number of digests, the
    check passes exactly at full coverage or at a coverage of at least
    94.95%. *)
Definition thresholdAgrees (total : nat) : bool :=
  forallb (fun withHash =>
             Bool.eqb (verdictOfCounts (Z.of_nat withHash) (Z.of_nat total))
                      ((withHash =? total)%nat ||
                       (1899 * Z.of_nat total <=? 2000 * Z.of_nat withHash)))
          (seq 0 (S total)).

(** The conjunction of the five verdicts; the signature check always passes. *)
Definition overallVerdict (world : World) : bool :=
  npmrcVerdict VerifyPackages.required (npmrc world) &&
  integrityVerdict (package_lock_json world) &&
  auditVerdict world &&
  true &&
  trustedVerdict (trusted_packages_json world).

(** The conjunction of the four verdicts of the earlier verifier. *)
Definition legacyOverallVerdict (world : World) : bool :=
  npmrcVerdict VerifyPackagesLegacy.requiredSettings (npmrc world) &&
  integrityVerdict (package_lock_json world) &&
  auditVerdict world &&
  true.

(** What the audit check of both verifiers returns, and the tone of
    what it prints. *)
Definition auditReturns (world : World) (verdict : bool) : Prop :=
  fst (run (VerifyPackages.runAudit world)) = Done verdict /\
  fst (run (VerifyPackagesLegacy.runSecurityAudit world)) = Done verdict.

Definition auditWarns (world : World) (warns : bool) : Prop :=
  hasWarning (trace (run (VerifyPackages.runAudit world))) = warns /\
  hasWarning (trace (run (VerifyPackagesLegacy.runSecurityAudit world))) = warns.

Definition auditReportsFailure (world : World) (fails : bool) : Prop :=
  hasFailure (trace (run (VerifyPackages.runAudit world))) = fails /\
  hasFailure (trace (run (VerifyPackagesLegacy.runSecurityAudit world))) = fails.

(** ** Sample inputs *)

(** A complete trust entry for the package [n]. *)
Definition entryNamed (n : string) : TrustEntry.t :=
  TrustEntry.mk (Some n) (Some "reviewed") None.

Definition policyOf (names : list string) : TrustPolicy.t :=
  TrustPolicy.mk None (Some "quarterly") (Some (map entryNamed names)).

(** A lockfile with the given install paths, all carrying a digest. *)
Definition lockOf (keys : list string) : Lock.t :=
  Lock.mk (Some (map (fun k => (k, LockEntry.mk (Some "sha512-AAAA"))) keys)).

(** Two trusted, installed packages; every rebuild fails. *)
Definition worldFirstRebuildFails : RunTrustedScripts.World :=
  RunTrustedScripts.mkWorld
    (Parsed (policyOf ["esbuild"; "sharp"]))
    (Parsed (lockOf [""; "node_modules/esbuild"; "node_modules/react";
                     "node_modules/sharp"]))
    false
    (fun _ _ => false).

(** The same files; every rebuild succeeds. *)
Definition worldRebuildsSucceed : RunTrustedScripts.World :=
  RunTrustedScripts.mkWorld
    (Parsed (policyOf ["esbuild"; "sharp"]))
    (Parsed (lockOf [""; "node_modules/esbuild"; "node_modules/react";
                     "node_modules/sharp"]))
    false
    (fun _ _ => true).

(** No trust policy on disk. *)
Definition worldNoPolicy : RunTrustedScripts.World :=
  RunTrustedScripts.mkWorld
    Missing
    (Parsed (lockOf [""; "node_modules/esbuild"]))
    false
    (fun _ _ => true).

Definition newline : string := String (ascii_of_nat 10) EmptyString.

Fixpoint joinLines (lines : list string) : string :=
  match lines with
  | [] => EmptyString
  | l :: rest => (l ++ newline ++ joinLines rest)%string
  end.

(** An [.npmrc] with every required and recommended setting. *)
Definition hardenedNpmrc : string :=
  joinLines ["ignore-scripts=true"; "audit-level=moderate"; "package-lock=true";
             "strict-ssl=true"; "save-exact=true"; "engine-strict=true";
             "prefer-offline=true"; "optional=false"].

(** The same without the script-blocking setting. *)
Definition npmrcWithoutIgnoreScripts : string :=
  joinLines ["audit-level=moderate"; "package-lock=true"; "strict-ssl=true";
             "save-exact=true"; "engine-strict=true"; "prefer-offline=true"].

Definition auditReport (critical high moderate low info : Z) : Audit.report :=
  Audit.mkReport (Some (Audit.mkMetadata (Some
    (Audit.mkCounts (Some critical) (Some high) (Some moderate)
                    (Some low) (Some info))))).

(** [n] copies of the letter x. *)
Fixpoint xs (n : nat) : string :=
  match n with
  | O => EmptyString
  | S k => String "x" (xs k)
  end.

(** [n] entries with pairwise distinct install paths under [stem]. *)
Fixpoint numbered (stem : string) (n : nat) (digest : JsString.value)
    : list (string * LockEntry.t) :=
  match n with
  | O => []
  | S k => ((stem ++ xs k)%string, LockEntry.mk digest) :: numbered stem k digest
  end.

(** A lockfile with the root entry, [withDigest] packages that carry an
    integrity digest and [without] packages that carry none. *)
Definition lockWithCoverage (withDigest without : nat) : Lock.t :=
  Lock.mk (Some (("", LockEntry.mk None)
                 :: numbered "node_modules/p" withDigest (Some "sha512-AAAA")
                 ++ numbered "node_modules/q" without None)).

(** A lockfile that holds the root entry only. *)
Definition rootOnlyLock : Lock.t := Lock.mk (Some [("", LockEntry.mk None)]).

(** A project in good order: every check passes. *)
Definition calmWorld : World :=
  mkWorld (Some hardenedNpmrc)
          (Parsed (lockWithCoverage 3 0))
          (Parsed (policyOf ["esbuild"]))
          (Some (Some (auditReport 0 0 0 0 0)))
          true
          (Some (Version.mk "10.2.4" (Some 10) (Some 2)))
          true
          1762041600000.

Definition withNpmrc (file : option string) (w : World) : World :=
  mkWorld file (package_lock_json w) (trusted_packages_json w)
          (npm_audit_json w) (npm_audit_level_high w) (npm_version w)
          (npm_audit_signatures w) (now w).

Definition withLock (file : File Lock.t) (w : World) : World :=
  mkWorld (npmrc w) file (trusted_packages_json w)
          (npm_audit_json w) (npm_audit_level_high w) (npm_version w)
          (npm_audit_signatures w) (now w).

Definition withAudit (out : option (option Audit.report)) (w : World) : World :=
  mkWorld (npmrc w) (package_lock_json w) (trusted_packages_json w)
          out (npm_audit_level_high w) (npm_version w)
          (npm_audit_signatures w) (now w).

(** The world in which the trust policy is [policy] and the clock shows
    [instant]. *)
Definition withPolicyAt (policy : TrustPolicy.t) (instant : Z) (w : World)
    : World :=
  mkWorld (npmrc w) (package_lock_json w) (Parsed policy)
          (npm_audit_json w) (npm_audit_level_high w) (npm_version w)
          (npm_audit_signatures w) instant.

(** [policy] with another last-reviewed date. *)
Definition reviewedOn (date : option JsDate) (policy : TrustPolicy.t)
    : TrustPolicy.t :=
  TrustPolicy.mk date (TrustPolicy.reviewCadence policy)
                 (TrustPolicy.packages policy).

(** * Further vocabulary *)

(** The commands a trace hands to [execSync], in order, each with its
    result. *)
Fixpoint spawns (tr : Trace) : list (Command * bool) :=
  match tr with
  | [] => []
  | Spawn cmd b :: rest => (cmd, b) :: spawns rest
  | _ :: rest => spawns rest
  end.

Definition asRebuild (r : string * bool) : Command * bool :=
  (NpmRebuild (fst r), snd r).

(** Every command line of the trace is an [npm rebuild] one. *)
Definition onlyRebuilds (tr : Trace) : Prop :=
  spawns tr = map asRebuild (rebuilds tr).

(** A computation that hands no command line to [execSync] but
    [npm rebuild] ones. *)
Definition KeepsToRebuilds {A} (p : Proc A) : Prop :=
  forall tr, onlyRebuilds tr -> onlyRebuilds (snd (p tr)).

(** How one entry of the trust list covers a package name: by its name,
    or, for an entry without a name, by the text [undefined]. *)
Definition entryCovers (pkgName : string) (t : TrustEntry.t) : Prop :=
  match TrustEntry.name t with
  | Some n => pkgName = n \/ exists rest, pkgName = (n ++ "/" ++ rest)%string
  | None => exists rest, pkgName = ("undefined/" ++ rest)%string
  end.

(** The non-root install paths of a lockfile. *)
Definition installedKeys (lock : Lock.t) : list string :=
  filter (fun k => negb (String.eqb k "")) (map fst (Lock.entries lock)).

(** The lines of a trace with the given colour and text. *)
Definition isLine (c : Color) (text : string) (e : Event) : bool :=
  match e with
  | Say c' text' _ =>
      match c, c' with
      | Reset, Reset | Red, Red | Green, Green
      | Yellow, Yellow | Blue, Blue | Cyan, Cyan => String.eqb text text'
      | _, _ => false
      end
  | Spawn _ _ => false
  end.

Definition linesOf (c : Color) (text : string) (tr : Trace) : list Event :=
  filter (isLine c text) tr.

(** A lockfile entry without a usable digest: the field is absent or empty. *)
Definition lacksDigest (entry : string * LockEntry.t) : bool :=
  negb (hasDigest entry).

(** A lockfile entry whose digest is marked as SHA-512. *)
Definition isSha512 (entry : string * LockEntry.t) : bool :=
  match LockEntry.integrity (snd entry) with
  | Some digest => JsString.startsWith digest "sha512-"
  | None => false
  end.

(** The preview line of a package without digest. *)
Definition previewLine (name : string) : Event :=
  Say Yellow "  - {}" [AStr name].

(** A lockfile with the given install paths, all carrying a SHA-1 digest. *)
Definition sha1LockOf (keys : list string) : Lock.t :=
  Lock.mk (Some (map (fun k => (k, LockEntry.mk (Some "sha1-AAAA"))) keys)).

(** The world with another answer of [npm --version] and another
    result of [npm audit signatures]. *)
Definition withNpm (version : option Version.t) (signatures : bool) (w : World)
    : World :=
  mkWorld (npmrc w) (package_lock_json w) (trusted_packages_json w)
          (npm_audit_json w) (npm_audit_level_high w) version
          signatures (now w).

(** Whether [npm --version] answers with a version that supports
    signature verification. *)
Definition signaturesSupported (world : World) : bool :=
  match npm_version world with
  | Some ver => Version.supportsSignatures ver
  | None => false
  end.

(** A trust entry the validation reports as incomplete: its name or its
    reason is missing or empty. *)
Definition incomplete (p : TrustEntry.t) : bool :=
  negb (JsString.truthy (TrustEntry.name p)) ||
  negb (JsString.truthy (TrustEntry.reason p)).

Definition incompleteLine (p : TrustEntry.t) : Event :=
  Say Yellow "  Incomplete entry: {}" [AEntry p].

Definition completeLine (p : TrustEntry.t) : Event :=
  Say Green "  {} - {}" [AVal (TrustEntry.name p); AVal (TrustEntry.reason p)].

(** A computation that prints but starts no child process. *)
Definition Silent {A} (p : Proc A) : Prop :=
  forall tr, spawns (snd (p tr)) = spawns tr.

(** What a check answered, for a check that ran to its [return]. *)
Definition returned (r : Outcome bool * Trace) : bool :=
  match fst r with
  | Done b => b
  | _ => false
  end.

(** The [results] object of the five-check verifier, as
    [Object.entries] enumerates it. *)
Definition checkResults (world : World) : list (string * bool) :=
  [("npmrc", returned (run (VerifyPackages.verifyNpmrc world)));
   ("integrity", returned (run (VerifyPackages.verifyIntegrity world)));
   ("audit", returned (run (VerifyPackages.runAudit world)));
   ("signatures", returned (run (VerifyPackages.verifySignatures world)));
   ("trusted", returned (run (VerifyPackages.verifyTrustedPackages world)))].

(** The [results] object of the four-check verifier: its keys keep the
    order of the object literal, not that of the assignments. *)
Definition legacyCheckResults (world : World) : list (string * bool) :=
  [("integrity",
    returned (run (VerifyPackagesLegacy.verifyPackageLockIntegrity world)));
   ("audit", returned (run (VerifyPackagesLegacy.runSecurityAudit world)));
   ("signatures",
    returned (run (VerifyPackagesLegacy.verifySignatureSupport world)));
   ("npmrc",
    returned (run (VerifyPackagesLegacy.verifyNpmrcConfiguration world)))].

Definition verdictLine (kv : string * bool) : Event :=
  if snd kv then Say Green "{}: PASSED" [AStr (fst kv)]
  else Say Red "{}: FAILED" [AStr (fst kv)].

(** The summary both verifiers end with. *)
Definition summaryOf (results : list (string * bool)) (passed failed : string)
    : Trace :=
  [rule; Say Cyan "Verification Summary" []; rule]
  ++ map verdictLine results
  ++ [Say Reset "" [];
      if forallb snd results then Say Green passed [] else Say Red failed []].

(** The child processes of the audit check and of the signature check. *)
Definition auditChildren (world : World) : list (Command * bool) :=
  match npm_audit_json world with
  | None => [(NpmAuditJson, false)]
  | Some None => [(NpmAuditJson, true);
                  (NpmAuditLevelHigh, npm_audit_level_high world)]
  | Some (Some _) => [(NpmAuditJson, true)]
  end.

Definition signatureChildren (world : World) : list (Command * bool) :=
  match npm_version world with
  | None => [(NpmVersion, false)]
  | Some ver =>
      (NpmVersion, true)
      :: (if Version.supportsSignatures ver
          then [(NpmAuditSignatures, npm_audit_signatures world)]
          else [])
  end.

(** The settings of a list whose key does not occur in the text of an
    [.npmrc]. *)
Definition missingFrom (content : string) (settings : list string)
    : list string :=
  filter (fun s => negb (JsString.includes content (JsString.splitHead "=" s)))
         settings.

(** What the runner's loop leaves in the trace for one rebuild: the
    announcement, the command, and the line on its result. *)
Definition attemptLines (attempt : string * bool) : Trace :=
  [Say Yellow "  Rebuilding: {}" [AStr (fst attempt)];
   Spawn (NpmRebuild (fst attempt)) (snd attempt);
   if snd attempt
   then Say Green "  {} rebuilt successfully" [AStr (fst attempt)]
   else Say Red "  Failed to rebuild {}" [AStr (fst attempt)]].

(** ** Trust documents of any layout *)

(** The entries of a list that come before its first [null]. *)
Fixpoint beforeNull {A} (l : list (option A)) : list A :=
  match l with
  | Some a :: rest => a :: beforeNull rest
  | _ => []
  end.

(** The line the validation prints for an entry. *)
Definition entryLine (p : TrustEntry.t) : Event :=
  if incomplete p then incompleteLine p else completeLine p.

(** The line on the review date, if the document has one. *)
Definition reviewLines (now : Z) (lastReviewed : option JsDate) : Trace :=
  match lastReviewed with
  | Some reviewed =>
      [if moreThan90 (daysSince now reviewed)
       then Say Yellow "Last reviewed {} days ago - due for quarterly review"
              [ADays (daysSince now reviewed)]
       else Say Green "Last reviewed {} day(s) ago"
              [ADays (daysSince now reviewed)]]
  | None => []
  end.


(** The world with another trust document. *)
Definition withTrustDocument (cfg : TrustDocument.t) (w : World) : World :=
  mkWorld (npmrc w) (package_lock_json w) (Parsed cfg)
          (npm_audit_json w) (npm_audit_level_high w) (npm_version w)
          (npm_audit_signatures w) (now w).

(** The world in which [.npmrc] is there and cannot be read. *)
Definition withUnreadableNpmrc (w : World) : World :=
  mkWorld Unreadable (package_lock_json w) (trusted_packages_json w)
          (npm_audit_json w) (npm_audit_level_high w) (npm_version w)
          (npm_audit_signatures w) (now w).


(** * Properties *)

(** ** Strings *)

Lemma startsWith_append (p rest : string) :
  JsString.startsWith (p ++ rest)%string p = true.
Proof.
  induction p as [|b p IH]; simpl.
  - reflexivity.
  - now rewrite Ascii.eqb_refl, IH.
Qed.

Lemma startsWith_inv (s p : string) :
  JsString.startsWith s p = true -> exists rest, s = (p ++ rest)%string.
Proof.
  revert s; induction p as [|b p IH]; intros s H.
  - now exists s.
  - destruct s as [|a s]; simpl in H; [discriminate|].
    apply andb_true_iff in H as [Hab Hs].
    apply Ascii.eqb_eq in Hab; subst b.
    destruct (IH _ Hs) as [rest ->].
    now exists rest.
Qed.

Lemma startsWith_iff (s p : string) :
  JsString.startsWith s p = true <-> exists rest, s = (p ++ rest)%string.
Proof.
  split.
  - apply startsWith_inv.
  - intros [rest ->]. apply startsWith_append.
Qed.

Lemma append_assoc (a b c : string) :
  ((a ++ b) ++ c = a ++ (b ++ c))%string.
Proof.
  induction a as [|x a IH]; simpl; [reflexivity | now rewrite IH].
Qed.

Lemma includes_iff (s sub : string) :
  JsString.includes s sub = true <->
  exists before after, s = (before ++ sub ++ after)%string.
Proof.
  induction s as [|a s IH]; simpl.
  - rewrite orb_false_r, startsWith_iff. split.
    + intros [rest H]. now exists EmptyString, rest.
    + intros [[|x before] [after H]]; simpl in H.
      * now exists after.
      * discriminate.
  - rewrite orb_true_iff, startsWith_iff, IH. split.
    + intros [[rest H] | [before [after H]]].
      * now exists EmptyString, rest.
      * exists (String a before), after. simpl. now rewrite H.
    + intros [[|x before] [after H]]; simpl in H.
      * left. now exists after.
      * right. injection H as _ H. now exists before, after.
Qed.

(** ** C1: the matching rule *)

Lemma matchesTrusted_exists (pkgPath : string) (trustedList : list TrustEntry.t) :
  RunTrustedScripts.matchesTrusted pkgPath trustedList = true <->
  exists t, In t trustedList /\
    (JsString.strictEq (JsString.removeLeadingNodeModules pkgPath)
                       (TrustEntry.name t) = true \/
     JsString.startsWith (JsString.removeLeadingNodeModules pkgPath)
                         (JsString.plus (TrustEntry.name t) "/") = true).
Proof.
  unfold RunTrustedScripts.matchesTrusted.
  rewrite existsb_exists.
  split; intros [t [Hin H]]; exists t; split; trivial.
  - now apply orb_true_iff.
  - now apply orb_true_iff.
Qed.

(** C1.  When every entry of the trust list has a name, an installed
    package (its lockfile key without the leading [node_modules/])
    matches the list exactly when some entry's name equals it or is
    followed in it by a slash; [foo-bar] does not match [foo],
    [@scope/esbuild] does not match [esbuild], and [esbuild] does. *)
Theorem matchesTrusted_equal_or_slash_prefix :
  (forall (trustedList : list TrustEntry.t) (pkgPath : string),
      Forall (fun t => TrustEntry.name t <> None) trustedList ->
      RunTrustedScripts.matchesTrusted pkgPath trustedList = true <->
      exists t n,
        In t trustedList /\ TrustEntry.name t = Some n /\
        (JsString.removeLeadingNodeModules pkgPath = n \/
         exists rest,
           JsString.removeLeadingNodeModules pkgPath = (n ++ "/" ++ rest)%string))
  /\ RunTrustedScripts.matchesTrusted "node_modules/foo-bar" [entryNamed "foo"] = false
  /\ RunTrustedScripts.matchesTrusted "node_modules/@scope/esbuild"
       [entryNamed "esbuild"] = false
  /\ RunTrustedScripts.matchesTrusted "node_modules/esbuild"
       [entryNamed "esbuild"] = true.
Proof.
  split; [|repeat split; reflexivity].
  intros trustedList pkgPath Hnamed.
  rewrite matchesTrusted_exists.
  rewrite Forall_forall in Hnamed.
  split.
  - intros [t [Hin H]].
    destruct (TrustEntry.name t) as [n|] eqn:Hn; [|now apply Hnamed in Hin].
    exists t, n. repeat split; trivial.
    destruct H as [H | H]; simpl in H.
    + left. now apply String.eqb_eq.
    + right. apply startsWith_inv in H as [rest H].
      exists rest. now rewrite H, append_assoc.
  - intros [t [n [Hin [Hn H]]]].
    exists t. split; trivial. rewrite Hn. simpl.
    destruct H as [H | [rest H]].
    + left. now apply String.eqb_eq.
    + right. rewrite H, <- append_assoc. apply startsWith_append.
Qed.

Lemma matchesTrusted_equal_or_slash_prefix_witness :
  Forall (fun t => TrustEntry.name t <> None) [entryNamed "esbuild"] /\
  (RunTrustedScripts.matchesTrusted "node_modules/esbuild/bin"
     [entryNamed "esbuild"] = true <->
   exists t n,
     In t [entryNamed "esbuild"] /\ TrustEntry.name t = Some n /\
     (JsString.removeLeadingNodeModules "node_modules/esbuild/bin" = n \/
      exists rest,
        JsString.removeLeadingNodeModules "node_modules/esbuild/bin"
        = (n ++ "/" ++ rest)%string)).
Proof.
  assert (H : Forall (fun t => TrustEntry.name t <> None) [entryNamed "esbuild"]).
  { constructor; [discriminate | constructor]. }
  split; [exact H|].
  exact (proj1 matchesTrusted_equal_or_slash_prefix
           [entryNamed "esbuild"] "node_modules/esbuild/bin" H).
Defined.

(** An entry without a name is compared as the text [undefined]
    followed by a slash; equality with it never holds. *)
Lemma matchesTrusted_nameless_entry :
  RunTrustedScripts.matchesTrusted "node_modules/undefined/x"
    [TrustEntry.mk None (Some "reviewed") None] = true /\
  RunTrustedScripts.matchesTrusted "node_modules/undefined"
    [TrustEntry.mk None (Some "reviewed") None] = false.
Proof. split; reflexivity. Qed.

(** ** The runner's rebuild loop *)

Lemma rebuilds_app (a b : Trace) :
  rebuilds (a ++ b) = rebuilds a ++ rebuilds b.
Proof.
  induction a as [|e a IH]; simpl; [reflexivity|].
  destruct e as [c text args | [pkg| | | |] ok]; simpl; now rewrite ?IH.
Qed.

Lemma collect_filter (installed : list string) (trusted : list TrustEntry.t) :
  RunTrustedScripts.collect installed trusted =
  map JsString.removeLeadingNodeModules
      (filter (fun key => RunTrustedScripts.matchesTrusted key trusted) installed).
Proof.
  induction installed as [|k rest IH]; simpl; [reflexivity|].
  destruct (RunTrustedScripts.matchesTrusted k trusted); simpl; now rewrite IH.
Qed.

Lemma filter_filter {A} (f g : A -> bool) (l : list A) :
  filter f (filter g l) = filter (fun x => g x && f x) l.
Proof.
  induction l as [|x l IH]; simpl; [reflexivity|].
  destruct (g x); simpl; [destruct (f x)|]; now rewrite IH.
Qed.

Lemma collect_matchingPackages (policy : TrustPolicy.t) (lock : Lock.t) :
  RunTrustedScripts.collect
    (filter (fun k => negb (String.eqb k "")) (map fst (Lock.entries lock)))
    (trustedEntries policy)
  = matchingPackages policy lock.
Proof.
  unfold matchingPackages. now rewrite collect_filter, filter_filter.
Qed.

Lemma rebuildOne_result (world : RunTrustedScripts.World) (pkg : string)
    (tr : Trace) :
  let ok := RunTrustedScripts.npm_rebuild world (rebuilds tr) pkg in
  exists tr',
    RunTrustedScripts.rebuildOne world pkg tr = (if ok then Done tt else Exited 1, tr') /\
    rebuilds tr' = rebuilds tr ++ [(pkg, ok)].
Proof.
  unfold RunTrustedScripts.rebuildOne, try_catch, bind, RunTrustedScripts.log, emit,
    RunTrustedScripts.execSync_rebuild, process_exit.
  simpl. rewrite rebuilds_app, app_nil_r.
  destruct (RunTrustedScripts.npm_rebuild world (rebuilds tr) pkg); simpl.
  - eexists; split; [reflexivity|].
    rewrite !rebuilds_app. simpl. now rewrite !app_nil_r.
  - eexists; split; [reflexivity|].
    rewrite !rebuilds_app. simpl. now rewrite !app_nil_r.
Qed.

Lemma forOf_rebuildOne (world : RunTrustedScripts.World) (todo : list string) :
  forall tr,
    let made := attempts (RunTrustedScripts.npm_rebuild world) (rebuilds tr) todo in
    exists tr',
      forOf todo (RunTrustedScripts.rebuildOne world) tr
      = (if forallb snd made then Done tt else Exited 1, tr') /\
      rebuilds tr' = rebuilds tr ++ made.
Proof.
  induction todo as [|pkg rest IH]; intros tr; simpl.
  - exists tr. split; [reflexivity | now rewrite app_nil_r].
  - destruct (rebuildOne_result world pkg tr) as [tr1 [Hrun Hreb]].
    unfold bind at 1. rewrite Hrun.
    destruct (RunTrustedScripts.npm_rebuild world (rebuilds tr) pkg); simpl.
    + destruct (IH tr1) as [tr2 [Hloop Hreb2]].
      rewrite Hreb in Hloop, Hreb2.
      exists tr2. split; [exact Hloop|].
      now rewrite Hreb2, <- app_assoc.
    + exists tr1. split; [reflexivity | exact Hreb].
Qed.

(** ** Shapes of [attempts] *)

Lemma attempts_prefix npm_rebuild (todo : list string) :
  forall done, exists rest,
    todo = map fst (attempts npm_rebuild done todo) ++ rest.
Proof.
  induction todo as [|pkg todo IH]; intros done; simpl.
  - now exists [].
  - destruct (npm_rebuild done pkg); simpl.
    + destruct (IH (done ++ [(pkg, true)])) as [rest H].
      exists rest. now rewrite <- H.
    + now exists todo.
Qed.

Lemma attempts_all_succeed npm_rebuild (todo : list string) :
  forall done,
    forallb snd (attempts npm_rebuild done todo) = true ->
    map fst (attempts npm_rebuild done todo) = todo.
Proof.
  induction todo as [|pkg todo IH]; intros done; simpl; [reflexivity|].
  destruct (npm_rebuild done pkg); simpl; [|discriminate].
  intros H. now rewrite IH.
Qed.

Lemma attempts_failure_last npm_rebuild (todo : list string) :
  forall done,
    forallb snd (attempts npm_rebuild done todo) = false ->
    exists before pkg,
      attempts npm_rebuild done todo = before ++ [(pkg, false)] /\
      forallb snd before = true.
Proof.
  induction todo as [|pkg todo IH]; intros done; simpl; [discriminate|].
  destruct (npm_rebuild done pkg); simpl.
  - intros H. destruct (IH _ H) as [before [p [-> Hb]]].
    exists ((pkg, true) :: before), p. now split.
  - intros _. now exists [], pkg.
Qed.

Lemma forallb_snd_true (l : list (string * bool)) :
  forallb snd l = true <-> forall p b, In (p, b) l -> b = true.
Proof.
  rewrite forallb_forall. split.
  - intros H p b Hin. exact (H _ Hin).
  - intros H [p b] Hin. exact (H _ _ Hin).
Qed.

(** ** Runs of the runner *)

Lemma rebuilds_map_Say {A} (f : A -> Event) (l : list A) :
  (forall x, exists c text args, f x = Say c text args) ->
  rebuilds (map f l) = [].
Proof.
  intros Hf. induction l as [|x l IH]; simpl; [reflexivity|].
  destruct (Hf x) as [c [text [args ->]]]. exact IH.
Qed.

Ltac says := intros ?; do 3 eexists; reflexivity.

(** Computes [rebuilds] of a trace built from console output. *)
Ltac quiet_trace :=
  repeat (progress (simpl; rewrite ?rebuilds_app));
  rewrite ?rebuilds_map_Say by says;
  simpl.

Lemma main_when_loaded (world : RunTrustedScripts.World) (policy : TrustPolicy.t) :
  RunTrustedScripts.trusted_packages_json world = Parsed policy ->
  RunTrustedScripts.package_lock_json world <> Garbled ->
  let made := attempts (RunTrustedScripts.npm_rebuild world) []
                       (plannedRebuilds world) in
  exists tr,
    run (RunTrustedScripts.main world)
    = (Exited (if forallb snd made then 0 else 1), tr) /\
    rebuilds tr = made.
Proof.
  intros Hpolicy Hlock.
  unfold plannedRebuilds. rewrite Hpolicy.
  unfold run, RunTrustedScripts.main, RunTrustedScripts.loadTrustedPackages,
    RunTrustedScripts.getInstalledPackages.
  rewrite Hpolicy.
  destruct (RunTrustedScripts.package_lock_json world) as [| |lock] eqn:Hfile;
    [|contradiction|].
  - unfold bind, RunTrustedScripts.log, emit, emitAll, ret, JSON_parse,
      process_exit.
    destruct (RunTrustedScripts.bun_lockb world); simpl;
      (eexists; split; [reflexivity|]);
      quiet_trace; reflexivity.
  - unfold JSON_parse.
    unfold bind at 1 2 3 4 5 6 7. unfold RunTrustedScripts.log, emit, emitAll, ret.
    simpl.
    change (match TrustPolicy.packages policy with
            | Some l => l
            | None => []
            end) with (trustedEntries policy).
    rewrite collect_matchingPackages.
    destruct (matchingPackages policy lock) as [|pkg todo] eqn:Hplan.
    + unfold bind, RunTrustedScripts.log, emit, process_exit.
      simpl. eexists; split; [reflexivity|].
      quiet_trace; reflexivity.
    + set (plan := pkg :: todo) in *.
      unfold bind at 1; cbv beta iota.
      unfold bind at 1; cbv beta.
      match goal with
      | |- context [forOf ?l ?body ?tr] =>
          assert (Hpre : rebuilds tr = []) by (quiet_trace; reflexivity);
          destruct (forOf_rebuildOne world l tr) as [tr' [Hloop Hreb]];
          rewrite Hpre in Hloop, Hreb
      end.
      simpl in Hreb. rewrite Hloop.
      destruct (forallb snd (attempts (RunTrustedScripts.npm_rebuild world) [] plan));
        unfold bind, RunTrustedScripts.log, emit, process_exit;
        (eexists; split; [reflexivity|]).
      * rewrite rebuilds_app, Hreb. simpl. now rewrite app_nil_r.
      * exact Hreb.
Qed.

Lemma main_without_policy (world : RunTrustedScripts.World) :
  RunTrustedScripts.trusted_packages_json world = Missing ->
  run (RunTrustedScripts.main world)
  = (Exited 1,
     [Say Cyan "Selective Script Execution for Trusted Packages" [];
      Say Cyan "===================================================" [];
      Say Red "trusted-packages.json not found" []]).
Proof.
  intros Hpolicy.
  unfold run, RunTrustedScripts.main, RunTrustedScripts.loadTrustedPackages.
  now rewrite Hpolicy.
Qed.

Lemma main_not_loaded (world : RunTrustedScripts.World) :
  (forall policy,
      RunTrustedScripts.trusted_packages_json world = Parsed policy ->
      RunTrustedScripts.package_lock_json world = Garbled) ->
  rebuilds (trace (run (RunTrustedScripts.main world))) = [] /\
  exitCode (run (RunTrustedScripts.main world)) = 1.
Proof.
  intros Hnot.
  destruct (RunTrustedScripts.trusted_packages_json world) as [| |policy] eqn:Hpolicy.
  - now rewrite (main_without_policy world Hpolicy).
  - unfold run, RunTrustedScripts.main, RunTrustedScripts.loadTrustedPackages.
    now rewrite Hpolicy.
  - specialize (Hnot policy eq_refl).
    unfold run, RunTrustedScripts.main, RunTrustedScripts.loadTrustedPackages,
      RunTrustedScripts.getInstalledPackages.
    rewrite Hpolicy, Hnot.
    unfold bind, RunTrustedScripts.log, emit, emitAll, ret, JSON_parse, throw,
      exitCode, trace.
    simpl. split; [|reflexivity].
    now rewrite rebuilds_map_Say by says.
Qed.

(** ** C2: which packages are rebuilt *)

Lemma targetsOf_words (calls : list (string * bool)) :
  Forall (fun pkg => shellWord pkg = true) (map fst calls) ->
  targetsOf calls = Some (map fst calls).
Proof.
  induction calls as [|[text ok] calls IH]; intros Hall; simpl.
  - reflexivity.
  - inversion Hall as [|? ? Hword Hrest]; subst. simpl in Hword.
    unfold rebuildTargets. now rewrite Hword, (IH Hrest).
Qed.

(** C2, as stated, fails: with two trusted, installed packages and a
    first rebuild that fails, [sharp] matches the policy and is never
    rebuilt, so the packages rebuilt are not the matching set. *)
Lemma rebuilt_set_differs_after_failure :
  RunTrustedScripts.trusted_packages_json worldFirstRebuildFails
    = Parsed (policyOf ["esbuild"; "sharp"]) /\
  RunTrustedScripts.package_lock_json worldFirstRebuildFails
    = Parsed (lockOf [""; "node_modules/esbuild"; "node_modules/react";
                      "node_modules/sharp"]) /\
  rebuiltPackages (run (RunTrustedScripts.main worldFirstRebuildFails))
  = Some ["esbuild"] /\
  ~ (forall pkg,
        In pkg ["esbuild"]
        <-> In pkg (matchingPackages
                      (policyOf ["esbuild"; "sharp"])
                      (lockOf [""; "node_modules/esbuild"; "node_modules/react";
                               "node_modules/sharp"]))).
Proof.
  repeat split.
  intros H.
  assert (Hin : In "sharp" ["esbuild"]).
  { apply H. vm_compute. auto. }
  destruct Hin as [Hin | []]. discriminate.
Qed.

(** C2, amended.  With a trust policy and a lockfile that parse, the
    command lines run are, in order, [npm rebuild] followed by the names
    of an initial part of the list of non-root installed packages
    matching some trust entry (in lockfile order): the list is gone
    through in full when no invoked rebuild fails, and only the last
    invocation of a run can be a failing one.  When every name of that
    list is a single word for the shell, each command line rebuilds the
    one package it names, so that no package outside the list is
    rebuilt. *)
Theorem rebuilds_are_prefix_of_matching
    (world : RunTrustedScripts.World) (policy : TrustPolicy.t) (lock : Lock.t) :
  RunTrustedScripts.trusted_packages_json world = Parsed policy ->
  RunTrustedScripts.package_lock_json world = Parsed lock ->
  let r := run (RunTrustedScripts.main world) in
  (exists rest, matchingPackages policy lock = rebuildArguments r ++ rest) /\
  ((forall pkg ok, In (pkg, ok) (rebuilds (trace r)) -> ok = true) ->
   rebuildArguments r = matchingPackages policy lock) /\
  (forall before pkg ok after,
      rebuilds (trace r) = before ++ (pkg, ok) :: after ->
      after <> [] -> ok = true) /\
  (Forall (fun pkg => shellWord pkg = true) (matchingPackages policy lock) ->
   rebuiltPackages r = Some (rebuildArguments r) /\
   forall pkg, In pkg (rebuildArguments r) ->
               In pkg (matchingPackages policy lock)).
Proof.
  intros Hpolicy Hlock r.
  assert (Hok : RunTrustedScripts.package_lock_json world <> Garbled)
    by (rewrite Hlock; discriminate).
  destruct (main_when_loaded world policy Hpolicy Hok) as [tr [Hrun Hreb]].
  assert (Hplan : plannedRebuilds world = matchingPackages policy lock)
    by (unfold plannedRebuilds; now rewrite Hpolicy, Hlock).
  rewrite Hplan in Hrun, Hreb.
  unfold rebuiltPackages, rebuildArguments, r. rewrite Hrun. unfold trace.
  simpl snd. rewrite Hreb.
  set (oracle := RunTrustedScripts.npm_rebuild world).
  destruct (attempts_prefix oracle (matchingPackages policy lock) [])
    as [rest Hrest].
  split; [|split; [|split]].
  - now exists rest.
  - intros Hall. apply attempts_all_succeed. now apply forallb_snd_true.
  - intros before pkg ok after Hsplit Hafter.
    destruct (forallb snd (attempts oracle [] (matchingPackages policy lock)))
      eqn:Hall.
    + rewrite forallb_snd_true in Hall. apply (Hall pkg).
      rewrite Hsplit. apply in_or_app. right. now left.
    + destruct (attempts_failure_last oracle _ _ Hall)
        as [before' [pkg' [Hshape Hbefore]]].
      rewrite Hshape in Hsplit.
      destruct (exists_last Hafter) as [after' [last Hlast]].
      rewrite Hlast in Hsplit.
      change (before ++ (pkg, ok) :: after' ++ [last])
        with (before ++ ((pkg, ok) :: after') ++ [last]) in Hsplit.
      rewrite app_assoc in Hsplit.
      apply app_inj_tail in Hsplit as [Hsplit _].
      rewrite forallb_snd_true in Hbefore. apply (Hbefore pkg).
      rewrite Hsplit. apply in_or_app. right. now left.
  - intros Hwords. split.
    + apply targetsOf_words. rewrite Hrest in Hwords.
      now apply Forall_app in Hwords as [Hwords _].
    + intros pkg Hin. rewrite Hrest. apply in_or_app. now left.
Qed.

Lemma rebuilds_are_prefix_of_matching_witness :
  let r := run (RunTrustedScripts.main worldRebuildsSucceed) in
  rebuildArguments r = ["esbuild"; "sharp"] /\
  rebuiltPackages r = Some ["esbuild"; "sharp"] /\
  rebuildArguments r
  = matchingPackages (policyOf ["esbuild"; "sharp"])
      (lockOf [""; "node_modules/esbuild"; "node_modules/react";
               "node_modules/sharp"]).
Proof.
  pose proof (rebuilds_are_prefix_of_matching worldRebuildsSucceed
                (policyOf ["esbuild"; "sharp"])
                (lockOf [""; "node_modules/esbuild"; "node_modules/react";
                         "node_modules/sharp"]) eq_refl eq_refl)
    as [_ [Hfull [_ Hwords]]].
  split; [reflexivity|]. split.
  - apply Hwords. repeat constructor.
  - apply Hfull.
    intros pkg ok Hin. vm_compute in Hin.
    destruct Hin as [Hin | [Hin | []]]; now inversion Hin.
Defined.

(** ** C3: a failing rebuild ends the run *)

(** C3.  In every run, a failing rebuild is the last invocation of the
    run (all earlier ones succeeded, none follows) and the exit status
    is 1.  Once the trust policy has parsed and the lockfile is absent
    or has parsed, the run exits 0 when every invoked rebuild succeeds,
    and in particular, without any rebuild, when nothing matches. *)
Theorem failing_rebuild_aborts_with_status_1 (world : RunTrustedScripts.World) :
  let r := run (RunTrustedScripts.main world) in
  (forall pkg, In (pkg, false) (rebuilds (trace r)) ->
     exitCode r = 1 /\
     exists before,
       rebuilds (trace r) = before ++ [(pkg, false)] /\
       forall p ok, In (p, ok) before -> ok = true) /\
  (forall policy,
     RunTrustedScripts.trusted_packages_json world = Parsed policy ->
     RunTrustedScripts.package_lock_json world <> Garbled ->
     ((forall pkg ok, In (pkg, ok) (rebuilds (trace r)) -> ok = true) ->
      exitCode r = 0) /\
     (plannedRebuilds world = [] ->
      exitCode r = 0 /\ rebuilds (trace r) = [])).
Proof.
  intros r. split.
  - intros pkg Hin.
    destruct (RunTrustedScripts.trusted_packages_json world)
      as [| |policy] eqn:Hpolicy.
    1,2: destruct (main_not_loaded world) as [Hnone _];
      [intros p Hp; congruence | unfold r in Hin; rewrite Hnone in Hin; destruct Hin].
    destruct (RunTrustedScripts.package_lock_json world) as [| |lock] eqn:Hlock.
    2: { destruct (main_not_loaded world) as [Hnone _];
           [intros p Hp; exact Hlock
           | unfold r in Hin; rewrite Hnone in Hin; destruct Hin]. }
    all: assert (Hok : RunTrustedScripts.package_lock_json world <> Garbled)
           by (rewrite Hlock; discriminate);
         destruct (main_when_loaded world policy Hpolicy Hok) as [tr [Hrun Hreb]];
         unfold r in *; rewrite Hrun in *; unfold trace, exitCode in *;
         simpl fst; simpl snd in *; rewrite Hreb in *;
         set (made := attempts (RunTrustedScripts.npm_rebuild world) []
                               (plannedRebuilds world)) in *;
         destruct (forallb snd made) eqn:Hall;
         [ rewrite forallb_snd_true in Hall; apply Hall in Hin; discriminate
         | destruct (attempts_failure_last _ _ _ Hall)
             as [before [pkg' [Hshape Hbefore]]];
           split; [reflexivity|];
           exists before; rewrite forallb_snd_true in Hbefore;
           split; [|exact Hbefore];
           fold made in Hshape; rewrite Hshape in Hin |- *;
           apply in_app_or in Hin as [Hin | [Hin | []]];
           [ apply Hbefore in Hin; discriminate
           | now injection Hin as <- ] ].
  - intros policy Hpolicy Hok.
    destruct (main_when_loaded world policy Hpolicy Hok) as [tr [Hrun Hreb]].
    unfold r. rewrite Hrun. unfold trace, exitCode. simpl fst; simpl snd.
    rewrite Hreb. split.
    + intros Hall. apply forallb_snd_true in Hall. now rewrite Hall.
    + intros Hplan. rewrite Hplan. now split.
Qed.

Lemma failing_rebuild_aborts_with_status_1_witness :
  (let r := run (RunTrustedScripts.main worldFirstRebuildFails) in
   rebuilds (trace r) = [("esbuild", false)] /\ exitCode r = 1) /\
  (let r := run (RunTrustedScripts.main worldRebuildsSucceed) in
   rebuilds (trace r) = [("esbuild", true); ("sharp", true)] /\ exitCode r = 0).
Proof.
  split; (split; [reflexivity|]).
  - apply (proj1 (failing_rebuild_aborts_with_status_1 worldFirstRebuildFails)
             "esbuild").
    vm_compute. auto.
  - destruct (proj2 (failing_rebuild_aborts_with_status_1 worldRebuildsSucceed)
                (policyOf ["esbuild"; "sharp"]) eq_refl) as [Hall _].
    + simpl. discriminate.
    + apply Hall. intros pkg ok Hin. vm_compute in Hin.
      destruct Hin as [Hin | [Hin | []]]; now inversion Hin.
Defined.

(** ** C4: no trust policy, no rebuild *)

(** C4.  Without the trust-policy document the run ends with status 1
    right after reporting it, whatever the lockfile holds: no rebuild
    and no other command is started. *)
Theorem missing_policy_exits_1_without_rebuild (world : RunTrustedScripts.World) :
  RunTrustedScripts.trusted_packages_json world = Missing ->
  let r := run (RunTrustedScripts.main world) in
  exitCode r = 1 /\
  fst r = Exited 1 /\
  rebuilds (trace r) = [] /\
  spawnsNothing (trace r) /\
  trace r = [Say Cyan "Selective Script Execution for Trusted Packages" [];
             Say Cyan "===================================================" [];
             Say Red "trusted-packages.json not found" []].
Proof.
  intros Hpolicy r. unfold r.
  rewrite (main_without_policy world Hpolicy).
  repeat split.
  intros cmd b [H | [H | [H | []]]]; discriminate.
Qed.

Lemma missing_policy_exits_1_without_rebuild_witness :
  RunTrustedScripts.trusted_packages_json worldNoPolicy = Missing /\
  exitCode (run (RunTrustedScripts.main worldNoPolicy)) = 1.
Proof.
  split; [reflexivity|].
  apply (missing_policy_exits_1_without_rebuild worldNoPolicy eq_refl).
Defined.

(** ** Traces of the verifiers *)

Lemma sections_app (a b : Trace) : sections (a ++ b) = sections a ++ sections b.
Proof. apply flat_map_app. Qed.

Lemma sections_map_none {A} (f : A -> Event) (l : list A) :
  (forall x, sectionTitle (f x) = []) -> sections (map f l) = [].
Proof.
  intros Hf. induction l as [|x l IH]; simpl; [reflexivity|].
  unfold sections in *. simpl. now rewrite Hf, IH.
Qed.

Ltac no_title :=
  intros ?;
  repeat match goal with
         | |- context [if ?b then _ else _] => destruct b
         end;
  reflexivity.

(** Puts a trace in the form [tr ++ events] and computes its titles. *)
Ltac as_extension :=
  rewrite <- ?app_assoc;
  eexists; split; [reflexivity|];
  repeat (progress (simpl; rewrite ?sections_app));
  rewrite ?sections_map_none by no_title;
  try reflexivity.

(** ** The tally *)

Lemma step_root (st : Tally.t) (pkg : LockEntry.t) :
  Tally.step st ("", pkg) = st.
Proof. reflexivity. Qed.

Lemma step_non_root (st : Tally.t) (name : string) (pkg : LockEntry.t) :
  String.eqb name "" = false ->
  Tally.total (Tally.step st (name, pkg)) = Tally.total st + 1 /\
  Tally.withHash (Tally.step st (name, pkg))
  = Tally.withHash st + (if hasDigest (name, pkg) then 1 else 0).
Proof.
  intros Hroot. unfold Tally.step, hasDigest. rewrite Hroot.
  destruct pkg as [[[|c digest]|]]; simpl; split; lia.
Qed.

Lemma tally_counts (entries : list (string * LockEntry.t)) :
  forall st,
    let st' := fold_left Tally.step entries st in
    Tally.total st' = Tally.total st +
      Z.of_nat (List.length
        (filter (fun entry => negb (String.eqb (fst entry) "")) entries)) /\
    Tally.withHash st' = Tally.withHash st +
      Z.of_nat (List.length
        (filter hasDigest
           (filter (fun entry => negb (String.eqb (fst entry) "")) entries))).
Proof.
  induction entries as [|[name pkg] entries IH]; intros st.
  - simpl. lia.
  - cbn [fold_left filter fst]. cbv zeta.
    destruct (IH (Tally.step st (name, pkg))) as [Htotal Hhash].
    cbv zeta in Htotal, Hhash. rewrite Htotal, Hhash. clear Htotal Hhash.
    destruct (String.eqb name "") eqn:Hroot; cbn [negb].
    + apply String.eqb_eq in Hroot. subst name. rewrite step_root. lia.
    + destruct (step_non_root st name pkg Hroot) as [-> ->].
      cbn [filter]. destruct (hasDigest (name, pkg)); cbn [List.length];
        rewrite ?Nat2Z.inj_succ; lia.
Qed.

Lemma tally_total (lock : Lock.t) :
  Tally.total (Tally.of_entries (Lock.entries lock)) = entryCount lock.
Proof.
  unfold Tally.of_entries, entryCount, nonRoot.
  now destruct (tally_counts (Lock.entries lock) Tally.start) as [-> _].
Qed.

Lemma tally_withHash (lock : Lock.t) :
  Tally.withHash (Tally.of_entries (Lock.entries lock)) = digestCount lock.
Proof.
  unfold Tally.of_entries, digestCount, nonRoot.
  now destruct (tally_counts (Lock.entries lock) Tally.start) as [_ ->].
Qed.

(** ** The checks of the five-check verifier, one by one

    Each check returns its verdict whatever was printed before it and
    only adds to the trace; it prints exactly one section title. *)

Ltac proc_unfold :=
  unfold VerifyPackages.log, VerifyPackages.section, VerifyPackages.ok,
    VerifyPackages.warn, VerifyPackages.fail,
    VerifyPackagesLegacy.log, VerifyPackagesLegacy.logSection,
    VerifyPackagesLegacy.logSuccess, VerifyPackagesLegacy.logWarning,
    VerifyPackagesLegacy.logError,
    execSync, JSON_parse, JSON_parse_output;
  unfold bind, try_catch, ret, throw, emit, emitAll, process_exit;
  cbv beta iota.

Lemma checkRequired_run (content : string) (settings : list string) :
  forall allGood tr,
  exists events,
    VerifyPackages.checkRequired content settings allGood tr
    = (Done (allGood &&
             forallb (fun s => JsString.includes content (JsString.splitHead "=" s))
                     settings),
       tr ++ events) /\
    sections events = [].
Proof.
  induction settings as [|s rest IH]; intros allGood tr; simpl.
  - exists []. now rewrite andb_true_r, app_nil_r.
  - destruct (JsString.includes content (JsString.splitHead "=" s));
      proc_unfold; cbv beta iota.
    + destruct (IH allGood (tr ++ [Say Green "Required: {}"
                                      [AStr (JsString.splitHead "=" s)]]))
        as [events [-> Hs]].
      rewrite <- app_assoc, andb_true_l. eexists; split; [reflexivity|].
      simpl. exact Hs.
    + destruct (IH false (tr ++ [Say Yellow "Missing required: {}" [AStr s]]))
        as [events [-> Hs]].
      rewrite <- app_assoc, andb_false_l, andb_false_r.
      eexists; split; [reflexivity|].
      simpl. exact Hs.
Qed.

Lemma verifyNpmrc_run (world : World) (tr : Trace) :
  npmrc world <> Unreadable ->
  exists events,
    VerifyPackages.verifyNpmrc world tr
    = (Done (npmrcVerdict VerifyPackages.required (npmrc world)), tr ++ events) /\
    sections events = ["Verifying .npmrc Security Configuration"].
Proof.
  unfold VerifyPackages.verifyNpmrc, npmrcVerdict.
  destruct (npmrc world) as [| |content]; intros Hread;
    [proc_unfold; simpl; as_extension | now elim Hread |].
  - unfold bind at 1. unfold VerifyPackages.section, emitAll.
    unfold bind at 1.
    destruct (checkRequired_run content VerifyPackages.required true
                (tr ++ [rule; Say Cyan "Verifying .npmrc Security Configuration" []; rule]))
      as [events [-> Hs]].
    proc_unfold. rewrite andb_true_l.
    rewrite <- !app_assoc. eexists; split; [reflexivity|].
    rewrite !sections_app, Hs.
    rewrite sections_map_none by no_title. reflexivity.
Qed.

Lemma verifyIntegrity_run (world : World) (tr : Trace) :
  exists events,
    VerifyPackages.verifyIntegrity world tr
    = (Done (integrityVerdict (package_lock_json world)), tr ++ events) /\
    sections events = ["Verifying package-lock.json Integrity Hashes"].
Proof.
  unfold VerifyPackages.verifyIntegrity, integrityVerdict.
  destruct (package_lock_json world) as [| |lock]; proc_unfold.
  - simpl. as_extension.
  - simpl. as_extension.
  - cbv zeta.
    set (st := Tally.of_entries (Lock.entries lock)).
    destruct (Tally.missing st) as [|m ms] eqn:Hmissing;
      [|destruct (10 <? Z.of_nat (List.length (m :: ms)))];
      destruct (Tally.withHash st =? Tally.total st);
      try destruct (Tally.rateAtLeast95 (Tally.rate st));
      cbv beta iota; cbn [orb]; as_extension.
Qed.

Lemma runAudit_run (world : World) (tr : Trace) :
  exists events,
    VerifyPackages.runAudit world tr
    = (Done (auditVerdict world), tr ++ events) /\
    sections events = ["Running Security Audit"].
Proof.
  unfold VerifyPackages.runAudit, exec_npm_audit_json, auditVerdict.
  destruct (npm_audit_json world) as [[result|]|]; proc_unfold.
  - cbv zeta.
    destruct (0 <? Audit.orZero (Audit.critical (Audit.breakdown result)));
      destruct (0 <? Audit.orZero (Audit.high (Audit.breakdown result)));
      destruct (0 <? Audit.orZero (Audit.moderate (Audit.breakdown result)));
      cbv beta iota; cbn [orb negb]; as_extension.
  - destruct (npm_audit_level_high world); cbv beta iota; as_extension.
  - cbv beta iota. as_extension.
Qed.

Lemma verifySignatures_run (world : World) (tr : Trace) :
  exists events,
    VerifyPackages.verifySignatures world tr = (Done true, tr ++ events) /\
    sections events = ["Checking Package Signature Verification"].
Proof.
  unfold VerifyPackages.verifySignatures, exec_npm_version.
  destruct (npm_version world) as [ver|]; proc_unfold.
  - destruct (Version.supportsSignatures ver);
      [destruct (npm_audit_signatures world)|]; cbv beta iota; as_extension.
  - cbv beta iota. as_extension.
Qed.

Lemma forallb_map_const {A} (f : A -> Event) (p : Event -> bool) (l : list A) :
  (forall x, p (f x) = true) -> forallb p (map f l) = true.
Proof.
  intros Hf. induction l as [|x l IH]; simpl; [reflexivity|].
  now rewrite Hf, IH.
Qed.

Ltac no_failure :=
  repeat (progress (simpl; rewrite ?forallb_app));
  rewrite ?forallb_map_const by no_title;
  try reflexivity.

Lemma isEntry_no_null (pkgs : list (option TrustEntry.t)) :
  forallb isEntry pkgs = true <-> ~ In None pkgs.
Proof.
  induction pkgs as [|[p|] pkgs IH]; simpl.
  - tauto.
  - rewrite IH. split; [intros H [H'|H']; [discriminate | tauto] | tauto].
  - split; [discriminate | intros H; elim H; now left].
Qed.


Lemma forOf_reportEntry (pkgs : list (option TrustEntry.t)) :
  forall tr,
    forOf pkgs VerifyPackages.reportEntry tr
    = (if forallb isEntry pkgs then Done tt else Thrown,
       tr ++ map entryLine (beforeNull pkgs)).
Proof.
  induction pkgs as [|[p|] pkgs IH]; intros tr; cbn [forOf forallb isEntry
                                                      beforeNull map andb].
  - unfold ret. now rewrite app_nil_r.
  - unfold bind at 1.
    replace (VerifyPackages.reportEntry (Some p) tr)
      with (Done tt, tr ++ [entryLine p])
      by (unfold VerifyPackages.reportEntry, entryLine, incomplete,
            incompleteLine, completeLine, VerifyPackages.warn, VerifyPackages.ok,
            emit; now destruct (_ || _)).
    rewrite IH, <- app_assoc. reflexivity.
  - unfold bind, VerifyPackages.reportEntry, throw. now rewrite app_nil_r.
Qed.

Lemma sections_entryLines (l : list TrustEntry.t) :
  sections (map entryLine l) = [].
Proof.
  apply sections_map_none. intros p. unfold entryLine.
  now destruct (incomplete p).
Qed.

Lemma sections_reviewLines (now : Z) (lastReviewed : option JsDate) :
  sections (reviewLines now lastReviewed) = [].
Proof.
  destruct lastReviewed as [reviewed|]; [|reflexivity].
  unfold reviewLines. now destruct (moreThan90 _).
Qed.

(** The validation of a document whose [packages] is a list with at
    least one entry. *)
Lemma verifyTrustedPackages_walk (world : World)
    (lastReviewed : option JsDate) (pkgs : list (option TrustEntry.t))
    (tr : Trace) :
  trusted_packages_json world
  = Parsed (TrustDocument.Object lastReviewed (TrustDocument.Array pkgs)) ->
  pkgs <> [] ->
  VerifyPackages.verifyTrustedPackages world tr
  = (Done (forallb isEntry pkgs),
     tr ++ [rule; Say Cyan "Validating trusted-packages.json" []; rule;
            Say Green "{} trusted package(s) configured"
              [ANum (Z.of_nat (List.length pkgs))]]
        ++ map entryLine (beforeNull pkgs)
        ++ (if forallb isEntry pkgs
            then reviewLines (now world) lastReviewed
            else [Say Red "Failed to parse trusted-packages.json" []])).
Proof.
  intros Hfile Hsome.
  unfold VerifyPackages.verifyTrustedPackages. rewrite Hfile.
  destruct pkgs as [|p ps]; [now elim Hsome|].
  unfold VerifyPackages.section, VerifyPackages.ok, JSON_parse.
  unfold bind at 1. unfold emitAll at 1. cbv beta iota.
  unfold try_catch. unfold bind at 1. unfold ret at 1. cbv beta iota.
  unfold bind at 1. unfold emit at 1. cbv beta iota.
  unfold bind at 1. rewrite forOf_reportEntry.
  destruct (forallb isEntry (p :: ps)); cbv beta iota.
  - unfold reviewLines.
    destruct lastReviewed as [reviewed|];
      [cbv zeta; destruct (moreThan90 (daysSince (now world) reviewed))|];
      unfold bind, VerifyPackages.warn, VerifyPackages.ok, emit, ret;
      cbv beta iota; rewrite <- ?app_assoc; cbn [app]; rewrite ?app_nil_r;
      reflexivity.
  - unfold bind, VerifyPackages.fail, emit, ret. cbv beta iota.
    rewrite <- ?app_assoc. reflexivity.
Qed.

Lemma verifyTrustedPackages_run (world : World) (tr : Trace) :
  exists events,
    VerifyPackages.verifyTrustedPackages world tr
    = (Done (trustedVerdict (trusted_packages_json world)), tr ++ events) /\
    sections events = ["Validating trusted-packages.json"].
Proof.
  destruct (trusted_packages_json world)
    as [| |[|lastReviewed [|[|p ps]| |len]]] eqn:Hfile;
    try (unfold VerifyPackages.verifyTrustedPackages; rewrite Hfile;
         proc_unfold; rewrite <- ?app_assoc;
         eexists; split; reflexivity).
  rewrite (verifyTrustedPackages_walk world lastReviewed (p :: ps) tr Hfile)
    by discriminate.
  eexists. split; [reflexivity|].
  rewrite !sections_app, sections_entryLines.
  destruct (forallb isEntry (p :: ps));
    [rewrite sections_reviewLines|]; reflexivity.
Qed.

Lemma isEntry_map_Some (l : list TrustEntry.t) :
  forallb isEntry (map Some l) = true.
Proof. induction l as [|p l IH]; simpl; [reflexivity | exact IH]. Qed.

Lemma beforeNull_map_Some {A} (l : list A) : beforeNull (map Some l) = l.
Proof. induction l as [|a l IH]; simpl; [reflexivity | now rewrite IH]. Qed.

(** The validation of a policy laid out as the format has it, with at
    least one entry. *)
Lemma verifyTrustedPackages_policy (world : World) (policy : TrustPolicy.t)
    (tr : Trace) :
  trusted_packages_json world = Parsed policy ->
  trustedEntries policy <> [] ->
  VerifyPackages.verifyTrustedPackages world tr
  = (Done true,
     tr ++ [rule; Say Cyan "Validating trusted-packages.json" []; rule;
            Say Green "{} trusted package(s) configured"
              [ANum (Z.of_nat (List.length (trustedEntries policy)))]]
        ++ map entryLine (trustedEntries policy)
        ++ reviewLines (now world) (TrustPolicy.lastReviewed policy)).
Proof.
  intros Hfile Hsome. unfold trustedEntries in *.
  unfold TrustDocument.ofPolicy in Hfile.
  destruct (TrustPolicy.packages policy) as [entries|]; [|now elim Hsome].
  rewrite (verifyTrustedPackages_walk world _ (map Some entries) tr Hfile)
    by (destruct entries; [now elim Hsome | discriminate]).
  now rewrite isEntry_map_Some, beforeNull_map_Some, length_map.
Qed.

Ltac step := unfold bind at 1; cbv beta iota.

(** ** The checks of the four-check verifier *)

Lemma legacy_checkRequired_run (content : string) (settings : list string) :
  forall allRequired tr,
  exists events,
    VerifyPackagesLegacy.checkRequired content settings allRequired tr
    = (Done (allRequired &&
             forallb (fun s => JsString.includes content (JsString.splitHead "=" s))
                     settings),
       tr ++ events) /\
    sections events = [].
Proof.
  induction settings as [|s rest IH]; intros allRequired tr; simpl.
  - exists []. now rewrite andb_true_r, app_nil_r.
  - destruct (JsString.includes content (JsString.splitHead "=" s)); proc_unfold.
    + destruct (IH allRequired
                  (tr ++ [Say Green "Found required setting: {}"
                            [AStr (JsString.splitHead "=" s)]]))
        as [events [-> Hs]].
      rewrite <- app_assoc, andb_true_l. eexists; split; [reflexivity|].
      simpl. exact Hs.
    + destruct (IH false
                  (tr ++ [Say Yellow "Missing required setting: {}" [AStr s]]))
        as [events [-> Hs]].
      rewrite <- app_assoc, andb_false_l, andb_false_r.
      eexists; split; [reflexivity|].
      simpl. exact Hs.
Qed.

Lemma verifyNpmrcConfiguration_run (world : World) (tr : Trace) :
  npmrc world <> Unreadable ->
  exists events,
    VerifyPackagesLegacy.verifyNpmrcConfiguration world tr
    = (Done (npmrcVerdict VerifyPackagesLegacy.requiredSettings (npmrc world)),
       tr ++ events) /\
    sections events = ["Verifying .npmrc Security Configuration"].
Proof.
  unfold VerifyPackagesLegacy.verifyNpmrcConfiguration, npmrcVerdict.
  destruct (npmrc world) as [| |content]; intros Hread;
    [proc_unfold; simpl; as_extension | now elim Hread |].
  - unfold bind at 1. unfold VerifyPackagesLegacy.logSection, emitAll.
    unfold bind at 1.
    destruct (legacy_checkRequired_run content
                VerifyPackagesLegacy.requiredSettings true
                (tr ++ [rule; Say Cyan "Verifying .npmrc Security Configuration" []; rule]))
      as [events [-> Hs]].
    proc_unfold. rewrite andb_true_l.
    rewrite <- !app_assoc. eexists; split; [reflexivity|].
    rewrite !sections_app, Hs.
    rewrite sections_map_none by no_title. reflexivity.
Qed.

Lemma verifyPackageLockIntegrity_run (world : World) (tr : Trace) :
  exists events,
    VerifyPackagesLegacy.verifyPackageLockIntegrity world tr
    = (Done (integrityVerdict (package_lock_json world)), tr ++ events) /\
    sections events = ["Verifying package-lock.json Integrity Hashes"].
Proof.
  unfold VerifyPackagesLegacy.verifyPackageLockIntegrity, integrityVerdict.
  destruct (package_lock_json world) as [| |lock]; proc_unfold.
  - simpl. as_extension.
  - simpl. as_extension.
  - cbv zeta.
    set (st := Tally.of_entries (Lock.entries lock)).
    destruct (Tally.missing st) as [|m ms] eqn:Hmissing;
      [|destruct (Z.of_nat (List.length (m :: ms)) <=? 10)];
      destruct (Tally.withHash st =? Tally.total st);
      try destruct (Tally.rateAtLeast95 (Tally.rate st));
      cbv beta iota; cbn [orb]; as_extension.
Qed.

Lemma runSecurityAudit_run (world : World) (tr : Trace) :
  exists events,
    VerifyPackagesLegacy.runSecurityAudit world tr
    = (Done (auditVerdict world), tr ++ events) /\
    sections events = ["Running Security Audit"].
Proof.
  unfold VerifyPackagesLegacy.runSecurityAudit,
    exec_npm_audit_json, auditVerdict.
  destruct (npm_audit_json world) as [[result|]|]; proc_unfold.
  - cbv zeta.
    destruct (0 <? Audit.orZero (Audit.critical (Audit.breakdown result)));
      destruct (0 <? Audit.orZero (Audit.high (Audit.breakdown result)));
      destruct (0 <? Audit.orZero (Audit.moderate (Audit.breakdown result)));
      cbv beta iota; cbn [orb negb]; as_extension.
  - destruct (npm_audit_level_high world); cbv beta iota; as_extension.
  - cbv beta iota. as_extension.
Qed.

Lemma verifySignatureSupport_run (world : World) (tr : Trace) :
  exists events,
    VerifyPackagesLegacy.verifySignatureSupport world tr
    = (Done true, tr ++ events) /\
    sections events = ["Checking Package Signature Verification"].
Proof.
  unfold VerifyPackagesLegacy.verifySignatureSupport,
    exec_npm_version.
  destruct (npm_version world) as [ver|]; proc_unfold.
  - destruct (Version.supportsSignatures ver);
      [destruct (npm_audit_signatures world)|]; cbv beta iota; as_extension.
  - cbv beta iota. as_extension.
Qed.

(** ** Checks do not depend on earlier output *)

Lemma Framed_ret {A} (a : A) : Framed (ret a).
Proof. intros tr. unfold ret. simpl. now rewrite app_nil_r. Qed.

Lemma Framed_throw {A} : Framed (@throw A).
Proof. intros tr. unfold throw. simpl. now rewrite app_nil_r. Qed.

Lemma Framed_exit {A} (code : Z) : Framed (@process_exit A code).
Proof. intros tr. unfold process_exit. simpl. now rewrite app_nil_r. Qed.

Lemma Framed_emit (e : Event) : Framed (emit e).
Proof. intros tr. reflexivity. Qed.

Lemma Framed_emitAll (es : list Event) : Framed (emitAll es).
Proof. intros tr. reflexivity. Qed.

Lemma Framed_bind {A B} (p : Proc A) (k : A -> Proc B) :
  Framed p -> (forall a, Framed (k a)) -> Framed (bind p k).
Proof.
  intros Hp Hk tr. unfold bind.
  rewrite (Hp tr). destruct (p []) as [[a|code|] tr0]; simpl.
  - rewrite (Hk a (tr ++ tr0)), (Hk a tr0). simpl.
    now rewrite app_assoc.
  - reflexivity.
  - reflexivity.
Qed.

Lemma Framed_try_catch {A} (body handler : Proc A) :
  Framed body -> Framed handler -> Framed (try_catch body handler).
Proof.
  intros Hb Hh tr. unfold try_catch.
  rewrite (Hb tr). destruct (body []) as [[a|code|] tr0]; simpl.
  - reflexivity.
  - reflexivity.
  - rewrite (Hh (tr ++ tr0)), (Hh tr0). simpl.
    now rewrite app_assoc.
Qed.

Lemma Framed_JSON_parse {A} (f : File A) : Framed (JSON_parse f).
Proof. destruct f; [apply Framed_throw | apply Framed_throw | apply Framed_ret]. Qed.

Lemma Framed_JSON_parse_output {A} (out : option A) :
  Framed (JSON_parse_output out).
Proof. destruct out; [apply Framed_ret | apply Framed_throw]. Qed.

Lemma Framed_execSync (cmd : Command) (succeeds : bool) :
  Framed (execSync cmd succeeds).
Proof.
  apply Framed_bind; [apply Framed_emit|].
  intros _. destruct succeeds; [apply Framed_ret | apply Framed_throw].
Qed.

Create HintDb framed.
#[export] Hint Resolve Framed_ret Framed_throw Framed_exit Framed_emit
  Framed_emitAll Framed_JSON_parse Framed_JSON_parse_output Framed_execSync
  : framed.

(** Decomposes a computation along its binds, handlers and branches. *)
Ltac framed :=
  unfold VerifyPackages.log, VerifyPackages.section, VerifyPackages.ok,
    VerifyPackages.warn, VerifyPackages.fail,
    VerifyPackagesLegacy.log, VerifyPackagesLegacy.logSection,
    VerifyPackagesLegacy.logSuccess, VerifyPackagesLegacy.logWarning,
    VerifyPackagesLegacy.logError;
  cbv zeta;
  repeat first
    [ solve [auto with framed]
    | apply Framed_bind; [|intros ?]
    | apply Framed_try_catch
    | match goal with
      | |- Framed (match ?x with _ => _ end) => destruct x
      | |- Framed (if ?b then _ else _) => destruct b
      end ].

Lemma Framed_checkRequired (content : string) (settings : list string) :
  forall allGood, Framed (VerifyPackages.checkRequired content settings allGood).
Proof.
  induction settings as [|s rest IH]; intros allGood; simpl.
  - apply Framed_ret.
  - destruct (JsString.includes content (JsString.splitHead "=" s));
      (apply Framed_bind; [apply Framed_emit | intros _; apply IH]).
Qed.

Lemma Framed_legacy_checkRequired (content : string) (settings : list string) :
  forall allRequired,
    Framed (VerifyPackagesLegacy.checkRequired content settings allRequired).
Proof.
  induction settings as [|s rest IH]; intros allRequired; simpl.
  - apply Framed_ret.
  - destruct (JsString.includes content (JsString.splitHead "=" s));
      (apply Framed_bind; [apply Framed_emit | intros _; apply IH]).
Qed.

Lemma Framed_forOf {A} (xs : list A) (body : A -> Proc unit) :
  (forall x, Framed (body x)) -> Framed (forOf xs body).
Proof.
  intros Hbody. induction xs as [|x xs IH]; simpl.
  - apply Framed_ret.
  - apply Framed_bind; [apply Hbody | intros _; exact IH].
Qed.

Lemma Framed_reportEntries (pkgs : list (option TrustEntry.t)) :
  Framed (forOf pkgs VerifyPackages.reportEntry).
Proof.
  apply Framed_forOf. intros [p|]; unfold VerifyPackages.reportEntry.
  - destruct (_ || _); apply Framed_emit.
  - apply Framed_throw.
Qed.

#[export] Hint Resolve Framed_checkRequired Framed_legacy_checkRequired
  Framed_reportEntries : framed.

Lemma Framed_verifyNpmrc (world : World) : Framed (VerifyPackages.verifyNpmrc world).
Proof. unfold VerifyPackages.verifyNpmrc. framed. Qed.

Lemma Framed_verifyIntegrity (world : World) :
  Framed (VerifyPackages.verifyIntegrity world).
Proof. unfold VerifyPackages.verifyIntegrity. framed. Qed.

Lemma Framed_runAudit (world : World) : Framed (VerifyPackages.runAudit world).
Proof.
  unfold VerifyPackages.runAudit, exec_npm_audit_json. framed.
Qed.

Lemma Framed_verifySignatures (world : World) :
  Framed (VerifyPackages.verifySignatures world).
Proof.
  unfold VerifyPackages.verifySignatures, exec_npm_version. framed.
Qed.

Lemma Framed_verifyTrustedPackages (world : World) :
  Framed (VerifyPackages.verifyTrustedPackages world).
Proof. unfold VerifyPackages.verifyTrustedPackages. framed. Qed.

Lemma Framed_verifyNpmrcConfiguration (world : World) :
  Framed (VerifyPackagesLegacy.verifyNpmrcConfiguration world).
Proof. unfold VerifyPackagesLegacy.verifyNpmrcConfiguration. framed. Qed.

Lemma Framed_verifyPackageLockIntegrity (world : World) :
  Framed (VerifyPackagesLegacy.verifyPackageLockIntegrity world).
Proof. unfold VerifyPackagesLegacy.verifyPackageLockIntegrity. framed. Qed.

Lemma Framed_runSecurityAudit (world : World) :
  Framed (VerifyPackagesLegacy.runSecurityAudit world).
Proof.
  unfold VerifyPackagesLegacy.runSecurityAudit,
    exec_npm_audit_json. framed.
Qed.

Lemma Framed_verifySignatureSupport (world : World) :
  Framed (VerifyPackagesLegacy.verifySignatureSupport world).
Proof.
  unfold VerifyPackagesLegacy.verifySignatureSupport,
    exec_npm_version. framed.
Qed.

(** ** Verdicts of the checks run on their own *)

Lemma verifyNpmrc_verdict (world : World) :
  npmrc world <> Unreadable ->
  fst (run (VerifyPackages.verifyNpmrc world))
  = Done (npmrcVerdict VerifyPackages.required (npmrc world)).
Proof.
  intros Hread. unfold run.
  now destruct (verifyNpmrc_run world [] Hread) as [e [-> _]].
Qed.

Lemma verifyNpmrc_unreadable (world : World) :
  npmrc world = Unreadable ->
  run (VerifyPackages.verifyNpmrc world)
  = (Thrown,
     [rule; Say Cyan "Verifying .npmrc Security Configuration" []; rule]).
Proof.
  intros Hfile. unfold run, VerifyPackages.verifyNpmrc. now rewrite Hfile.
Qed.

Lemma verifyNpmrcConfiguration_unreadable (world : World) :
  npmrc world = Unreadable ->
  run (VerifyPackagesLegacy.verifyNpmrcConfiguration world)
  = (Thrown,
     [rule; Say Cyan "Verifying .npmrc Security Configuration" []; rule]).
Proof.
  intros Hfile. unfold run, VerifyPackagesLegacy.verifyNpmrcConfiguration.
  now rewrite Hfile.
Qed.

Lemma verifyIntegrity_verdict (world : World) :
  fst (run (VerifyPackages.verifyIntegrity world))
  = Done (integrityVerdict (package_lock_json world)).
Proof. unfold run. now destruct (verifyIntegrity_run world []) as [e [-> _]]. Qed.

Lemma runAudit_verdict (world : World) :
  fst (run (VerifyPackages.runAudit world)) = Done (auditVerdict world).
Proof. unfold run. now destruct (runAudit_run world []) as [e [-> _]]. Qed.

Lemma verifySignatures_verdict (world : World) :
  fst (run (VerifyPackages.verifySignatures world)) = Done true.
Proof. unfold run. now destruct (verifySignatures_run world []) as [e [-> _]]. Qed.

Lemma verifyTrustedPackages_verdict (world : World) :
  fst (run (VerifyPackages.verifyTrustedPackages world))
  = Done (trustedVerdict (trusted_packages_json world)).
Proof.
  unfold run. now destruct (verifyTrustedPackages_run world []) as [e [-> _]].
Qed.

Lemma verifyNpmrcConfiguration_verdict (world : World) :
  npmrc world <> Unreadable ->
  fst (run (VerifyPackagesLegacy.verifyNpmrcConfiguration world))
  = Done (npmrcVerdict VerifyPackagesLegacy.requiredSettings (npmrc world)).
Proof.
  intros Hread. unfold run.
  now destruct (verifyNpmrcConfiguration_run world [] Hread) as [e [-> _]].
Qed.

Lemma verifyPackageLockIntegrity_verdict (world : World) :
  fst (run (VerifyPackagesLegacy.verifyPackageLockIntegrity world))
  = Done (integrityVerdict (package_lock_json world)).
Proof.
  unfold run. now destruct (verifyPackageLockIntegrity_run world []) as [e [-> _]].
Qed.

Lemma runSecurityAudit_verdict (world : World) :
  fst (run (VerifyPackagesLegacy.runSecurityAudit world))
  = Done (auditVerdict world).
Proof. unfold run. now destruct (runSecurityAudit_run world []) as [e [-> _]]. Qed.

Lemma verifySignatureSupport_verdict (world : World) :
  fst (run (VerifyPackagesLegacy.verifySignatureSupport world)) = Done true.
Proof.
  unfold run. now destruct (verifySignatureSupport_run world []) as [e [-> _]].
Qed.

(** Runs a framed check inside a larger computation. *)
Ltac run_check Hframed Hverdict :=
  unfold bind at 1;
  rewrite Hframed;
  unfold run in Hverdict; rewrite Hverdict;
  cbv beta iota.

Lemma main_composition (world : World) :
  npmrc world <> Unreadable ->
  exists summary,
    run (VerifyPackages.main world)
    = (Exited (if overallVerdict world then 0 else 1),
       [Say Blue "Package Integrity Verification (Bun + npm-compat)" [];
        Say Blue "=====================================================" []]
       ++ trace (run (VerifyPackages.verifyNpmrc world))
       ++ trace (run (VerifyPackages.verifyIntegrity world))
       ++ trace (run (VerifyPackages.runAudit world))
       ++ trace (run (VerifyPackages.verifySignatures world))
       ++ trace (run (VerifyPackages.verifyTrustedPackages world))
       ++ summary) /\
    sections summary = ["Verification Summary"].
Proof.
  intros Hread.
  pose proof (verifyNpmrc_verdict world Hread) as V1.
  pose proof (verifyIntegrity_verdict world) as V2.
  pose proof (runAudit_verdict world) as V3.
  pose proof (verifySignatures_verdict world) as V4.
  pose proof (verifyTrustedPackages_verdict world) as V5.
  unfold trace.
  unfold run at 1. unfold VerifyPackages.main, try_catch.
  step. unfold emit at 1. cbv beta iota.
  step. unfold emit at 1. cbv beta iota.
  run_check (Framed_verifyNpmrc world) V1.
  run_check (Framed_verifyIntegrity world) V2.
  run_check (Framed_runAudit world) V3.
  run_check (Framed_verifySignatures world) V4.
  run_check (Framed_verifyTrustedPackages world) V5.
  cbv zeta. cbn [forallb snd].
  rewrite andb_true_r.
  replace (npmrcVerdict VerifyPackages.required (npmrc world) &&
           (integrityVerdict (package_lock_json world) &&
            (auditVerdict world &&
             (true && trustedVerdict (trusted_packages_json world)))))
    with (overallVerdict world)
    by (unfold overallVerdict; now rewrite !andb_assoc).
  proc_unfold. unfold run.
  destruct (overallVerdict world); cbv beta iota;
    rewrite <- ?app_assoc;
    (eexists; split; [reflexivity|]);
    repeat (progress (simpl; rewrite ?sections_app));
    repeat match goal with
           | |- context [if ?b then _ else _] => destruct b
           end;
    reflexivity.
Qed.

Lemma legacy_main_composition (world : World) :
  npmrc world <> Unreadable ->
  exists summary,
    run (VerifyPackagesLegacy.main world)
    = (Exited (if legacyOverallVerdict world then 0 else 1),
       [Say Blue "Package Integrity Verification" [];
        Say Blue "================================" []]
       ++ trace (run (VerifyPackagesLegacy.verifyNpmrcConfiguration world))
       ++ trace (run (VerifyPackagesLegacy.verifyPackageLockIntegrity world))
       ++ trace (run (VerifyPackagesLegacy.runSecurityAudit world))
       ++ trace (run (VerifyPackagesLegacy.verifySignatureSupport world))
       ++ summary) /\
    sections summary = ["Verification Summary"].
Proof.
  intros Hread.
  pose proof (verifyNpmrcConfiguration_verdict world Hread) as V1.
  pose proof (verifyPackageLockIntegrity_verdict world) as V2.
  pose proof (runSecurityAudit_verdict world) as V3.
  pose proof (verifySignatureSupport_verdict world) as V4.
  unfold trace.
  unfold run at 1. unfold VerifyPackagesLegacy.main, try_catch.
  step. unfold emit at 1. cbv beta iota.
  step. unfold emit at 1. cbv beta iota.
  run_check (Framed_verifyNpmrcConfiguration world) V1.
  run_check (Framed_verifyPackageLockIntegrity world) V2.
  run_check (Framed_runSecurityAudit world) V3.
  run_check (Framed_verifySignatureSupport world) V4.
  cbv zeta. cbn [forallb snd].
  replace (integrityVerdict (package_lock_json world) &&
           (auditVerdict world &&
            (true &&
             (npmrcVerdict VerifyPackagesLegacy.requiredSettings (npmrc world) &&
              true))))
    with (legacyOverallVerdict world)
    by (unfold legacyOverallVerdict;
        destruct (npmrcVerdict _ _), (integrityVerdict _), (auditVerdict _);
        reflexivity).
  proc_unfold. unfold run.
  destruct (legacyOverallVerdict world); cbv beta iota;
    rewrite <- ?app_assoc;
    (eexists; split; [reflexivity|]);
    repeat (progress (simpl; rewrite ?sections_app));
    repeat match goal with
           | |- context [if ?b then _ else _] => destruct b
           end;
    reflexivity.
Qed.

(** With an [.npmrc] that cannot be read, [readFileSync] throws out of
    the configuration check and out of [main]: the handler of
    [main().catch] reports it and ends the run. *)
Lemma main_unreadable (world : World) :
  npmrc world = Unreadable ->
  run (VerifyPackages.main world)
  = (Exited 1,
     [Say Blue "Package Integrity Verification (Bun + npm-compat)" [];
      Say Blue "=====================================================" [];
      rule; Say Cyan "Verifying .npmrc Security Configuration" []; rule;
      Say Red "Unexpected error" []]).
Proof.
  intros Hfile.
  unfold run, VerifyPackages.main, VerifyPackages.verifyNpmrc.
  rewrite Hfile. reflexivity.
Qed.

Lemma legacy_main_unreadable (world : World) :
  npmrc world = Unreadable ->
  run (VerifyPackagesLegacy.main world)
  = (Exited 1,
     [Say Blue "Package Integrity Verification" [];
      Say Blue "================================" [];
      rule; Say Cyan "Verifying .npmrc Security Configuration" []; rule;
      Say Red "Unexpected error" []]).
Proof.
  intros Hfile.
  unfold run, VerifyPackagesLegacy.main,
    VerifyPackagesLegacy.verifyNpmrcConfiguration.
  rewrite Hfile. reflexivity.
Qed.

Lemma unreadable_or_not (file : ConfigFile) :
  file = Unreadable \/ file <> Unreadable.
Proof. destruct file; [right | left | right]; (reflexivity || discriminate). Qed.

Lemma main_exitCode (world : World) :
  exitCode (run (VerifyPackages.main world))
  = (if overallVerdict world then 0 else 1).
Proof.
  destruct (unreadable_or_not (npmrc world)) as [Hfile | Hread].
  - rewrite (main_unreadable world Hfile).
    unfold overallVerdict. now rewrite Hfile.
  - now destruct (main_composition world Hread) as [summary [-> _]].
Qed.

Lemma legacy_main_exitCode (world : World) :
  exitCode (run (VerifyPackagesLegacy.main world))
  = (if legacyOverallVerdict world then 0 else 1).
Proof.
  destruct (unreadable_or_not (npmrc world)) as [Hfile | Hread].
  - rewrite (legacy_main_unreadable world Hfile).
    unfold legacyOverallVerdict. now rewrite Hfile.
  - now destruct (legacy_main_composition world Hread) as [summary [-> _]].
Qed.

(** ** C5: the coverage threshold *)

(** The rate as the verifiers print it: 33.3, 66.7, 12.5, 0.0, 100.0,
    and NaN when there is nothing to count. *)
Lemma rate_examples :
  Tally.rate (Tally.mk 3 1 0 []) = Number.FTenths false 333 /\
  Tally.rate (Tally.mk 3 2 0 []) = Number.FTenths false 667 /\
  Tally.rate (Tally.mk 8 1 0 []) = Number.FTenths false 125 /\
  Tally.rate (Tally.mk 5 0 0 []) = Number.FTenths false 0 /\
  Tally.rate (Tally.mk 5 5 0 []) = Number.FTenths false 1000 /\
  Tally.rate (Tally.mk 0 0 0 []) = Number.FNaN /\
  Tally.rateAtLeast95 (Number.FTenths false 950) = true /\
  Tally.rateAtLeast95 (Number.FTenths false 949) = false /\
  Tally.rateAtLeast95 Number.FNaN = false.
Proof. vm_compute. repeat split. Qed.

(** Full coverage passes, whatever the number of packages: the test
    [withHash === total] comes first and involves no rounding. *)
Lemma integrity_passes_at_full_coverage (world : World) (lock : Lock.t) :
  package_lock_json world = Parsed lock ->
  digestCount lock = entryCount lock ->
  fst (run (VerifyPackages.verifyIntegrity world)) = Done true /\
  fst (run (VerifyPackagesLegacy.verifyPackageLockIntegrity world)) = Done true.
Proof.
  intros Hfile Hfull.
  rewrite verifyIntegrity_verdict, verifyPackageLockIntegrity_verdict, Hfile.
  unfold integrityVerdict.
  rewrite tally_total, tally_withHash, Hfull, Z.eqb_refl.
  now split.
Qed.

Lemma integrityVerdict_counts (lock : Lock.t) :
  integrityVerdict (Parsed lock)
  = verdictOfCounts (digestCount lock) (entryCount lock).
Proof.
  unfold integrityVerdict, verdictOfCounts, Tally.rate. cbn [Tally.withHash Tally.total].
  now rewrite tally_total, tally_withHash.
Qed.

Lemma threshold_checked_up_to_120 :
  forallb thresholdAgrees (seq 1 120) = true.
Proof. vm_compute. reflexivity. Qed.

(** In a lockfile of up to 120 packages the integrity check passes
    exactly when every package has a digest or at least 94.95% of them
    have one: the threshold in force lies below the 95 written in the
    code by the half unit that rounding to one decimal gives away. *)
Lemma integrity_threshold_up_to_120 (world : World) (lock : Lock.t) :
  package_lock_json world = Parsed lock ->
  1 <= entryCount lock <= 120 ->
  let verdict := (digestCount lock =? entryCount lock) ||
                 (1899 * entryCount lock <=? 2000 * digestCount lock) in
  fst (run (VerifyPackages.verifyIntegrity world)) = Done verdict /\
  fst (run (VerifyPackagesLegacy.verifyPackageLockIntegrity world)) = Done verdict.
Proof.
  intros Hfile Hsize verdict.
  rewrite verifyIntegrity_verdict, verifyPackageLockIntegrity_verdict, Hfile.
  rewrite integrityVerdict_counts.
  assert (Hle : (List.length (filter hasDigest (nonRoot lock))
                 <= List.length (nonRoot lock))%nat) by apply filter_length_le.
  unfold verdict, digestCount, entryCount in *.
  set (w := List.length (filter hasDigest (nonRoot lock))) in *.
  set (t := List.length (nonRoot lock)) in *.
  pose proof threshold_checked_up_to_120 as Hall.
  rewrite forallb_forall in Hall.
  assert (Ht : thresholdAgrees t = true) by (apply Hall, in_seq; lia).
  unfold thresholdAgrees in Ht. rewrite forallb_forall in Ht.
  assert (Hw : Bool.eqb (verdictOfCounts (Z.of_nat w) (Z.of_nat t))
                        ((w =? t)%nat ||
                         (1899 * Z.of_nat t <=? 2000 * Z.of_nat w)) = true)
    by (apply Ht, in_seq; lia).
  apply Bool.eqb_prop in Hw. rewrite Hw.
  replace (Z.of_nat w =? Z.of_nat t) with (w =? t)%nat; [now split|].
  destruct (Nat.eqb_spec w t) as [->|Hne].
  - now rewrite Z.eqb_refl.
  - symmetry. apply Z.eqb_neq. lia.
Qed.

(** At exactly 94% the check fails and at exactly 95% it passes with a
    warning, here for lockfiles of 50, 100 and 20, 100 packages. *)
Lemma integrity_at_94_and_95_percent :
  integrityVerdict (Parsed (lockWithCoverage 47 3)) = false /\
  integrityVerdict (Parsed (lockWithCoverage 94 6)) = false /\
  integrityVerdict (Parsed (lockWithCoverage 19 1)) = true /\
  integrityVerdict (Parsed (lockWithCoverage 95 5)) = true /\
  hasWarning (trace (run (VerifyPackages.verifyIntegrity
                            (withLock (Parsed (lockWithCoverage 95 5)) calmWorld))))
  = true /\
  hasFailure (trace (run (VerifyPackages.verifyIntegrity
                            (withLock (Parsed (lockWithCoverage 95 5)) calmWorld))))
  = false.
Proof. vm_compute. repeat split. Qed.

(** C5, at the input where the code leaves the stated policy.  Of 119
    non-root packages 113 carry a digest: the coverage, 94.96%, is below
    95%, yet both verifiers print the rate as 95.0, find that text to be
    at least 95 and return pass with a warning. *)
Theorem integrity_passes_at_113_of_119 :
  let lock := lockWithCoverage 113 6 in
  let world := withLock (Parsed lock) calmWorld in
  entryCount lock = 119 /\
  digestCount lock = 113 /\
  100 * digestCount lock < 95 * entryCount lock /\
  Tally.rate (Tally.of_entries (Lock.entries lock)) = Number.FTenths false 950 /\
  fst (run (VerifyPackages.verifyIntegrity world)) = Done true /\
  fst (run (VerifyPackagesLegacy.verifyPackageLockIntegrity world)) = Done true /\
  In (Say Yellow "{}% of packages have integrity hashes"
        [ARate (Number.FTenths false 950)])
     (trace (run (VerifyPackages.verifyIntegrity world))) /\
  exitCode (run (VerifyPackages.main world)) = 0.
Proof.
  vm_compute. repeat split; try discriminate.
  do 20 (try (left; reflexivity); right).
Qed.

(** ** C6: the audit policy *)

Lemma ltb_not_positive (n : Z) : ~ 0 < n -> (0 <? n) = false.
Proof. intros H. apply Z.ltb_ge. lia. Qed.

Lemma ltb_positive (n : Z) : 0 < n -> (0 <? n) = true.
Proof. intros H. now apply Z.ltb_lt. Qed.

Ltac audit_trace Hjson :=
  unfold run, trace, VerifyPackages.runAudit,
    VerifyPackagesLegacy.runSecurityAudit, exec_npm_audit_json;
  rewrite Hjson; proc_unfold; cbv zeta.

(** C6.  For an audit result that parses, with [critical], [high] and
    [moderate] the counts read from it (0 for a missing one): the audit
    check of both verifiers returns fail when [critical] or [high] is
    positive; returns pass and prints a warning when neither is positive
    and [moderate] is; returns pass without warning otherwise; and two
    results with the same [critical] and [high] counts get the same
    verdict, whatever their other counts. *)
Theorem audit_policy (world : World) (result : Audit.report) :
  npm_audit_json world = Some (Some result) ->
  let v := Audit.breakdown result in
  let critical := Audit.orZero (Audit.critical v) in
  let high := Audit.orZero (Audit.high v) in
  let moderate := Audit.orZero (Audit.moderate v) in
  (0 < critical \/ 0 < high ->
   auditReturns world false /\ auditReportsFailure world true) /\
  (~ 0 < critical -> ~ 0 < high -> 0 < moderate ->
   auditReturns world true /\ auditWarns world true /\
   auditReportsFailure world false) /\
  (~ 0 < critical -> ~ 0 < high -> ~ 0 < moderate ->
   auditReturns world true /\ auditWarns world false /\
   auditReportsFailure world false) /\
  (forall world' result',
      npm_audit_json world' = Some (Some result') ->
      Audit.orZero (Audit.critical (Audit.breakdown result')) = critical ->
      Audit.orZero (Audit.high (Audit.breakdown result')) = high ->
      fst (run (VerifyPackages.runAudit world'))
      = fst (run (VerifyPackages.runAudit world)) /\
      fst (run (VerifyPackagesLegacy.runSecurityAudit world'))
      = fst (run (VerifyPackagesLegacy.runSecurityAudit world))).
Proof.
  intros Hjson v critical high moderate.
  assert (Hverdict : auditVerdict world = negb ((0 <? critical) || (0 <? high)))
    by (unfold auditVerdict; now rewrite Hjson).
  split; [|split; [|split]].
  - intros Hbad.
    assert (Hor : (0 <? critical) || (0 <? high) = true).
    { apply orb_true_iff. destruct Hbad; [left | right]; now apply Z.ltb_lt. }
    split.
    + unfold auditReturns.
      rewrite runAudit_verdict, runSecurityAudit_verdict, Hverdict, Hor.
      now split.
    + unfold auditReportsFailure, hasFailure. audit_trace Hjson.
      fold v. fold critical. fold high. fold moderate. rewrite Hor.
      cbv beta iota.
      destruct (0 <? critical), (0 <? high), (0 <? moderate);
        try discriminate; split; reflexivity.
  - intros Hc Hh Hm.
    apply ltb_not_positive in Hc, Hh. apply ltb_positive in Hm.
    split; [|split].
    + unfold auditReturns.
      rewrite runAudit_verdict, runSecurityAudit_verdict, Hverdict, Hc, Hh.
      now split.
    + unfold auditWarns, hasWarning. audit_trace Hjson.
      fold v. fold critical. fold high. fold moderate. rewrite Hc, Hh, Hm.
      split; reflexivity.
    + unfold auditReportsFailure, hasFailure. audit_trace Hjson.
      fold v. fold critical. fold high. fold moderate. rewrite Hc, Hh, Hm.
      split; reflexivity.
  - intros Hc Hh Hm.
    apply ltb_not_positive in Hc, Hh, Hm.
    split; [|split].
    + unfold auditReturns.
      rewrite runAudit_verdict, runSecurityAudit_verdict, Hverdict, Hc, Hh.
      now split.
    + unfold auditWarns, hasWarning. audit_trace Hjson.
      fold v. fold critical. fold high. fold moderate. rewrite Hc, Hh, Hm.
      split; reflexivity.
    + unfold auditReportsFailure, hasFailure. audit_trace Hjson.
      fold v. fold critical. fold high. fold moderate. rewrite Hc, Hh, Hm.
      split; reflexivity.
  - intros world' result' Hjson' Hc Hh.
    rewrite !runAudit_verdict, !runSecurityAudit_verdict, Hverdict.
    unfold auditVerdict. rewrite Hjson', Hc, Hh. now split.
Qed.

Lemma audit_policy_witness :
  let world := withAudit (Some (Some (auditReport 0 1 0 7 3))) calmWorld in
  npm_audit_json world = Some (Some (auditReport 0 1 0 7 3)) /\
  auditReturns world false.
Proof.
  split; [reflexivity|].
  apply (proj1 (audit_policy
                  (withAudit (Some (Some (auditReport 0 1 0 7 3))) calmWorld)
                  (auditReport 0 1 0 7 3) eq_refl)).
  right. reflexivity.
Defined.

(** ** C7: the configuration check *)

Lemma npmrcVerdict_required (content : string) :
  npmrcVerdict VerifyPackages.required (Some content) = true <->
  forall key, In key requiredKeys -> occursIn key content.
Proof.
  unfold npmrcVerdict, ConfigFile_ofOption, VerifyPackages.required,
    requiredKeys, occursIn.
  cbn [forallb]. rewrite !andb_true_iff, !includes_iff. cbn [JsString.splitHead].
  split.
  - intros [H1 [H2 [H3 [H4 _]]]] key [<- | [<- | [<- | [<- | []]]]]; assumption.
  - intros H. repeat split; apply H; simpl; auto.
Qed.

Lemma npmrcVerdict_legacy_required (content : string) :
  npmrcVerdict VerifyPackagesLegacy.requiredSettings (Some content) = true <->
  forall key, In key legacyRequiredKeys -> occursIn key content.
Proof.
  unfold npmrcVerdict, ConfigFile_ofOption,
    VerifyPackagesLegacy.requiredSettings, legacyRequiredKeys, occursIn.
  cbn [forallb]. rewrite !andb_true_iff, !includes_iff. cbn [JsString.splitHead].
  split.
  - intros [H1 [H2 [H3 _]]] key [<- | [<- | [<- | []]]]; assumption.
  - intros H. repeat split; apply H; simpl; auto.
Qed.

(** C7, as stated, fails on the four-check verifier: an [.npmrc]
    without any occurrence of [ignore-scripts] passes its configuration
    check. *)
Lemma legacy_config_passes_without_ignore_scripts :
  npmrc (withNpmrc (Some npmrcWithoutIgnoreScripts) calmWorld)
  = Some npmrcWithoutIgnoreScripts /\
  ~ occursIn "ignore-scripts" npmrcWithoutIgnoreScripts /\
  fst (run (VerifyPackagesLegacy.verifyNpmrcConfiguration
              (withNpmrc (Some npmrcWithoutIgnoreScripts) calmWorld)))
  = Done true.
Proof.
  split; [reflexivity|]. split; [|reflexivity].
  intros H. apply includes_iff in H. vm_compute in H. discriminate.
Qed.

(** C7, amended.  Without an [.npmrc] the configuration check of both
    verifiers passes.  With one, the check returns pass exactly when
    every required key occurs somewhere in the text of the file, and
    fail otherwise, so that values and recommended settings play no
    part; the required keys are [ignore-scripts], [audit-level],
    [package-lock] and [strict-ssl] in the five-check verifier, and the
    last three only in the four-check verifier. *)
Theorem config_check_requires_keys (world : World) :
  (npmrc world = None ->
   fst (run (VerifyPackages.verifyNpmrc world)) = Done true /\
   fst (run (VerifyPackagesLegacy.verifyNpmrcConfiguration world)) = Done true) /\
  (forall content,
     npmrc world = Some content ->
     (exists verdict,
         fst (run (VerifyPackages.verifyNpmrc world)) = Done verdict /\
         (verdict = true <->
          forall key, In key requiredKeys -> occursIn key content)) /\
     (exists verdict,
         fst (run (VerifyPackagesLegacy.verifyNpmrcConfiguration world))
         = Done verdict /\
         (verdict = true <->
          forall key, In key legacyRequiredKeys -> occursIn key content))).
Proof.
  split.
  - intros Hfile.
    rewrite verifyNpmrc_verdict, verifyNpmrcConfiguration_verdict
      by (rewrite Hfile; discriminate).
    rewrite Hfile. now split.
  - intros content Hfile.
    rewrite verifyNpmrc_verdict, verifyNpmrcConfiguration_verdict
      by (rewrite Hfile; discriminate).
    rewrite Hfile. split; eexists; (split; [reflexivity|]).
    + apply npmrcVerdict_required.
    + apply npmrcVerdict_legacy_required.
Qed.

Lemma config_check_requires_keys_witness :
  let world := withNpmrc (Some npmrcWithoutIgnoreScripts) calmWorld in
  fst (run (VerifyPackages.verifyNpmrc world)) = Done false /\
  exists verdict,
    fst (run (VerifyPackages.verifyNpmrc world)) = Done verdict /\
    (verdict = true <->
     forall key, In key requiredKeys -> occursIn key npmrcWithoutIgnoreScripts).
Proof.
  split; [reflexivity|].
  exact (proj1 (proj2 (config_check_requires_keys
                         (withNpmrc (Some npmrcWithoutIgnoreScripts) calmWorld))
                      npmrcWithoutIgnoreScripts eq_refl)).
Defined.

(** ** C8: the trust-policy check *)

Lemma existsb_false_forallb_negb {A} (p : A -> bool) (l : list A) :
  forallb (fun x => negb (p x)) l = true -> existsb p l = false.
Proof.
  induction l as [|x l IH]; simpl; [reflexivity|].
  intros H. apply andb_true_iff in H as [Hx Hl].
  apply negb_true_iff in Hx. now rewrite Hx, IH.
Qed.

Lemma moreThan90_from_day_91 (now t : Z) :
  moreThan90 (daysSince now (Some t)) = (91 * msPerDay <=? now - t).
Proof.
  unfold moreThan90, daysSince, msPerDay.
  change (1000 * 60 * 60 * 24) with 86400000.
  destruct (Z.leb_spec (91 * 86400000) (now - t)) as [H | H].
  - apply Z.ltb_lt.
    assert (91 <= (now - t) / 86400000) by (apply Z.div_le_lower_bound; lia).
    lia.
  - apply Z.ltb_ge.
    assert ((now - t) / 86400000 < 91) by (apply Z.div_lt_upper_bound; lia).
    lia.
Qed.



Lemma no_failure_in_entryLines (l : list TrustEntry.t) :
  existsb isFailure (map entryLine l) = false.
Proof.
  induction l as [|p l IH]; simpl; [reflexivity|].
  unfold entryLine at 1. now destruct (incomplete p).
Qed.

Lemma no_failure_in_reviewLines (now : Z) (lastReviewed : option JsDate) :
  existsb isFailure (reviewLines now lastReviewed) = false.
Proof.
  destruct lastReviewed as [reviewed|]; [|reflexivity].
  unfold reviewLines. now destruct (moreThan90 _).
Qed.




(** ** C9: the overall verdict *)




(** ** C10: a lockfile without packages *)

Lemma nonRoot_nil (lock : Lock.t) :
  Forall (fun entry => fst entry = "") (Lock.entries lock) ->
  nonRoot lock = [].
Proof.
  unfold nonRoot. induction (Lock.entries lock) as [|[name pkg] entries IH];
    intros Hall; simpl; [reflexivity|].
  inversion Hall as [|? ? Hname Hrest]; subst. simpl in Hname. subst name.
  simpl. now apply IH.
Qed.

(** C10.  When the package mapping of a lockfile that parses holds no
    entry besides the root, both verifiers return pass from the
    integrity check: the two counts are equal (both zero), and the rate,
    computed as 0/0 and printed as NaN, decides nothing. *)
Theorem root_only_lockfile_passes (world : World) (lock : Lock.t) :
  package_lock_json world = Parsed lock ->
  Forall (fun entry => fst entry = "") (Lock.entries lock) ->
  fst (run (VerifyPackages.verifyIntegrity world)) = Done true /\
  fst (run (VerifyPackagesLegacy.verifyPackageLockIntegrity world)) = Done true /\
  Tally.total (Tally.of_entries (Lock.entries lock)) = 0 /\
  Tally.rate (Tally.of_entries (Lock.entries lock)) = Number.FNaN /\
  Tally.rateAtLeast95 (Tally.rate (Tally.of_entries (Lock.entries lock))) = false.
Proof.
  intros Hfile Hroot.
  apply nonRoot_nil in Hroot.
  assert (Htotal : entryCount lock = 0) by (unfold entryCount; now rewrite Hroot).
  assert (Hhash : digestCount lock = 0) by (unfold digestCount; now rewrite Hroot).
  assert (Hrate : Tally.rate (Tally.of_entries (Lock.entries lock)) = Number.FNaN).
  { unfold Tally.rate. now rewrite tally_total, tally_withHash, Htotal, Hhash. }
  split; [|split; [|split; [|split]]].
  - apply (integrity_passes_at_full_coverage world lock Hfile). congruence.
  - apply (integrity_passes_at_full_coverage world lock Hfile). congruence.
  - now rewrite tally_total.
  - exact Hrate.
  - now rewrite Hrate.
Qed.

Lemma root_only_lockfile_passes_witness :
  package_lock_json (withLock (Parsed rootOnlyLock) calmWorld)
  = Parsed rootOnlyLock /\
  Forall (fun entry => fst entry = "") (Lock.entries rootOnlyLock) /\
  fst (run (VerifyPackages.verifyIntegrity
              (withLock (Parsed rootOnlyLock) calmWorld))) = Done true.
Proof.
  assert (Hroot : Forall (fun entry : string * LockEntry.t => fst entry = "")
                         (Lock.entries rootOnlyLock)).
  { repeat constructor. }
  split; [reflexivity|]. split; [exact Hroot|].
  apply (root_only_lockfile_passes
           (withLock (Parsed rootOnlyLock) calmWorld) rootOnlyLock eq_refl Hroot).
Defined.

(** * Further properties of the scripts *)

(** ** The matching rule on every trust list *)

(** Whatever the trust list holds, a lockfile key matches it exactly
    when some entry covers the key's package name: an entry with a name
    by equality or as a path prefix ending in a slash, an entry without
    a name as if it were called [undefined], and then as a prefix only. *)
Theorem matchesTrusted_covers (pkgPath : string) (trustedList : list TrustEntry.t) :
  RunTrustedScripts.matchesTrusted pkgPath trustedList = true <->
  exists t, In t trustedList /\
            entryCovers (JsString.removeLeadingNodeModules pkgPath) t.
Proof.
  rewrite matchesTrusted_exists. unfold entryCovers.
  split; intros [t [Hin H]]; exists t; (split; [exact Hin|]).
  - destruct (TrustEntry.name t) as [n|];
      unfold JsString.strictEq, JsString.plus in H.
    + destruct H as [H | H].
      * left. now apply String.eqb_eq.
      * right. apply startsWith_inv in H as [rest H].
        exists rest. now rewrite H, append_assoc.
    + destruct H as [H | H]; [discriminate|].
      apply startsWith_inv in H as [rest H]. exists rest. exact H.
  - destruct (TrustEntry.name t) as [n|];
      unfold JsString.strictEq, JsString.plus.
    + destruct H as [H | [rest H]].
      * left. now apply String.eqb_eq.
      * right. rewrite H, <- append_assoc. apply startsWith_append.
    + right. destruct H as [rest H]. rewrite H.
      apply (startsWith_append "undefined/" rest).
Qed.

(** ** The leading [node_modules/] of a lockfile key *)

Lemma afterPrefix_append (p s : string) :
  JsString.afterPrefix p (p ++ s)%string = Some s.
Proof.
  induction p as [|a p IH]; simpl; [reflexivity|].
  now rewrite Ascii.eqb_refl.
Qed.

Lemma afterPrefix_none (p s : string) :
  JsString.startsWith s p = false -> JsString.afterPrefix p s = None.
Proof.
  revert s. induction p as [|b p IH]; intros s H; simpl in *; [discriminate|].
  destruct s as [|a s]; [reflexivity|].
  destruct (Ascii.eqb a b); simpl in H; [now apply IH | reflexivity].
Qed.

(** One leading [node_modules/] is removed from a key and no more: a
    key without it is compared as it stands, so it matches the trust
    list exactly when the key with the prefix in front does, and the
    package rebuilt for either is the same. *)
Theorem leading_node_modules_is_optional (s : string)
    (trustedList : list TrustEntry.t) :
  JsString.removeLeadingNodeModules ("node_modules/" ++ s)%string = s /\
  (JsString.startsWith s "node_modules/" = false ->
   JsString.removeLeadingNodeModules s = s /\
   RunTrustedScripts.matchesTrusted ("node_modules/" ++ s)%string trustedList
   = RunTrustedScripts.matchesTrusted s trustedList /\
   RunTrustedScripts.collect ["node_modules/" ++ s]%string trustedList
   = RunTrustedScripts.collect [s] trustedList).
Proof.
  assert (Hstrip : JsString.removeLeadingNodeModules ("node_modules/" ++ s)%string = s).
  { unfold JsString.removeLeadingNodeModules.
    now rewrite (afterPrefix_append "node_modules/" s). }
  split; [exact Hstrip|].
  intros Hfree.
  assert (Hsame : JsString.removeLeadingNodeModules s = s).
  { unfold JsString.removeLeadingNodeModules.
    now rewrite (afterPrefix_none "node_modules/" s Hfree). }
  assert (Hmatch : RunTrustedScripts.matchesTrusted ("node_modules/" ++ s)%string trustedList
                   = RunTrustedScripts.matchesTrusted s trustedList).
  { unfold RunTrustedScripts.matchesTrusted. now rewrite Hstrip, Hsame. }
  split; [exact Hsame|]. split; [exact Hmatch|].
  cbn [RunTrustedScripts.collect]. now rewrite Hmatch, Hstrip, Hsame.
Qed.

Lemma leading_node_modules_is_optional_witness :
  JsString.startsWith "packages/ui" "node_modules/" = false /\
  RunTrustedScripts.matchesTrusted "node_modules/packages/ui" [entryNamed "packages"]
  = RunTrustedScripts.matchesTrusted "packages/ui" [entryNamed "packages"].
Proof.
  split; [reflexivity|].
  apply (proj2 (leading_node_modules_is_optional "packages/ui"
                  [entryNamed "packages"]) eq_refl).
Defined.

(** ** Child processes of a trace *)

Lemma spawns_app (a b : Trace) : spawns (a ++ b) = spawns a ++ spawns b.
Proof.
  induction a as [|e a IH]; simpl; [reflexivity|].
  destruct e; simpl; now rewrite IH.
Qed.

Lemma spawns_map_Say {A} (f : A -> Event) (l : list A) :
  (forall x, exists c text args, f x = Say c text args) ->
  spawns (map f l) = [].
Proof.
  intros Hf. induction l as [|x l IH]; simpl; [reflexivity|].
  destruct (Hf x) as [c [text [args ->]]]. exact IH.
Qed.

Lemma in_spawns (tr : Trace) (cmd : Command) (b : bool) :
  In (Spawn cmd b) tr <-> In (cmd, b) (spawns tr).
Proof.
  induction tr as [|e tr IH]; simpl; [tauto|].
  destruct e as [c text args | cmd' b']; simpl.
  - rewrite <- IH. split; [intros [H | H]; [discriminate | exact H] | now right].
  - rewrite <- IH. split; intros [H | H]; auto; left; congruence.
Qed.

Lemma not_in_map_Say {A} (f : A -> Event) (l : list A) (e : Event) :
  (forall x, f x <> e) -> ~ In e (map f l).
Proof.
  intros Hf Hin. apply in_map_iff in Hin as [x [Hx _]]. exact (Hf x Hx).
Qed.

(** Computes [spawns] of a trace built from console output. *)
Ltac silent_trace :=
  repeat (progress (simpl; rewrite ?spawns_app));
  rewrite ?spawns_map_Say by says;
  simpl.

(** ** The runner without a lockfile *)

(** With a trust policy that parses and no [package-lock.json], the
    runner takes the installed set to be empty: it starts no child
    process and exits 0 after reporting that nothing requires a
    rebuild, and it warns about [bun.lockb] exactly when that file
    exists. *)
Theorem missing_lockfile_means_nothing_installed
    (world : RunTrustedScripts.World) (policy : TrustPolicy.t) :
  RunTrustedScripts.trusted_packages_json world = Parsed policy ->
  RunTrustedScripts.package_lock_json world = Missing ->
  let r := run (RunTrustedScripts.main world) in
  fst r = Exited 0 /\
  spawns (trace r) = [] /\
  In (Say Green "No trusted packages require rebuild." []) (trace r) /\
  (hasWarning (trace r) = RunTrustedScripts.bun_lockb world).
Proof.
  intros Hpolicy Hlock r. unfold r.
  unfold run, RunTrustedScripts.main, RunTrustedScripts.loadTrustedPackages,
    RunTrustedScripts.getInstalledPackages.
  rewrite Hpolicy, Hlock.
  unfold bind, RunTrustedScripts.log, emit, emitAll, ret, JSON_parse,
    process_exit, trace.
  destruct (RunTrustedScripts.bun_lockb world); simpl.
  - split; [reflexivity|]. split; [|split].
    + silent_trace. reflexivity.
    + rewrite !in_app_iff. simpl. intuition.
    + unfold hasWarning. rewrite !existsb_app. simpl.
      now rewrite orb_true_r.
  - split; [reflexivity|]. split; [|split].
    + silent_trace. reflexivity.
    + rewrite !in_app_iff. simpl. intuition.
    + unfold hasWarning. rewrite !existsb_app. simpl.
      rewrite !orb_false_r.
      induction (match TrustPolicy.packages policy with
                 | Some l => l
                 | None => []
                 end) as [|t l IH]; simpl; [reflexivity | exact IH].
Qed.

Lemma missing_lockfile_means_nothing_installed_witness :
  let world := RunTrustedScripts.mkWorld
                 (Parsed (policyOf ["esbuild"])) Missing true (fun _ _ => true) in
  fst (run (RunTrustedScripts.main world)) = Exited 0 /\
  hasWarning (trace (run (RunTrustedScripts.main world))) = true.
Proof.
  intros world.
  destruct (missing_lockfile_means_nothing_installed world
              (policyOf ["esbuild"]) eq_refl eq_refl) as [Hexit [_ [_ Hwarn]]].
  split; [exact Hexit | exact Hwarn].
Defined.

(** ** The runner on files that do not parse *)

(** When [trusted-packages.json] is there but does not parse, or it
    parses and [package-lock.json] is there but does not parse, the
    exception of [JSON.parse] is caught nowhere: the run ends with
    status 1 and has started no child process; in the first case the
    lockfile is not even read and only the banner has been printed. *)
Theorem unparseable_input_ends_the_runner (world : RunTrustedScripts.World) :
  let r := run (RunTrustedScripts.main world) in
  (RunTrustedScripts.trusted_packages_json world = Garbled ->
   r = (Thrown,
        [Say Cyan "Selective Script Execution for Trusted Packages" [];
         Say Cyan "===================================================" []]) /\
   exitCode r = 1) /\
  (forall policy,
     RunTrustedScripts.trusted_packages_json world = Parsed policy ->
     RunTrustedScripts.package_lock_json world = Garbled ->
     fst r = Thrown /\ exitCode r = 1 /\ spawns (trace r) = [] /\
     hasFailure (trace r) = false).
Proof.
  intros r. unfold r. split.
  - intros Hpolicy.
    unfold run, RunTrustedScripts.main, RunTrustedScripts.loadTrustedPackages.
    rewrite Hpolicy. split; reflexivity.
  - intros policy Hpolicy Hlock.
    unfold run, RunTrustedScripts.main, RunTrustedScripts.loadTrustedPackages,
      RunTrustedScripts.getInstalledPackages.
    rewrite Hpolicy, Hlock.
    unfold bind, RunTrustedScripts.log, emit, emitAll, ret, JSON_parse, throw,
      exitCode, trace.
    simpl. split; [reflexivity|]. split; [reflexivity|]. split.
    + now rewrite spawns_map_Say by says.
    + unfold hasFailure. simpl.
      induction (match TrustPolicy.packages policy with
                 | Some l => l
                 | None => []
                 end) as [|t l IH]; simpl; [reflexivity | exact IH].
Qed.

Lemma unparseable_input_ends_the_runner_witness :
  let world := RunTrustedScripts.mkWorld
                 Garbled (Parsed (lockOf ["node_modules/esbuild"])) false
                 (fun _ _ => true) in
  exitCode (run (RunTrustedScripts.main world)) = 1.
Proof.
  intros world.
  apply (proj1 (unparseable_input_ends_the_runner world) eq_refl).
Defined.

(** ** The runner starts rebuilds and nothing else *)

Lemma onlyRebuilds_app (a b : Trace) :
  onlyRebuilds a -> onlyRebuilds b -> onlyRebuilds (a ++ b).
Proof.
  unfold onlyRebuilds. intros Ha Hb.
  now rewrite spawns_app, rebuilds_app, map_app, Ha, Hb.
Qed.

Lemma Keeps_extend {A} (o : Outcome A) (es : Trace) :
  onlyRebuilds es -> KeepsToRebuilds (fun tr => (o, tr ++ es)).
Proof. intros Hes tr Htr. simpl. now apply onlyRebuilds_app. Qed.

Lemma Keeps_ret {A} (a : A) : KeepsToRebuilds (ret a).
Proof. intros tr Htr. exact Htr. Qed.

Lemma Keeps_throw {A} : KeepsToRebuilds (@throw A).
Proof. intros tr Htr. exact Htr. Qed.

Lemma Keeps_exit {A} (code : Z) : KeepsToRebuilds (@process_exit A code).
Proof. intros tr Htr. exact Htr. Qed.

Lemma Keeps_log (msg : string) (args : list Arg) (color : Color) :
  KeepsToRebuilds (RunTrustedScripts.log msg args color).
Proof. apply (Keeps_extend (Done tt)). reflexivity. Qed.

Lemma Keeps_emitAll_says {A} (f : A -> Event) (l : list A) :
  (forall x, exists c text args, f x = Say c text args) ->
  KeepsToRebuilds (emitAll (map f l)).
Proof.
  intros Hf. apply (Keeps_extend (Done tt)). unfold onlyRebuilds.
  now rewrite spawns_map_Say, rebuilds_map_Say.
Qed.

Lemma Keeps_bind {A B} (p : Proc A) (k : A -> Proc B) :
  KeepsToRebuilds p -> (forall a, KeepsToRebuilds (k a)) ->
  KeepsToRebuilds (bind p k).
Proof.
  intros Hp Hk tr Htr. unfold bind.
  specialize (Hp tr Htr). destruct (p tr) as [[a|code|] tr']; simpl in *.
  - now apply Hk.
  - exact Hp.
  - exact Hp.
Qed.

Lemma Keeps_try_catch {A} (body handler : Proc A) :
  KeepsToRebuilds body -> KeepsToRebuilds handler ->
  KeepsToRebuilds (try_catch body handler).
Proof.
  intros Hb Hh tr Htr. unfold try_catch.
  specialize (Hb tr Htr). destruct (body tr) as [[a|code|] tr']; simpl in *.
  - exact Hb.
  - exact Hb.
  - now apply Hh.
Qed.

Lemma Keeps_JSON_parse {A} (f : File A) : KeepsToRebuilds (JSON_parse f).
Proof. destruct f; [apply Keeps_throw | apply Keeps_throw | apply Keeps_ret]. Qed.

Lemma Keeps_execSync_rebuild (world : RunTrustedScripts.World) (pkg : string) :
  KeepsToRebuilds (RunTrustedScripts.execSync_rebuild world pkg).
Proof.
  intros tr Htr. unfold RunTrustedScripts.execSync_rebuild.
  destruct (RunTrustedScripts.npm_rebuild world (rebuilds tr) pkg); simpl;
    (apply onlyRebuilds_app; [exact Htr | reflexivity]).
Qed.

Lemma Keeps_forOf {A} (xs : list A) (body : A -> Proc unit) :
  (forall x, KeepsToRebuilds (body x)) -> KeepsToRebuilds (forOf xs body).
Proof.
  intros Hbody. induction xs as [|x xs IH]; simpl.
  - apply Keeps_ret.
  - apply Keeps_bind; [apply Hbody | intros _; exact IH].
Qed.

Create HintDb rebuilds_only.
#[export] Hint Resolve Keeps_ret Keeps_throw Keeps_exit Keeps_log
  Keeps_JSON_parse Keeps_execSync_rebuild : rebuilds_only.

Lemma Keeps_rebuildOne (world : RunTrustedScripts.World) (pkg : string) :
  KeepsToRebuilds (RunTrustedScripts.rebuildOne world pkg).
Proof.
  unfold RunTrustedScripts.rebuildOne.
  apply Keeps_try_catch; repeat (apply Keeps_bind; [|intros ?]);
    auto with rebuilds_only.
Qed.

Lemma Keeps_main (world : RunTrustedScripts.World) :
  KeepsToRebuilds (RunTrustedScripts.main world).
Proof.
  unfold RunTrustedScripts.main, RunTrustedScripts.loadTrustedPackages,
    RunTrustedScripts.getInstalledPackages.
  repeat first
    [ solve [auto with rebuilds_only]
    | apply Keeps_emitAll_says; says
    | apply Keeps_forOf; intros ?; apply Keeps_rebuildOne
    | apply Keeps_bind; [|intros ?]
    | match goal with
      | |- KeepsToRebuilds (match ?x with _ => _ end) => destruct x
      | |- KeepsToRebuilds (if ?b then _ else _) => destruct b
      | |- KeepsToRebuilds (let _ := _ in _) => cbv zeta
      end ].
Qed.

Lemma rebuilds_of_run (world : RunTrustedScripts.World) :
  exists made rest,
    rebuilds (trace (run (RunTrustedScripts.main world))) = made /\
    plannedRebuilds world = map fst made ++ rest.
Proof.
  destruct (RunTrustedScripts.trusted_packages_json world)
    as [| |policy] eqn:Hpolicy.
  1,2: exists [], (plannedRebuilds world);
    destruct (main_not_loaded world) as [-> _];
    [intros p Hp; congruence | now split].
  destruct (RunTrustedScripts.package_lock_json world) as [| |lock] eqn:Hlock.
  2: { exists [], (plannedRebuilds world).
       destruct (main_not_loaded world) as [-> _];
         [intros p Hp; exact Hlock | now split]. }
  all: assert (Hok : RunTrustedScripts.package_lock_json world <> Garbled)
         by (rewrite Hlock; discriminate);
       destruct (main_when_loaded world policy Hpolicy Hok) as [tr [Hrun Hreb]];
       destruct (attempts_prefix (RunTrustedScripts.npm_rebuild world)
                   (plannedRebuilds world) []) as [rest Hrest];
       eexists; exists rest; rewrite Hrun; unfold trace; simpl snd;
       split; [exact Hreb | exact Hrest].
Qed.

Lemma plannedRebuilds_length (world : RunTrustedScripts.World) (lock : Lock.t) :
  RunTrustedScripts.package_lock_json world = Parsed lock ->
  (List.length (plannedRebuilds world) <= List.length (installedKeys lock))%nat.
Proof.
  intros Hlock. unfold plannedRebuilds. rewrite Hlock.
  destruct (RunTrustedScripts.trusted_packages_json world) as [| |policy];
    simpl; try lia.
  unfold matchingPackages, installedKeys.
  rewrite length_map, <- filter_filter. apply filter_length_le.
Qed.

(** In every run of the runner, each command handed to [execSync] is
    the command line [npm rebuild] followed by a name the run set out to
    rebuild, that is a non-root lockfile key matching the trust list,
    without its leading [node_modules/]; there are at most as many
    command lines as such names, and so at most as many as the lockfile
    has non-root keys.  When each of those names is a single word for
    the shell, each command line rebuilds the one package it names: the
    packages rebuilt are as many as the command lines and all among
    those names. *)
Theorem runner_starts_only_planned_rebuilds (world : RunTrustedScripts.World) :
  let r := run (RunTrustedScripts.main world) in
  (forall cmd ok, In (Spawn cmd ok) (trace r) ->
     exists pkg, commandLine cmd = ("npm rebuild " ++ pkg)%string /\
                 cmd = NpmRebuild pkg /\ In pkg (plannedRebuilds world)) /\
  (List.length (spawns (trace r)) <= List.length (plannedRebuilds world))%nat /\
  (forall lock,
     RunTrustedScripts.package_lock_json world = Parsed lock ->
     (List.length (spawns (trace r)) <= List.length (installedKeys lock))%nat) /\
  (Forall (fun pkg => shellWord pkg = true) (plannedRebuilds world) ->
   exists pkgs,
     rebuiltPackages r = Some pkgs /\
     List.length pkgs = List.length (spawns (trace r)) /\
     forall pkg, In pkg pkgs -> In pkg (plannedRebuilds world)).
Proof.
  intros r.
  assert (Honly : onlyRebuilds (trace r)).
  { unfold r, run, trace. apply Keeps_main. reflexivity. }
  destruct (rebuilds_of_run world) as [made [rest [Hmade Hplan]]].
  fold r in Hmade. unfold onlyRebuilds in Honly. rewrite Hmade in Honly.
  assert (Hlen : (List.length (spawns (trace r))
                  <= List.length (plannedRebuilds world))%nat).
  { rewrite Honly, Hplan, length_app, !length_map. lia. }
  split; [|split; [|split]].
  - intros cmd ok Hin. apply in_spawns in Hin. rewrite Honly in Hin.
    apply in_map_iff in Hin as [[pkg b] [Heq Hin]].
    unfold asRebuild in Heq. simpl in Heq. injection Heq as <- <-.
    exists pkg. split; [reflexivity|]. split; [reflexivity|].
    rewrite Hplan. apply in_or_app. left.
    apply in_map_iff. now exists (pkg, b).
  - exact Hlen.
  - intros lock Hlock.
    pose proof (plannedRebuilds_length world lock Hlock). lia.
  - intros Hwords. exists (map fst made).
    unfold rebuiltPackages. rewrite Hmade, Honly, !length_map.
    split; [|split; [reflexivity|]].
    + apply targetsOf_words. rewrite Hplan in Hwords.
      now apply Forall_app in Hwords as [Hwords _].
    + intros pkg Hin. rewrite Hplan. apply in_or_app. now left.
Qed.

Lemma runner_starts_only_planned_rebuilds_witness :
  RunTrustedScripts.package_lock_json worldRebuildsSucceed
  = Parsed (lockOf [""; "node_modules/esbuild"; "node_modules/react";
                    "node_modules/sharp"]) /\
  Forall (fun pkg => shellWord pkg = true) (plannedRebuilds worldRebuildsSucceed) /\
  (List.length (spawns (trace (run (RunTrustedScripts.main worldRebuildsSucceed))))
   <= 3)%nat /\
  exists pkgs,
    rebuiltPackages (run (RunTrustedScripts.main worldRebuildsSucceed))
    = Some pkgs /\
    List.length pkgs
    = List.length (spawns (trace (run (RunTrustedScripts.main
                                         worldRebuildsSucceed)))) /\
    forall pkg, In pkg pkgs -> In pkg (plannedRebuilds worldRebuildsSucceed).
Proof.
  assert (Hwords : Forall (fun pkg => shellWord pkg = true)
                          (plannedRebuilds worldRebuildsSucceed))
    by (repeat constructor).
  split; [reflexivity|]. split; [exact Hwords|]. split.
  - apply (proj1 (proj2 (proj2 (runner_starts_only_planned_rebuilds
                                  worldRebuildsSucceed)))
             (lockOf [""; "node_modules/esbuild"; "node_modules/react";
                      "node_modules/sharp"]) eq_refl).
  - apply (proj2 (proj2 (proj2 (runner_starts_only_planned_rebuilds
                                  worldRebuildsSucceed))) Hwords).
Defined.

(** A lockfile key is pasted into the command line as it stands: one
    that holds a [;] reaches the shell as part of a longer command
    line, and what is rebuilt then is for the shell to decide. *)
Lemma unquoted_key_reaches_the_shell :
  let world :=
    RunTrustedScripts.mkWorld
      (Parsed (policyOf ["esbuild"]))
      (Parsed (lockOf [""; "node_modules/esbuild/x;npm rebuild evil"]))
      false (fun _ _ => true) in
  let r := run (RunTrustedScripts.main world) in
  map (fun c => commandLine (fst c)) (spawns (trace r))
  = ["npm rebuild esbuild/x;npm rebuild evil"] /\
  rebuiltPackages r = None.
Proof. split; reflexivity. Qed.

(** ** What the tally loop keeps *)

Lemma step_cases (st : Tally.t) (name : string) (pkg : LockEntry.t) :
  Tally.step st (name, pkg)
  = if String.eqb name "" then st
    else if hasDigest (name, pkg)
         then Tally.mk (Tally.total st + 1) (Tally.withHash st + 1)
                       (if isSha512 (name, pkg)
                        then Tally.sha512 st + 1 else Tally.sha512 st)
                       (Tally.missing st)
         else Tally.mk (Tally.total st + 1) (Tally.withHash st)
                       (Tally.sha512 st) (Tally.missing st ++ [name]).
Proof. destruct pkg as [[[|c digest]|]]; reflexivity. Qed.

Lemma isSha512_hasDigest (entry : string * LockEntry.t) :
  isSha512 entry = true -> hasDigest entry = true.
Proof.
  unfold isSha512, hasDigest.
  destruct (LockEntry.integrity (snd entry)) as [[|c digest]|];
    [discriminate | reflexivity | discriminate].
Qed.

Lemma tally_fold (entries : list (string * LockEntry.t)) :
  forall st,
    let keep := filter (fun entry => negb (String.eqb (fst entry) "")) entries in
    let st' := fold_left Tally.step entries st in
    Tally.total st' = Tally.total st + Z.of_nat (List.length keep) /\
    Tally.withHash st'
    = Tally.withHash st + Z.of_nat (List.length (filter hasDigest keep)) /\
    Tally.sha512 st'
    = Tally.sha512 st + Z.of_nat (List.length (filter isSha512 keep)) /\
    Tally.missing st' = Tally.missing st ++ map fst (filter lacksDigest keep).
Proof.
  induction entries as [|[name pkg] entries IH]; intros st.
  - simpl. rewrite app_nil_r. repeat split; lia.
  - cbn [fold_left filter fst]. cbv zeta.
    destruct (IH (Tally.step st (name, pkg))) as [Ht [Hh [Hs Hm]]].
    cbv zeta in Ht, Hh, Hs, Hm. rewrite Ht, Hh, Hs, Hm. clear Ht Hh Hs Hm IH.
    rewrite step_cases.
    destruct (String.eqb name "") eqn:Hroot; cbn [negb].
    + repeat split; reflexivity.
    + cbn [filter].
      replace (lacksDigest (name, pkg)) with (negb (hasDigest (name, pkg)))
        by reflexivity.
      destruct (hasDigest (name, pkg)) eqn:Hdigest; cbn [negb].
      * destruct (isSha512 (name, pkg));
          cbn [Tally.total Tally.withHash Tally.sha512 Tally.missing
               filter map List.length fst];
          rewrite ?Nat2Z.inj_succ; repeat split; try lia; reflexivity.
      * destruct (isSha512 (name, pkg)) eqn:Hsha;
          [apply isSha512_hasDigest in Hsha; congruence|].
        cbn [Tally.total Tally.withHash Tally.sha512 Tally.missing
             filter map List.length fst].
        rewrite ?Nat2Z.inj_succ, <- app_assoc.
        repeat split; try lia; reflexivity.
Qed.

Lemma digest_or_missing (l : list (string * LockEntry.t)) :
  (List.length l
   = List.length (filter hasDigest l) + List.length (filter lacksDigest l))%nat.
Proof.
  induction l as [|e l IH]; cbn [filter List.length]; [reflexivity|].
  replace (lacksDigest e) with (negb (hasDigest e)) by reflexivity.
  destruct (hasDigest e); cbn [negb List.length]; lia.
Qed.

Lemma sha512_among_digests (l : list (string * LockEntry.t)) :
  (List.length (filter isSha512 l) <= List.length (filter hasDigest l))%nat.
Proof.
  induction l as [|e l IH]; cbn [filter List.length]; [lia|].
  destruct (isSha512 e) eqn:Hsha.
  - rewrite (isSha512_hasDigest e Hsha). cbn [List.length]. lia.
  - destruct (hasDigest e); cbn [List.length]; lia.
Qed.

Lemma tally_missing_names (lock : Lock.t) :
  Tally.missing (Tally.of_entries (Lock.entries lock))
  = map fst (filter lacksDigest (nonRoot lock)).
Proof.
  unfold Tally.of_entries.
  destruct (tally_fold (Lock.entries lock) Tally.start) as [_ [_ [_ Hm]]].
  cbv zeta in Hm. fold (nonRoot lock) in Hm. rewrite Hm. reflexivity.
Qed.

(** After the loop over the package mapping of any lockfile, the number
    of packages is the number of those with a digest plus the number of
    names collected as missing; the SHA-512 count is between 0 and the
    digest count; and the missing names are, in lockfile order, the keys
    of the non-root entries whose [integrity] is absent or empty. *)
Theorem tally_accounts_for_every_package (lock : Lock.t) :
  let st := Tally.of_entries (Lock.entries lock) in
  Tally.total st = Tally.withHash st + Z.of_nat (List.length (Tally.missing st)) /\
  0 <= Tally.sha512 st <= Tally.withHash st /\
  Tally.withHash st <= Tally.total st /\
  Tally.sha512 st = Z.of_nat (List.length (filter isSha512 (nonRoot lock))) /\
  Tally.missing st = map fst (filter lacksDigest (nonRoot lock)).
Proof.
  intros st. unfold st, Tally.of_entries.
  destruct (tally_fold (Lock.entries lock) Tally.start) as [Ht [Hh [Hs Hm]]].
  cbv zeta in Ht, Hh, Hs, Hm. fold (nonRoot lock) in Ht, Hh, Hs, Hm.
  rewrite Ht, Hh, Hs, Hm. cbn [Tally.start Tally.total Tally.withHash
                                 Tally.sha512 Tally.missing app].
  rewrite length_map.
  pose proof (digest_or_missing (nonRoot lock)) as Hsplit.
  pose proof (sha512_among_digests (nonRoot lock)) as Hsha.
  repeat split; try lia.
Qed.

(** ** The preview of packages without digest *)

Lemma lines_map_all {A} (c : Color) (text : string) (f : A -> Event)
    (l : list A) :
  (forall x, isLine c text (f x) = true) ->
  filter (isLine c text) (map f l) = map f l.
Proof.
  intros Hf. induction l as [|x l IH]; simpl; [reflexivity|].
  rewrite Hf. f_equal. exact IH.
Qed.

Lemma lines_map_none {A} (c : Color) (text : string) (f : A -> Event)
    (l : list A) :
  (forall x, isLine c text (f x) = false) ->
  filter (isLine c text) (map f l) = [].
Proof.
  intros Hf. induction l as [|x l IH]; simpl; [reflexivity|].
  rewrite Hf. exact IH.
Qed.

Lemma firstn_short {A} (l : list A) :
  Z.of_nat (List.length l) <= 10 -> firstn 10 l = l.
Proof. intros H. apply firstn_all2. lia. Qed.

(** Reads the lines of one kind off a trace. *)
Ltac read_lines :=
  unfold linesOf, previewLine; cbn [snd];
  repeat (progress
            (cbn [filter isLine String.eqb Ascii.eqb Bool.eqb rule];
             rewrite ?filter_app;
             rewrite ?lines_map_all by (intros ?; reflexivity);
             rewrite ?lines_map_none by (intros ?; reflexivity)));
  cbn [app]; rewrite ?app_nil_r; try reflexivity.

Ltac integrity_trace Hfile :=
  unfold run, trace, VerifyPackages.verifyIntegrity,
    VerifyPackagesLegacy.verifyPackageLockIntegrity;
  rewrite Hfile; proc_unfold; cbv zeta.

(** For a lockfile that parses, both verifiers list the packages without
    digest by name: the first ten of them in lockfile order, one line
    each, and, exactly when there are more than ten, one further line
    with the number of those left out. *)
Theorem missing_preview_is_capped_at_10 (world : World) (lock : Lock.t) :
  package_lock_json world = Parsed lock ->
  let missing := map fst (filter lacksDigest (nonRoot lock)) in
  let more := if 10 <? Z.of_nat (List.length missing)
              then [Say Yellow "  ... and {} more"
                      [ANum (Z.of_nat (List.length missing) - 10)]]
              else [] in
  let t := trace (run (VerifyPackages.verifyIntegrity world)) in
  let t' := trace (run (VerifyPackagesLegacy.verifyPackageLockIntegrity world)) in
  linesOf Yellow "  - {}" t = map previewLine (firstn 10 missing) /\
  linesOf Yellow "  ... and {} more" t = more /\
  linesOf Yellow "  - {}" t' = map previewLine (firstn 10 missing) /\
  linesOf Yellow "  ... and {} more" t' = more.
Proof.
  intros Hfile missing more t t'.
  pose proof (tally_missing_names lock) as Hmissing.
  cbv zeta in Hmissing. fold missing in Hmissing.
  unfold t, t', more. clear t t' more.
  integrity_trace Hfile. rewrite Hmissing. clear Hmissing.
  set (st := Tally.of_entries (Lock.entries lock)).
  destruct missing as [|m ms] eqn:Hm.
  - destruct (Tally.withHash st =? Tally.total st);
      [|destruct (Tally.rateAtLeast95 (Tally.rate st))];
      cbv beta iota; repeat split; read_lines.
  - rewrite <- Hm. clear Hm.
    destruct (10 <? Z.of_nat (List.length missing)) eqn:Hlen.
    + assert (Hle : (Z.of_nat (List.length missing) <=? 10) = false)
        by (apply Z.leb_gt; now apply Z.ltb_lt).
      rewrite Hle.
      destruct (Tally.withHash st =? Tally.total st);
        [|destruct (Tally.rateAtLeast95 (Tally.rate st))];
        cbv beta iota; repeat split; read_lines.
    + assert (Hle : (Z.of_nat (List.length missing) <=? 10) = true)
        by (apply Z.leb_le; now apply Z.ltb_ge).
      rewrite Hle. rewrite (firstn_short missing) by now apply Z.leb_le.
      destruct (Tally.withHash st =? Tally.total st);
        [|destruct (Tally.rateAtLeast95 (Tally.rate st))];
        cbv beta iota; repeat split; read_lines.
Qed.

Lemma missing_preview_is_capped_at_10_witness :
  let world := withLock (Parsed (lockWithCoverage 30 12)) calmWorld in
  let t := trace (run (VerifyPackages.verifyIntegrity world)) in
  List.length (linesOf Yellow "  - {}" t) = 10%nat /\
  linesOf Yellow "  ... and {} more" t
  = [Say Yellow "  ... and {} more" [ANum 2]].
Proof.
  intros world t.
  destruct (missing_preview_is_capped_at_10 world (lockWithCoverage 30 12)
              eq_refl) as [Hshown [Hmore _]].
  unfold t. rewrite Hshown, Hmore. split; reflexivity.
Defined.

(** ** The lockfile absent or unreadable *)

(** When [package-lock.json] is absent or does not parse, the integrity
    check of both verifiers reports a failure and returns fail without
    starting any child process, and the verifier exits with status 1
    whatever the other checks find. *)
Theorem lockfile_problem_fails_the_run (world : World) :
  package_lock_json world = Missing \/ package_lock_json world = Garbled ->
  let r := run (VerifyPackages.verifyIntegrity world) in
  let r' := run (VerifyPackagesLegacy.verifyPackageLockIntegrity world) in
  fst r = Done false /\ hasFailure (trace r) = true /\ spawns (trace r) = [] /\
  fst r' = Done false /\ hasFailure (trace r') = true /\ spawns (trace r') = [] /\
  exitCode (run (VerifyPackages.main world)) = 1 /\
  exitCode (run (VerifyPackagesLegacy.main world)) = 1.
Proof.
  intros Hfile r r'.
  assert (Hverdict : integrityVerdict (package_lock_json world) = false)
    by (destruct Hfile as [-> | ->]; reflexivity).
  assert (Hall : overallVerdict world = false).
  { unfold overallVerdict. rewrite Hverdict.
    now rewrite andb_false_r. }
  assert (Hall' : legacyOverallVerdict world = false).
  { unfold legacyOverallVerdict. rewrite Hverdict.
    now rewrite andb_false_r. }
  rewrite main_exitCode, legacy_main_exitCode, Hall, Hall'.
  unfold r, r'.
  destruct Hfile as [Hfile | Hfile]; integrity_trace Hfile;
    repeat split; reflexivity.
Qed.

Lemma lockfile_problem_fails_the_run_witness :
  package_lock_json (withLock Missing calmWorld) = Missing /\
  exitCode (run (VerifyPackages.main (withLock Missing calmWorld))) = 1.
Proof.
  split; [reflexivity|].
  apply (lockfile_problem_fails_the_run (withLock Missing calmWorld)).
  left. reflexivity.
Defined.

(** ** Digests of any algorithm *)

Lemma filter_all {A} (p : A -> bool) (l : list A) :
  Forall (fun x => p x = true) l -> filter p l = l.
Proof.
  induction 1 as [|x l Hx _ IH]; simpl; [reflexivity|].
  now rewrite Hx, IH.
Qed.

Lemma filter_none {A} (p q : A -> bool) (l : list A) :
  (forall x, q x = negb (p x)) ->
  Forall (fun x => p x = true) l -> filter q l = [].
Proof.
  intros Hq. induction 1 as [|x l Hx _ IH]; simpl; [reflexivity|].
  now rewrite Hq, Hx.
Qed.

(** When every non-root entry of the lockfile has a non-empty
    [integrity] string, the integrity check of both verifiers returns
    pass and prints neither a warning nor a failure, whichever hash
    algorithm the strings name: the SHA-512 count is printed and
    decides nothing. *)
Theorem any_digest_passes_quietly (world : World) (lock : Lock.t) :
  package_lock_json world = Parsed lock ->
  Forall (fun entry => hasDigest entry = true) (nonRoot lock) ->
  let r := run (VerifyPackages.verifyIntegrity world) in
  let r' := run (VerifyPackagesLegacy.verifyPackageLockIntegrity world) in
  fst r = Done true /\ hasWarning (trace r) = false /\
  hasFailure (trace r) = false /\
  fst r' = Done true /\ hasWarning (trace r') = false /\
  hasFailure (trace r') = false.
Proof.
  intros Hfile Hall r r'.
  pose proof (tally_missing_names lock) as Hmissing.
  cbv zeta in Hmissing.
  rewrite (filter_none hasDigest lacksDigest) in Hmissing
    by (trivial || (intros ?; reflexivity)).
  assert (Hfull : (Tally.withHash (Tally.of_entries (Lock.entries lock))
                   =? Tally.total (Tally.of_entries (Lock.entries lock))) = true).
  { rewrite tally_total, tally_withHash. unfold digestCount, entryCount.
    rewrite (filter_all hasDigest _ Hall). apply Z.eqb_refl. }
  unfold r, r'. clear r r'.
  integrity_trace Hfile. rewrite Hmissing, Hfull.
  cbv beta iota. repeat split; reflexivity.
Qed.

Lemma any_digest_passes_quietly_witness :
  let lock := sha1LockOf [""; "node_modules/left-pad"; "node_modules/once"] in
  let world := withLock (Parsed lock) calmWorld in
  Forall (fun entry => hasDigest entry = true) (nonRoot lock) /\
  Tally.sha512 (Tally.of_entries (Lock.entries lock)) = 0 /\
  fst (run (VerifyPackages.verifyIntegrity world)) = Done true.
Proof.
  intros lock world.
  assert (Hall : Forall (fun entry => hasDigest entry = true) (nonRoot lock))
    by (repeat constructor).
  split; [exact Hall|]. split; [reflexivity|].
  apply (any_digest_passes_quietly world lock eq_refl Hall).
Defined.

(** ** The audit command and its fallback *)

(** The audit check of both verifiers always starts
    [npm audit --json]; when [execSync] throws on it the check fails at
    once; when its output does not parse, [npm audit --audit-level=high]
    is run as well and its exit status alone is the verdict; when the
    output parses, no second command is run. *)
Theorem audit_falls_back_on_unparseable_output (world : World) :
  let r := run (VerifyPackages.runAudit world) in
  let r' := run (VerifyPackagesLegacy.runSecurityAudit world) in
  (npm_audit_json world = None ->
   fst r = Done false /\ fst r' = Done false /\
   spawns (trace r) = [(NpmAuditJson, false)] /\
   spawns (trace r') = [(NpmAuditJson, false)] /\
   hasFailure (trace r) = true /\ hasFailure (trace r') = true) /\
  (npm_audit_json world = Some None ->
   fst r = Done (npm_audit_level_high world) /\
   fst r' = Done (npm_audit_level_high world) /\
   spawns (trace r)
   = [(NpmAuditJson, true); (NpmAuditLevelHigh, npm_audit_level_high world)] /\
   spawns (trace r')
   = [(NpmAuditJson, true); (NpmAuditLevelHigh, npm_audit_level_high world)] /\
   hasWarning (trace r) = true /\ hasWarning (trace r') = true) /\
  (forall result,
     npm_audit_json world = Some (Some result) ->
     spawns (trace r) = [(NpmAuditJson, true)] /\
     spawns (trace r') = [(NpmAuditJson, true)]).
Proof.
  intros r r'. unfold r, r'. split; [|split].
  - intros Hjson. audit_trace Hjson. repeat split; reflexivity.
  - intros Hjson. audit_trace Hjson.
    destruct (npm_audit_level_high world); repeat split; reflexivity.
  - intros result Hjson. audit_trace Hjson.
    destruct (0 <? Audit.orZero (Audit.critical (Audit.breakdown result)));
      destruct (0 <? Audit.orZero (Audit.high (Audit.breakdown result)));
      destruct (0 <? Audit.orZero (Audit.moderate (Audit.breakdown result)));
      split; reflexivity.
Qed.

Lemma audit_falls_back_on_unparseable_output_witness :
  let world := withAudit (Some None) calmWorld in
  npm_audit_json world = Some None /\
  fst (run (VerifyPackages.runAudit world)) = Done true.
Proof.
  intros world. split; [reflexivity|].
  apply (proj1 (proj2 (audit_falls_back_on_unparseable_output world)) eq_refl).
Defined.

(** ** The signature check *)

Ltac signature_trace :=
  unfold run, trace, VerifyPackages.verifySignatures,
    VerifyPackagesLegacy.verifySignatureSupport, exec_npm_version.

(** The signature check of both verifiers returns pass in every case
    and never prints a failure.  It always asks for [npm --version];
    [npm audit signatures] is run exactly when the version answered has
    a major part above 8, or equal to 8 with a minor part of at least
    15, and a warning is printed unless that command was run and
    succeeded. *)
Theorem signature_check_never_fails (world : World) :
  let r := run (VerifyPackages.verifySignatures world) in
  let r' := run (VerifyPackagesLegacy.verifySignatureSupport world) in
  fst r = Done true /\ fst r' = Done true /\
  hasFailure (trace r) = false /\ hasFailure (trace r') = false /\
  map fst (spawns (trace r))
  = NpmVersion :: (if signaturesSupported world then [NpmAuditSignatures] else []) /\
  spawns (trace r') = spawns (trace r) /\
  hasWarning (trace r)
  = negb (signaturesSupported world && npm_audit_signatures world) /\
  hasWarning (trace r') = hasWarning (trace r) /\
  (signaturesSupported world = true <->
   exists ver maj,
     npm_version world = Some ver /\ Version.major ver = Some maj /\
     (8 < maj \/
      maj = 8 /\ exists min, Version.minor ver = Some min /\ 15 <= min)).
Proof.
  intros r r'. unfold r, r', signaturesSupported.
  signature_trace.
  destruct (npm_version world) as [ver|]; proc_unfold.
  - assert (Hprop : Version.supportsSignatures ver = true <->
              exists ver' maj,
                Some ver = Some ver' /\ Version.major ver' = Some maj /\
                (8 < maj \/
                 maj = 8 /\ exists min, Version.minor ver' = Some min /\ 15 <= min)).
    { unfold Version.supportsSignatures. split.
      - intros H. exists ver.
        destruct (Version.major ver) as [maj|]; [|discriminate].
        exists maj. split; [reflexivity|]. split; [reflexivity|].
        apply orb_true_iff in H as [H | H].
        + left. now apply Z.ltb_lt.
        + right. apply andb_true_iff in H as [H1 H2].
          apply Z.eqb_eq in H1. split; [exact H1|].
          destruct (Version.minor ver) as [min|]; [|discriminate].
          exists min. split; [reflexivity|]. now apply Z.leb_le.
      - intros [ver' [maj [Hv [Hmaj H]]]]. injection Hv as <-.
        rewrite Hmaj. apply orb_true_iff.
        destruct H as [H | [-> [min [Hmin H]]]].
        + left. now apply Z.ltb_lt.
        + right. rewrite Hmin. simpl. now apply Z.leb_le. }
    destruct (Version.supportsSignatures ver);
      [destruct (npm_audit_signatures world)|];
      cbv beta iota; repeat split; try reflexivity; apply Hprop.
  - cbv beta iota. repeat split; try reflexivity; try discriminate.
    intros [ver [maj [H _]]]. discriminate.
Qed.

(** The exit status of both verifiers is the same whatever
    [npm --version] answers, or whether it runs at all, and whatever
    [npm audit signatures] returns. *)
Theorem exit_code_ignores_signature_check (world : World)
    (version : option Version.t) (signatures : bool) :
  exitCode (run (VerifyPackages.main (withNpm version signatures world)))
  = exitCode (run (VerifyPackages.main world)) /\
  exitCode (run (VerifyPackagesLegacy.main (withNpm version signatures world)))
  = exitCode (run (VerifyPackagesLegacy.main world)).
Proof.
  rewrite !main_exitCode, !legacy_main_exitCode.
  split; reflexivity.
Qed.

(** ** The configuration check under more text *)

Lemma occursIn_extend (key content before after : string) :
  occursIn key content -> occursIn key (before ++ content ++ after)%string.
Proof.
  intros [a [b ->]]. exists (before ++ a)%string, (b ++ after)%string.
  now rewrite !append_assoc.
Qed.

(** A configuration file that passes the configuration check still
    passes it after any text is put before and after its content, in
    both verifiers: nothing in an [.npmrc] can take a required setting
    back. *)
Theorem config_check_survives_added_text (world : World)
    (content before after : string) :
  npmrc world = Some content ->
  let world' := withNpmrc (Some (before ++ content ++ after)%string) world in
  (fst (run (VerifyPackages.verifyNpmrc world)) = Done true ->
   fst (run (VerifyPackages.verifyNpmrc world')) = Done true) /\
  (fst (run (VerifyPackagesLegacy.verifyNpmrcConfiguration world)) = Done true ->
   fst (run (VerifyPackagesLegacy.verifyNpmrcConfiguration world')) = Done true).
Proof.
  intros Hfile world'.
  assert (Hread : npmrc world <> Unreadable) by (rewrite Hfile; discriminate).
  assert (Hread' : npmrc world' <> Unreadable) by discriminate.
  rewrite (verifyNpmrc_verdict world Hread), (verifyNpmrc_verdict world' Hread'),
    (verifyNpmrcConfiguration_verdict world Hread),
    (verifyNpmrcConfiguration_verdict world' Hread'), Hfile.
  unfold world'. cbn [npmrc withNpmrc].
  split; intros H; injection H as H; f_equal.
  - apply npmrcVerdict_required. intros key Hkey.
    apply occursIn_extend. revert key Hkey. now apply npmrcVerdict_required.
  - apply npmrcVerdict_legacy_required. intros key Hkey.
    apply occursIn_extend. revert key Hkey. now apply npmrcVerdict_legacy_required.
Qed.

Lemma config_check_survives_added_text_witness :
  npmrc calmWorld = Some hardenedNpmrc /\
  fst (run (VerifyPackages.verifyNpmrc
              (withNpmrc (Some ("# local overrides" ++ hardenedNpmrc
                                ++ "ignore-scripts=false")%string) calmWorld)))
  = Done true.
Proof.
  split; [reflexivity|].
  apply (proj1 (config_check_survives_added_text calmWorld hardenedNpmrc
                  "# local overrides" "ignore-scripts=false" eq_refl)).
  reflexivity.
Defined.

(** ** The two verifiers compared *)

Lemma required_implies_legacy_required (file : ConfigFile) :
  npmrcVerdict VerifyPackages.required file = true ->
  npmrcVerdict VerifyPackagesLegacy.requiredSettings file = true.
Proof.
  destruct file as [| |content]; [reflexivity | discriminate |].
  change (Text content) with (ConfigFile_ofOption (Some content)).
  rewrite npmrcVerdict_required, npmrcVerdict_legacy_required.
  intros H key Hkey. apply H. simpl in *. tauto.
Qed.

(** On the same files and command results, the integrity, audit and
    signature checks of the two verifiers return the same verdicts, and
    whenever the five-check verifier exits with status 0 so does the
    four-check verifier. *)
Theorem five_checks_passing_imply_four (world : World) :
  fst (run (VerifyPackagesLegacy.verifyPackageLockIntegrity world))
  = fst (run (VerifyPackages.verifyIntegrity world)) /\
  fst (run (VerifyPackagesLegacy.runSecurityAudit world))
  = fst (run (VerifyPackages.runAudit world)) /\
  fst (run (VerifyPackagesLegacy.verifySignatureSupport world))
  = fst (run (VerifyPackages.verifySignatures world)) /\
  (exitCode (run (VerifyPackages.main world)) = 0 ->
   exitCode (run (VerifyPackagesLegacy.main world)) = 0).
Proof.
  rewrite verifyPackageLockIntegrity_verdict, verifyIntegrity_verdict,
    runSecurityAudit_verdict, runAudit_verdict,
    verifySignatureSupport_verdict, verifySignatures_verdict.
  repeat split.
  rewrite main_exitCode, legacy_main_exitCode.
  unfold overallVerdict, legacyOverallVerdict.
  pose proof (required_implies_legacy_required (npmrc world)) as Hreq.
  destruct (npmrcVerdict VerifyPackages.required (npmrc world));
    [rewrite (Hreq eq_refl)|]; simpl.
  - destruct (integrityVerdict (package_lock_json world)),
             (auditVerdict world),
             (trustedVerdict (trusted_packages_json world));
      simpl; intros H; (reflexivity || discriminate).
  - discriminate.
Qed.

Lemma five_checks_passing_imply_four_witness :
  exitCode (run (VerifyPackages.main calmWorld)) = 0 /\
  exitCode (run (VerifyPackagesLegacy.main calmWorld)) = 0.
Proof.
  split; [reflexivity|].
  apply (proj2 (proj2 (proj2 (five_checks_passing_imply_four calmWorld)))).
  reflexivity.
Defined.

(** ** The trust-policy validation in detail *)

(** A trust policy that parses and lists no package, because the list
    is empty or the key is absent, passes with the one warning that the
    list is empty: the review date is not looked at, however old. *)
Theorem empty_trust_list_skips_review (world : World) (policy : TrustPolicy.t) :
  trusted_packages_json world = Parsed policy ->
  trustedEntries policy = [] ->
  run (VerifyPackages.verifyTrustedPackages world)
  = (Done true,
     [rule; Say Cyan "Validating trusted-packages.json" []; rule;
      Say Yellow "Trusted packages list is empty" []]).
Proof.
  intros Hfile Hempty.
  unfold run, VerifyPackages.verifyTrustedPackages. rewrite Hfile.
  unfold trustedEntries in Hempty. unfold TrustDocument.ofPolicy.
  destruct (TrustPolicy.packages policy) as [[|p ps]|];
    [reflexivity | discriminate | reflexivity].
Qed.

Lemma empty_trust_list_skips_review_witness :
  let policy := TrustPolicy.mk (Some (Some 0)) (Some "quarterly") None in
  let world := withPolicyAt policy 1762041600000 calmWorld in
  moreThan90 (daysSince (now world) (Some 0)) = true /\
  hasWarning (trace (run (VerifyPackages.verifyTrustedPackages world))) = true /\
  fst (run (VerifyPackages.verifyTrustedPackages world)) = Done true.
Proof.
  intros policy world.
  rewrite (empty_trust_list_skips_review world policy eq_refl eq_refl).
  repeat split.
Defined.

Lemma lines_of_branches {A} (c : Color) (text : string) (cond : A -> bool)
    (yes no : A -> Event) (l : list A) :
  (forall x, isLine c text (yes x) = true) ->
  (forall x, isLine c text (no x) = false) ->
  filter (isLine c text) (map (fun x => if cond x then yes x else no x) l)
  = map yes (filter cond l).
Proof.
  intros Hyes Hno. induction l as [|x l IH]; simpl; [reflexivity|].
  destruct (cond x); simpl; rewrite ?Hyes, ?Hno, IH; reflexivity.
Qed.

Lemma lines_of_other_branches {A} (c : Color) (text : string) (cond : A -> bool)
    (yes no : A -> Event) (l : list A) :
  (forall x, isLine c text (yes x) = false) ->
  (forall x, isLine c text (no x) = true) ->
  filter (isLine c text) (map (fun x => if cond x then yes x else no x) l)
  = map no (filter (fun x => negb (cond x)) l).
Proof.
  intros Hyes Hno. induction l as [|x l IH]; simpl; [reflexivity|].
  destruct (cond x); simpl; rewrite ?Hyes, ?Hno, IH; reflexivity.
Qed.

(** For a trust document whose [packages] is a list, the validation
    passes exactly when no entry of the list is [null], however many
    entries are incomplete.  For the entries before the first [null],
    which are all of them when there is none, it prints one warning for
    each entry whose name or reason is missing or empty and one success
    line for each other entry, in the order of the list; at a [null]
    entry it stops with a failure line. *)
Theorem incomplete_entries_only_warn (world : World)
    (lastReviewed : option JsDate) (pkgs : list (option TrustEntry.t)) :
  trusted_packages_json world
  = Parsed (TrustDocument.Object lastReviewed (TrustDocument.Array pkgs)) ->
  let r := run (VerifyPackages.verifyTrustedPackages world) in
  (exists verdict, fst r = Done verdict /\ (verdict = true <-> ~ In None pkgs)) /\
  hasFailure (trace r) = negb (forallb isEntry pkgs) /\
  linesOf Yellow "  Incomplete entry: {}" (trace r)
  = map incompleteLine (filter incomplete (beforeNull pkgs)) /\
  linesOf Green "  {} - {}" (trace r)
  = map completeLine
        (filter (fun p => negb (incomplete p)) (beforeNull pkgs)).
Proof.
  intros Hfile r. unfold r. clear r.
  destruct pkgs as [|p ps].
  - unfold run, trace, VerifyPackages.verifyTrustedPackages.
    rewrite Hfile. split; [|repeat split].
    exists true. split; [reflexivity|]. simpl. tauto.
  - unfold run, trace.
    rewrite (verifyTrustedPackages_walk world lastReviewed (p :: ps) [] Hfile)
      by discriminate.
    set (pkgs := p :: ps). cbn [fst snd].
    split; [|split; [|split]].
    + eexists. split; [reflexivity|]. apply isEntry_no_null.
    + unfold hasFailure.
      rewrite !existsb_app, no_failure_in_entryLines.
      destruct (forallb isEntry pkgs);
        [rewrite no_failure_in_reviewLines|]; reflexivity.
    + unfold linesOf, entryLine. rewrite !filter_app.
      rewrite (lines_of_branches Yellow "  Incomplete entry: {}")
        by (intros ?; reflexivity).
      destruct (forallb isEntry pkgs);
        [destruct lastReviewed as [reviewed|];
         [unfold reviewLines;
          destruct (moreThan90 (daysSince (now world) reviewed))|]|];
        cbn; now rewrite app_nil_r.
    + unfold linesOf, entryLine. rewrite !filter_app.
      rewrite (lines_of_other_branches Green "  {} - {}")
        by (intros ?; reflexivity).
      destruct (forallb isEntry pkgs);
        [destruct lastReviewed as [reviewed|];
         [unfold reviewLines;
          destruct (moreThan90 (daysSince (now world) reviewed))|]|];
        cbn; now rewrite app_nil_r.
Qed.

Lemma incomplete_entries_only_warn_witness :
  let pkgs := [Some (entryNamed "esbuild");
               Some (TrustEntry.mk (Some "") (Some "why") None);
               Some (TrustEntry.mk (Some "sharp") None None)] in
  let world :=
    withTrustDocument (TrustDocument.Object None (TrustDocument.Array pkgs))
                      calmWorld in
  let r := run (VerifyPackages.verifyTrustedPackages world) in
  List.length (linesOf Yellow "  Incomplete entry: {}" (trace r)) = 2%nat /\
  hasFailure (trace r) = false.
Proof.
  intros pkgs world r.
  destruct (incomplete_entries_only_warn world None pkgs eq_refl)
    as [_ [Hfailure [Hwarned _]]].
  unfold r. rewrite Hfailure, Hwarned. split; reflexivity.
Defined.

(** ** When the review counts as due *)

(** For a trust policy that parses and lists at least one package: with
    a valid review date the validation warns that the review is due
    exactly when 91 full days or more have passed since that date, and
    otherwise prints the day count as a success, also for a date in the
    future; with a date that is not a valid date it prints the count as
    NaN, as a success; without a review date it prints neither line. *)
Theorem review_is_due_from_day_91 (world : World) (policy : TrustPolicy.t) :
  trusted_packages_json world = Parsed policy ->
  trustedEntries policy <> [] ->
  let tr := trace (run (VerifyPackages.verifyTrustedPackages world)) in
  let due := linesOf Yellow "Last reviewed {} days ago - due for quarterly review" tr in
  let fine := linesOf Green "Last reviewed {} day(s) ago" tr in
  (forall t,
     TrustPolicy.lastReviewed policy = Some (Some t) ->
     let days := ADays (Some ((now world - t) / msPerDay)) in
     if 91 * msPerDay <=? now world - t
     then due = [Say Yellow "Last reviewed {} days ago - due for quarterly review" [days]]
          /\ fine = []
     else due = [] /\ fine = [Say Green "Last reviewed {} day(s) ago" [days]]) /\
  (TrustPolicy.lastReviewed policy = Some None ->
   due = [] /\ fine = [Say Green "Last reviewed {} day(s) ago" [ADays None]]) /\
  (TrustPolicy.lastReviewed policy = None -> due = [] /\ fine = []).
Proof.
  intros Hfile Hsome tr due fine. unfold due, fine, tr. clear due fine tr.
  unfold run, trace.
  rewrite (verifyTrustedPackages_policy world policy [] Hfile Hsome).
  cbn [snd].
  assert (Hread : forall (text : string) (c : Color) (last : list Event),
             c = Yellow \/ c = Green ->
             (forall p, isLine c text (incompleteLine p) = false) ->
             (forall p, isLine c text (completeLine p) = false) ->
             isLine c text (Say Green "{} trusted package(s) configured"
                              [ANum (Z.of_nat (List.length (trustedEntries policy)))])
             = false ->
             linesOf c text
               ([] ++ [rule; Say Cyan "Validating trusted-packages.json" []; rule;
                       Say Green "{} trusted package(s) configured"
                         [ANum (Z.of_nat (List.length (trustedEntries policy)))]]
                   ++ map entryLine (trustedEntries policy) ++ last)
             = linesOf c text last).
  { intros text c last Hc Hwarn Hfine Hhead. unfold linesOf.
    rewrite !filter_app.
    rewrite (lines_map_none c text entryLine)
      by (intros p; unfold entryLine; destruct (incomplete p); auto).
    cbn [filter app]. rewrite Hhead.
    destruct Hc; subst c; reflexivity. }
  split; [|split].
  - intros t Hdate. rewrite Hdate. unfold reviewLines.
    rewrite moreThan90_from_day_91. cbv zeta.
    rewrite !Hread
      by (try (now left); try (now right); try reflexivity;
          intros p; reflexivity).
    destruct (91 * msPerDay <=? now world - t); split; reflexivity.
  - intros Hdate. rewrite Hdate. unfold reviewLines.
    rewrite !Hread
      by (try (now left); try (now right); try reflexivity;
          intros p; reflexivity).
    split; reflexivity.
  - intros Hdate. rewrite Hdate. unfold reviewLines.
    rewrite !Hread
      by (try (now left); try (now right); try reflexivity;
          intros p; reflexivity).
    split; reflexivity.
Qed.

Lemma review_is_due_from_day_91_witness :
  let policy t := reviewedOn (Some (Some t)) (policyOf ["esbuild"]) in
  let lines t := trace (run (VerifyPackages.verifyTrustedPackages
                               (withPolicyAt (policy t) 1762041600000 calmWorld))) in
  linesOf Yellow "Last reviewed {} days ago - due for quarterly review"
    (lines 1754179200000)
  = [Say Yellow "Last reviewed {} days ago - due for quarterly review"
       [ADays (Some 91)]] /\
  linesOf Green "Last reviewed {} day(s) ago" (lines 1754179200001)
  = [Say Green "Last reviewed {} day(s) ago" [ADays (Some 90)]].
Proof.
  intros policy lines. split.
  - exact (proj1 (proj1 (review_is_due_from_day_91
                           (withPolicyAt (policy 1754179200000) 1762041600000 calmWorld)
                           (policy 1754179200000) eq_refl
                           ltac:(discriminate))
                        1754179200000 eq_refl)).
  - exact (proj2 (proj1 (review_is_due_from_day_91
                           (withPolicyAt (policy 1754179200001) 1762041600000 calmWorld)
                           (policy 1754179200001) eq_refl
                           ltac:(discriminate))
                        1754179200001 eq_refl)).
Defined.

(** ** The summary and the child processes of a verifier run *)

Lemma main_run (world : World) :
  npmrc world <> Unreadable ->
  run (VerifyPackages.main world)
  = (Exited (if forallb snd (checkResults world) then 0 else 1),
     [Say Blue "Package Integrity Verification (Bun + npm-compat)" [];
      Say Blue "=====================================================" []]
     ++ trace (run (VerifyPackages.verifyNpmrc world))
     ++ trace (run (VerifyPackages.verifyIntegrity world))
     ++ trace (run (VerifyPackages.runAudit world))
     ++ trace (run (VerifyPackages.verifySignatures world))
     ++ trace (run (VerifyPackages.verifyTrustedPackages world))
     ++ summaryOf (checkResults world)
          "All security verifications passed!"
          "Some verifications failed. Review output above.").
Proof.
  intros Hread.
  pose proof (verifyNpmrc_verdict world Hread) as V1.
  pose proof (verifyIntegrity_verdict world) as V2.
  pose proof (runAudit_verdict world) as V3.
  pose proof (verifySignatures_verdict world) as V4.
  pose proof (verifyTrustedPackages_verdict world) as V5.
  unfold checkResults, returned. rewrite V1, V2, V3, V4, V5.
  unfold trace.
  unfold run at 1. unfold VerifyPackages.main, try_catch.
  step. unfold emit at 1. cbv beta iota.
  step. unfold emit at 1. cbv beta iota.
  run_check (Framed_verifyNpmrc world) V1.
  run_check (Framed_verifyIntegrity world) V2.
  run_check (Framed_runAudit world) V3.
  run_check (Framed_verifySignatures world) V4.
  run_check (Framed_verifyTrustedPackages world) V5.
  cbv zeta. unfold summaryOf, verdictLine. cbn [forallb snd fst map].
  proc_unfold. unfold run.
  destruct (npmrcVerdict VerifyPackages.required (npmrc world)),
    (integrityVerdict (package_lock_json world)), (auditVerdict world),
    (trustedVerdict (trusted_packages_json world));
    cbv beta iota; cbn [andb]; rewrite <- ?app_assoc; reflexivity.
Qed.

Lemma legacy_main_run (world : World) :
  npmrc world <> Unreadable ->
  run (VerifyPackagesLegacy.main world)
  = (Exited (if forallb snd (legacyCheckResults world) then 0 else 1),
     [Say Blue "Package Integrity Verification" [];
      Say Blue "================================" []]
     ++ trace (run (VerifyPackagesLegacy.verifyNpmrcConfiguration world))
     ++ trace (run (VerifyPackagesLegacy.verifyPackageLockIntegrity world))
     ++ trace (run (VerifyPackagesLegacy.runSecurityAudit world))
     ++ trace (run (VerifyPackagesLegacy.verifySignatureSupport world))
     ++ summaryOf (legacyCheckResults world)
          "All security verifications passed!"
          "Some security verifications failed. Review the output above.").
Proof.
  intros Hread.
  pose proof (verifyNpmrcConfiguration_verdict world Hread) as V1.
  pose proof (verifyPackageLockIntegrity_verdict world) as V2.
  pose proof (runSecurityAudit_verdict world) as V3.
  pose proof (verifySignatureSupport_verdict world) as V4.
  unfold legacyCheckResults, returned. rewrite V1, V2, V3, V4.
  unfold trace.
  unfold run at 1. unfold VerifyPackagesLegacy.main, try_catch.
  step. unfold emit at 1. cbv beta iota.
  step. unfold emit at 1. cbv beta iota.
  run_check (Framed_verifyNpmrcConfiguration world) V1.
  run_check (Framed_verifyPackageLockIntegrity world) V2.
  run_check (Framed_runSecurityAudit world) V3.
  run_check (Framed_verifySignatureSupport world) V4.
  cbv zeta. unfold summaryOf, verdictLine. cbn [forallb snd fst map].
  proc_unfold. unfold run.
  destruct (npmrcVerdict VerifyPackagesLegacy.requiredSettings (npmrc world)),
    (integrityVerdict (package_lock_json world)), (auditVerdict world);
    cbv beta iota; cbn [andb]; rewrite <- ?app_assoc; reflexivity.
Qed.

Lemma summary_failure (results : list (string * bool)) (passed failed : string) :
  hasFailure (summaryOf results passed failed) = negb (forallb snd results).
Proof.
  unfold summaryOf, hasFailure, verdictLine.
  rewrite !existsb_app. cbn [existsb isFailure rule orb].
  induction results as [|[k v] results IH]; [reflexivity|].
  cbn [map existsb forallb snd fst].
  destruct v; cbn [isFailure orb andb]; [exact IH | reflexivity].
Qed.

(** Every run of either verifier in which [.npmrc] is absent or can be
    read ends with the summary: the section title, then one line for
    each key of the results object, in the order of its keys, saying
    PASSED when that check, run on its own, returns true and FAILED
    otherwise, then an empty line and the closing line.  The four-check
    verifier lists the configuration check last although it runs first.
    The summary has a line in red exactly when the run exits with
    status 1.  With an [.npmrc] that cannot be read no summary is
    printed. *)
Theorem summary_reports_each_check_in_key_order (world : World) :
  let passed := "All security verifications passed!" in
  let summary :=
    summaryOf (checkResults world) passed
      "Some verifications failed. Review output above." in
  let summary' :=
    summaryOf (legacyCheckResults world) passed
      "Some security verifications failed. Review the output above." in
  let r := run (VerifyPackages.main world) in
  let r' := run (VerifyPackagesLegacy.main world) in
  (npmrc world <> Unreadable ->
   trace r
   = [Say Blue "Package Integrity Verification (Bun + npm-compat)" [];
      Say Blue "=====================================================" []]
     ++ trace (run (VerifyPackages.verifyNpmrc world))
     ++ trace (run (VerifyPackages.verifyIntegrity world))
     ++ trace (run (VerifyPackages.runAudit world))
     ++ trace (run (VerifyPackages.verifySignatures world))
     ++ trace (run (VerifyPackages.verifyTrustedPackages world))
     ++ summary /\
   trace r'
   = [Say Blue "Package Integrity Verification" [];
      Say Blue "================================" []]
     ++ trace (run (VerifyPackagesLegacy.verifyNpmrcConfiguration world))
     ++ trace (run (VerifyPackagesLegacy.verifyPackageLockIntegrity world))
     ++ trace (run (VerifyPackagesLegacy.runSecurityAudit world))
     ++ trace (run (VerifyPackagesLegacy.verifySignatureSupport world))
     ++ summary' /\
   exitCode r = (if hasFailure summary then 1 else 0) /\
   exitCode r' = (if hasFailure summary' then 1 else 0)) /\
  (npmrc world = Unreadable ->
   ~ In "Verification Summary" (sections (trace r)) /\
   ~ In "Verification Summary" (sections (trace r'))).
Proof.
  cbv zeta. split.
  - intros Hread.
    rewrite (main_run world Hread), (legacy_main_run world Hread),
      !summary_failure.
    unfold trace, exitCode. cbn [fst snd].
    repeat split; try reflexivity;
      match goal with |- context [forallb snd ?l] => destruct (forallb snd l) end;
      reflexivity.
  - intros Hfile.
    rewrite (main_unreadable world Hfile), (legacy_main_unreadable world Hfile).
    split; intros [H | []]; discriminate.
Qed.

Lemma summary_reports_each_check_in_key_order_witness :
  npmrc calmWorld <> Unreadable /\
  exitCode (run (VerifyPackagesLegacy.main calmWorld)) = 0 /\
  ~ In "Verification Summary"
       (sections (trace (run (VerifyPackages.main
                                (withUnreadableNpmrc calmWorld))))).
Proof.
  assert (Hread : npmrc calmWorld <> Unreadable) by discriminate.
  split; [exact Hread|]. split.
  - destruct (proj1 (summary_reports_each_check_in_key_order calmWorld) Hread)
      as [_ [_ [_ Hexit]]].
    rewrite Hexit. reflexivity.
  - apply (proj2 (summary_reports_each_check_in_key_order
                    (withUnreadableNpmrc calmWorld)) eq_refl).
Defined.

(** ** Child processes of the verifiers *)

Lemma Silent_ret {A} (a : A) : Silent (ret a).
Proof. intros tr. reflexivity. Qed.

Lemma Silent_throw {A} : Silent (@throw A).
Proof. intros tr. reflexivity. Qed.

Lemma Silent_say (c : Color) (text : string) (args : list Arg) :
  Silent (emit (Say c text args)).
Proof.
  intros tr. unfold emit. cbn [snd]. rewrite spawns_app. apply app_nil_r.
Qed.

Lemma Silent_title (title : string) :
  Silent (emitAll [rule; Say Cyan title []; rule]).
Proof.
  intros tr. unfold emitAll. cbn [snd]. rewrite spawns_app. apply app_nil_r.
Qed.

Lemma Silent_emitAll_says {A} (f : A -> Event) (l : list A) :
  (forall x, exists c text args, f x = Say c text args) ->
  Silent (emitAll (map f l)).
Proof.
  intros Hf tr. unfold emitAll. cbn [snd].
  rewrite spawns_app, (spawns_map_Say f l Hf). apply app_nil_r.
Qed.

Lemma Silent_bind {A B} (p : Proc A) (k : A -> Proc B) :
  Silent p -> (forall a, Silent (k a)) -> Silent (bind p k).
Proof.
  intros Hp Hk tr. unfold bind. specialize (Hp tr).
  destruct (p tr) as [[a|code|] tr']; cbn [snd] in *.
  - now rewrite Hk.
  - exact Hp.
  - exact Hp.
Qed.

Lemma Silent_try_catch {A} (body handler : Proc A) :
  Silent body -> Silent handler -> Silent (try_catch body handler).
Proof.
  intros Hb Hh tr. unfold try_catch. specialize (Hb tr).
  destruct (body tr) as [[a|code|] tr']; cbn [snd] in *.
  - exact Hb.
  - exact Hb.
  - now rewrite Hh.
Qed.

Lemma Silent_JSON_parse {A} (f : File A) : Silent (JSON_parse f).
Proof. destruct f; [apply Silent_throw | apply Silent_throw | apply Silent_ret]. Qed.

Lemma Silent_checkRequired (content : string) (settings : list string) :
  forall allGood, Silent (VerifyPackages.checkRequired content settings allGood).
Proof.
  induction settings as [|s rest IH]; intros allGood; simpl.
  - apply Silent_ret.
  - destruct (JsString.includes content (JsString.splitHead "=" s));
      (apply Silent_bind; [apply Silent_say | intros _; apply IH]).
Qed.

Lemma Silent_legacy_checkRequired (content : string) (settings : list string) :
  forall allRequired,
    Silent (VerifyPackagesLegacy.checkRequired content settings allRequired).
Proof.
  induction settings as [|s rest IH]; intros allRequired; simpl.
  - apply Silent_ret.
  - destruct (JsString.includes content (JsString.splitHead "=" s));
      (apply Silent_bind; [apply Silent_say | intros _; apply IH]).
Qed.

Lemma Silent_reportEntries (pkgs : list (option TrustEntry.t)) :
  Silent (forOf pkgs VerifyPackages.reportEntry).
Proof.
  induction pkgs as [|p pkgs IH]; simpl.
  - apply Silent_ret.
  - apply Silent_bind; [|intros _; exact IH].
    destruct p as [p|]; unfold VerifyPackages.reportEntry.
    + destruct (_ || _); apply Silent_say.
    + apply Silent_throw.
Qed.

Create HintDb silent.
#[export] Hint Resolve Silent_ret Silent_throw Silent_say Silent_title
  Silent_JSON_parse Silent_checkRequired Silent_legacy_checkRequired
  Silent_reportEntries : silent.

(** Every element of the list is a line of output, whichever branch
    builds it. *)
Ltac says_either :=
  intros ?; cbv zeta;
  first [ do 3 eexists; reflexivity
        | match goal with
          | |- context [if ?b then _ else _] => destruct b
          end; do 3 eexists; reflexivity ].

Ltac silent :=
  unfold VerifyPackages.log, VerifyPackages.section, VerifyPackages.ok,
    VerifyPackages.warn, VerifyPackages.fail,
    VerifyPackagesLegacy.log, VerifyPackagesLegacy.logSection,
    VerifyPackagesLegacy.logSuccess, VerifyPackagesLegacy.logWarning,
    VerifyPackagesLegacy.logError;
  cbv zeta;
  repeat first
    [ solve [auto with silent]
    | apply Silent_emitAll_says; says_either
    | apply Silent_bind; [|intros ?]
    | apply Silent_try_catch
    | match goal with
      | |- Silent (match ?x with _ => _ end) => destruct x
      | |- Silent (if ?b then _ else _) => destruct b
      end ].

Lemma Silent_verifyNpmrc (world : World) : Silent (VerifyPackages.verifyNpmrc world).
Proof. unfold VerifyPackages.verifyNpmrc. silent. Qed.

Lemma Silent_verifyIntegrity (world : World) :
  Silent (VerifyPackages.verifyIntegrity world).
Proof. unfold VerifyPackages.verifyIntegrity. silent. Qed.

Lemma Silent_verifyTrustedPackages (world : World) :
  Silent (VerifyPackages.verifyTrustedPackages world).
Proof. unfold VerifyPackages.verifyTrustedPackages. silent. Qed.

Lemma Silent_verifyNpmrcConfiguration (world : World) :
  Silent (VerifyPackagesLegacy.verifyNpmrcConfiguration world).
Proof. unfold VerifyPackagesLegacy.verifyNpmrcConfiguration. silent. Qed.

Lemma Silent_verifyPackageLockIntegrity (world : World) :
  Silent (VerifyPackagesLegacy.verifyPackageLockIntegrity world).
Proof. unfold VerifyPackagesLegacy.verifyPackageLockIntegrity. silent. Qed.

Lemma Silent_run {A} (p : Proc A) : Silent p -> spawns (trace (run p)) = [].
Proof. intros Hp. exact (Hp []). Qed.

Lemma audit_children (world : World) :
  spawns (trace (run (VerifyPackages.runAudit world))) = auditChildren world /\
  spawns (trace (run (VerifyPackagesLegacy.runSecurityAudit world)))
  = auditChildren world.
Proof.
  unfold auditChildren.
  destruct (npm_audit_json world) as [[result|]|] eqn:Hjson; audit_trace Hjson.
  - destruct (0 <? Audit.orZero (Audit.critical (Audit.breakdown result)));
      destruct (0 <? Audit.orZero (Audit.high (Audit.breakdown result)));
      destruct (0 <? Audit.orZero (Audit.moderate (Audit.breakdown result)));
      split; reflexivity.
  - destruct (npm_audit_level_high world); split; reflexivity.
  - split; reflexivity.
Qed.

Lemma signature_children (world : World) :
  spawns (trace (run (VerifyPackages.verifySignatures world)))
  = signatureChildren world /\
  spawns (trace (run (VerifyPackagesLegacy.verifySignatureSupport world)))
  = signatureChildren world.
Proof.
  unfold signatureChildren. signature_trace.
  destruct (npm_version world) as [ver|]; proc_unfold.
  - destruct (Version.supportsSignatures ver);
      [destruct (npm_audit_signatures world)|]; split; reflexivity.
  - split; reflexivity.
Qed.

Lemma summary_spawns (results : list (string * bool)) (passed failed : string) :
  spawns (summaryOf results passed failed) = [].
Proof.
  unfold summaryOf. rewrite !spawns_app.
  rewrite (spawns_map_Say verdictLine results)
    by (intros [k v]; unfold verdictLine; destruct v; do 3 eexists; reflexivity).
  destruct (forallb snd results); reflexivity.
Qed.

(** Whatever the project looks like, both verifiers start the same child
    processes, and never [npm rebuild].  When [.npmrc] is absent or can
    be read these are the child processes of the audit check followed by
    those of the signature check: the configuration, integrity and
    trust-policy checks and the summary start none, so that a run
    starts [npm audit --json] first and two to four processes in all.
    With an [.npmrc] that cannot be read the run starts none. *)
Theorem verifiers_start_only_npm_queries (world : World) :
  let children := spawns (trace (run (VerifyPackages.main world))) in
  spawns (trace (run (VerifyPackagesLegacy.main world))) = children /\
  (forall pkg succeeded, ~ In (NpmRebuild pkg, succeeded) children) /\
  (npmrc world <> Unreadable ->
   children = auditChildren world ++ signatureChildren world /\
   (exists succeeded rest, children = (NpmAuditJson, succeeded) :: rest) /\
   (2 <= List.length children <= 4)%nat) /\
  (npmrc world = Unreadable -> children = []).
Proof.
  cbv zeta.
  destruct (unreadable_or_not (npmrc world)) as [Hfile | Hread].
  { rewrite (main_unreadable world Hfile), (legacy_main_unreadable world Hfile).
    split; [reflexivity|]. split; [intros pkg succeeded []|].
    split; [intros H; now elim H | reflexivity]. }
  assert (Hfive : spawns (trace (run (VerifyPackages.main world)))
                  = auditChildren world ++ signatureChildren world).
  { rewrite (main_run world Hread). unfold trace at 1. cbn [snd].
    rewrite !spawns_app, summary_spawns.
    rewrite (Silent_run _ (Silent_verifyNpmrc world)),
      (Silent_run _ (Silent_verifyIntegrity world)),
      (Silent_run _ (Silent_verifyTrustedPackages world)).
    rewrite (proj1 (audit_children world)), (proj1 (signature_children world)).
    cbn [spawns app]. now rewrite !app_nil_r. }
  assert (Hfour : spawns (trace (run (VerifyPackagesLegacy.main world)))
                  = auditChildren world ++ signatureChildren world).
  { rewrite (legacy_main_run world Hread). unfold trace at 1. cbn [snd].
    rewrite !spawns_app, summary_spawns.
    rewrite (Silent_run _ (Silent_verifyNpmrcConfiguration world)),
      (Silent_run _ (Silent_verifyPackageLockIntegrity world)).
    rewrite (proj2 (audit_children world)), (proj2 (signature_children world)).
    cbn [spawns app]. now rewrite !app_nil_r. }
  rewrite Hfive, Hfour. clear Hfive Hfour.
  unfold auditChildren, signatureChildren.
  split; [reflexivity|].
  destruct (npm_audit_json world) as [[result|]|];
    (destruct (npm_version world) as [ver|];
     [destruct (Version.supportsSignatures ver)|]);
    cbn [app List.length];
    (split;
     [intros pkg succeeded Hin; cbn [In] in Hin;
      repeat (destruct Hin as [Hin | Hin]; [discriminate|]); exact Hin|]);
    (split; [|intros Hfile; now elim Hread]);
    intros _; (split; [reflexivity|]);
    (split; [do 2 eexists; reflexivity | lia]).
Qed.

Lemma verifiers_start_only_npm_queries_witness :
  npmrc calmWorld <> Unreadable /\
  spawns (trace (run (VerifyPackages.main calmWorld)))
  = [(NpmAuditJson, true); (NpmVersion, true); (NpmAuditSignatures, true)] /\
  spawns (trace (run (VerifyPackages.main (withUnreadableNpmrc calmWorld)))) = [].
Proof.
  assert (Hread : npmrc calmWorld <> Unreadable) by discriminate.
  split; [exact Hread|]. split.
  - destruct (proj1 (proj2 (proj2 (verifiers_start_only_npm_queries calmWorld)))
                Hread) as [Hchildren _].
    rewrite Hchildren. reflexivity.
  - apply (proj2 (proj2 (proj2 (verifiers_start_only_npm_queries
                                  (withUnreadableNpmrc calmWorld)))) eq_refl).
Defined.

(** ** What the configuration check prints *)

Lemma checkRequired_lines (content : string) (settings : list string) :
  forall allGood tr,
    VerifyPackages.checkRequired content settings allGood tr
    = (Done (allGood &&
             forallb (fun s => JsString.includes content (JsString.splitHead "=" s))
                     settings),
       tr ++ map (fun s =>
                    if JsString.includes content (JsString.splitHead "=" s)
                    then Say Green "Required: {}" [AStr (JsString.splitHead "=" s)]
                    else Say Yellow "Missing required: {}" [AStr s])
                 settings).
Proof.
  induction settings as [|s rest IH]; intros allGood tr; simpl.
  - now rewrite andb_true_r, app_nil_r.
  - destruct (JsString.includes content (JsString.splitHead "=" s));
      unfold bind, VerifyPackages.ok, VerifyPackages.warn, emit;
      rewrite IH, <- app_assoc; simpl; [reflexivity|].
    now rewrite andb_false_r.
Qed.

Lemma legacy_checkRequired_lines (content : string) (settings : list string) :
  forall allRequired tr,
    VerifyPackagesLegacy.checkRequired content settings allRequired tr
    = (Done (allRequired &&
             forallb (fun s => JsString.includes content (JsString.splitHead "=" s))
                     settings),
       tr ++ map (fun s =>
                    if JsString.includes content (JsString.splitHead "=" s)
                    then Say Green "Found required setting: {}"
                           [AStr (JsString.splitHead "=" s)]
                    else Say Yellow "Missing required setting: {}" [AStr s])
                 settings).
Proof.
  induction settings as [|s rest IH]; intros allRequired tr; simpl.
  - now rewrite andb_true_r, app_nil_r.
  - destruct (JsString.includes content (JsString.splitHead "=" s));
      unfold bind, VerifyPackagesLegacy.logSuccess,
        VerifyPackagesLegacy.logWarning, emit;
      rewrite IH, <- app_assoc; simpl; [reflexivity|].
    now rewrite andb_false_r.
Qed.

Lemma warnings_of_branches {A} (cond : A -> bool) (yes no : A -> Event)
    (l : list A) :
  (forall x, isWarning (yes x) = false) ->
  (forall x, isWarning (no x) = true) ->
  List.length (filter isWarning (map (fun x => if cond x then yes x else no x) l))
  = List.length (filter (fun x => negb (cond x)) l).
Proof.
  intros Hyes Hno. induction l as [|x l IH]; simpl; [reflexivity|].
  destruct (cond x); simpl; rewrite ?Hyes, ?Hno; simpl; now rewrite IH.
Qed.

Lemma no_failure_in_branches {A} (cond : A -> bool) (yes no : A -> Event)
    (l : list A) :
  (forall x, isFailure (yes x) = false) ->
  (forall x, isFailure (no x) = false) ->
  existsb isFailure (map (fun x => if cond x then yes x else no x) l) = false.
Proof.
  intros Hyes Hno. induction l as [|x l IH]; simpl; [reflexivity|].
  destruct (cond x); rewrite ?Hyes, ?Hno; exact IH.
Qed.

Lemma verifyNpmrc_lines (world : World) (content : string) :
  npmrc world = Some content ->
  trace (run (VerifyPackages.verifyNpmrc world))
  = [rule; Say Cyan "Verifying .npmrc Security Configuration" []; rule]
    ++ map (fun s =>
              if JsString.includes content (JsString.splitHead "=" s)
              then Say Green "Required: {}" [AStr (JsString.splitHead "=" s)]
              else Say Yellow "Missing required: {}" [AStr s])
           VerifyPackages.required
    ++ map (fun s =>
              if JsString.includes content (JsString.splitHead "=" s)
              then Say Green "Recommended: {}" [AStr (JsString.splitHead "=" s)]
              else Say Yellow "Consider adding: {}" [AStr s])
           VerifyPackages.recommended.
Proof.
  intros Hfile. unfold ConfigFile_ofOption in Hfile.
  unfold run, trace, VerifyPackages.verifyNpmrc. rewrite Hfile.
  unfold VerifyPackages.section.
  unfold bind at 1. unfold emitAll at 1. cbv beta iota.
  unfold bind at 1.
  rewrite checkRequired_lines. cbv beta iota zeta.
  unfold bind, emitAll, ret. cbn [snd].
  now rewrite <- !app_assoc.
Qed.

Lemma verifyNpmrcConfiguration_lines (world : World) (content : string) :
  npmrc world = Some content ->
  trace (run (VerifyPackagesLegacy.verifyNpmrcConfiguration world))
  = [rule; Say Cyan "Verifying .npmrc Security Configuration" []; rule]
    ++ map (fun s =>
              if JsString.includes content (JsString.splitHead "=" s)
              then Say Green "Found required setting: {}"
                     [AStr (JsString.splitHead "=" s)]
              else Say Yellow "Missing required setting: {}" [AStr s])
           VerifyPackagesLegacy.requiredSettings
    ++ map (fun s =>
              if JsString.includes content (JsString.splitHead "=" s)
              then Say Green "Found recommended setting: {}"
                     [AStr (JsString.splitHead "=" s)]
              else Say Yellow "Consider adding: {}" [AStr s])
           VerifyPackagesLegacy.recommendedSettings.
Proof.
  intros Hfile. unfold ConfigFile_ofOption in Hfile.
  unfold run, trace, VerifyPackagesLegacy.verifyNpmrcConfiguration.
  rewrite Hfile.
  unfold VerifyPackagesLegacy.logSection.
  unfold bind at 1. unfold emitAll at 1. cbv beta iota.
  unfold bind at 1.
  rewrite legacy_checkRequired_lines. cbv beta iota zeta.
  unfold bind, emitAll, ret. cbn [snd].
  now rewrite <- !app_assoc.
Qed.

(** With an [.npmrc] in place, the configuration check of either
    verifier prints, after its title, exactly one line for each required
    and each recommended setting, whatever the file holds; the warnings
    among them are as many as the settings whose key does not occur in
    the file, and none of the lines is a failure, also when the check
    returns false. *)
Theorem config_check_warns_once_per_missing_setting
    (world : World) (content : string) :
  npmrc world = Some content ->
  let t := trace (run (VerifyPackages.verifyNpmrc world)) in
  let t' := trace (run (VerifyPackagesLegacy.verifyNpmrcConfiguration world)) in
  List.length t = (3 + 4 + 4)%nat /\
  List.length t' = (3 + 3 + 3)%nat /\
  List.length (filter isWarning t)
  = (List.length (missingFrom content VerifyPackages.required)
     + List.length (missingFrom content VerifyPackages.recommended))%nat /\
  List.length (filter isWarning t')
  = (List.length (missingFrom content VerifyPackagesLegacy.requiredSettings)
     + List.length
         (missingFrom content VerifyPackagesLegacy.recommendedSettings))%nat /\
  hasFailure t = false /\ hasFailure t' = false.
Proof.
  intros Hfile t t'. unfold t, t'. clear t t'.
  rewrite (verifyNpmrc_lines world content Hfile),
    (verifyNpmrcConfiguration_lines world content Hfile).
  unfold missingFrom, hasFailure.
  rewrite !filter_app, !existsb_app, !length_app, !length_map.
  rewrite !warnings_of_branches by (intros ?; reflexivity).
  rewrite !no_failure_in_branches by (intros ?; reflexivity).
  repeat split; reflexivity.
Qed.

Lemma config_check_warns_once_per_missing_setting_witness :
  let world := withNpmrc (Some npmrcWithoutIgnoreScripts) calmWorld in
  List.length
    (filter isWarning (trace (run (VerifyPackages.verifyNpmrc world))))
  = 2%nat /\
  List.length
    (filter isWarning
       (trace (run (VerifyPackagesLegacy.verifyNpmrcConfiguration world))))
  = 0%nat.
Proof.
  intros world.
  destruct (config_check_warns_once_per_missing_setting
              world npmrcWithoutIgnoreScripts eq_refl)
    as [_ [_ [Hfive [Hfour _]]]].
  rewrite Hfive, Hfour. split; reflexivity.
Defined.

(** ** The runner's log of its rebuilds *)

Lemma forOf_rebuildOne_lines (world : RunTrustedScripts.World)
    (todo : list string) :
  forall tr,
    let made := attempts (RunTrustedScripts.npm_rebuild world) (rebuilds tr) todo in
    forOf todo (RunTrustedScripts.rebuildOne world) tr
    = (if forallb snd made then Done tt else Exited 1,
       tr ++ flat_map attemptLines made).
Proof.
  induction todo as [|pkg rest IH]; intros tr; cbn [forOf attempts].
  - cbn. now rewrite app_nil_r.
  - cbv zeta. unfold bind at 1.
    unfold RunTrustedScripts.rebuildOne, try_catch, bind, RunTrustedScripts.log,
      emit, RunTrustedScripts.execSync_rebuild, process_exit.
    rewrite rebuilds_app. cbn [rebuilds]. rewrite app_nil_r.
    destruct (RunTrustedScripts.npm_rebuild world (rebuilds tr) pkg).
    + rewrite IH. cbv zeta.
      rewrite !rebuilds_app. cbn [rebuilds]. rewrite !app_nil_r.
      cbn [forallb snd andb flat_map attemptLines fst].
      now rewrite <- !app_assoc.
    + cbn [forallb snd andb flat_map attemptLines fst].
      now rewrite <- !app_assoc.
Qed.

(** With a trust policy and a lockfile that both parse, the whole output
    of the runner is: the two banner lines, the number of trust entries
    and one line for each, then either the note that nothing requires a
    rebuild, or the number of packages to rebuild followed, for each
    rebuild started, by its announcement, the command and one line on
    its result, and by the closing success line when none of them
    failed.  Nothing is printed after a failed rebuild. *)
Theorem runner_log_brackets_each_rebuild
    (world : RunTrustedScripts.World) (policy : TrustPolicy.t) (lock : Lock.t) :
  RunTrustedScripts.trusted_packages_json world = Parsed policy ->
  RunTrustedScripts.package_lock_json world = Parsed lock ->
  let plan := matchingPackages policy lock in
  let made := attempts (RunTrustedScripts.npm_rebuild world) [] plan in
  trace (run (RunTrustedScripts.main world))
  = [Say Cyan "Selective Script Execution for Trusted Packages" [];
     Say Cyan "===================================================" [];
     Say Reset "Trusted packages configured: {}"
       [ANum (Z.of_nat (List.length (trustedEntries policy)))]]
    ++ map (fun t => Say Green "  * {} - {}"
                       [AVal (TrustEntry.name t); AVal (TrustEntry.reason t)])
           (trustedEntries policy)
    ++ match plan with
       | [] => [Say Green "No trusted packages require rebuild." []]
       | _ =>
           Say Cyan "Rebuilding {} trusted package(s)..."
             [ANum (Z.of_nat (List.length plan))]
           :: flat_map attemptLines made
           ++ (if forallb snd made
               then [Say Green "All trusted package scripts executed successfully" []]
               else [])
       end.
Proof.
  intros Hpolicy Hlock plan made. unfold made, plan. clear made plan.
  unfold run, trace, RunTrustedScripts.main, RunTrustedScripts.loadTrustedPackages,
    RunTrustedScripts.getInstalledPackages.
  rewrite Hpolicy, Hlock.
  unfold JSON_parse.
  unfold bind at 1 2 3 4 5 6 7. unfold RunTrustedScripts.log, emit, emitAll, ret.
  simpl.
  change (match TrustPolicy.packages policy with
          | Some l => l
          | None => []
          end) with (trustedEntries policy).
  rewrite collect_matchingPackages.
  destruct (matchingPackages policy lock) as [|pkg todo] eqn:Hplan.
  - unfold bind, RunTrustedScripts.log, emit, process_exit.
    simpl. reflexivity.
  - set (plan := pkg :: todo) in *.
    unfold bind at 1; cbv beta iota.
    unfold bind at 1; cbv beta.
    rewrite forOf_rebuildOne_lines. cbv zeta.
    match goal with
    | |- context [attempts _ (rebuilds ?tr) plan] =>
        replace (rebuilds tr) with (@nil (string * bool))
          by (quiet_trace; reflexivity)
    end.
    destruct (forallb snd (attempts (RunTrustedScripts.npm_rebuild world) [] plan));
      unfold bind, RunTrustedScripts.log, emit, process_exit; cbn [snd];
      rewrite <- ?app_assoc; cbn [app]; rewrite ?app_nil_r; reflexivity.
Qed.

Lemma runner_log_brackets_each_rebuild_witness :
  trace (run (RunTrustedScripts.main worldFirstRebuildFails))
  = [Say Cyan "Selective Script Execution for Trusted Packages" [];
     Say Cyan "===================================================" [];
     Say Reset "Trusted packages configured: {}" [ANum 2];
     Say Green "  * {} - {}" [AVal (Some "esbuild"); AVal (Some "reviewed")];
     Say Green "  * {} - {}" [AVal (Some "sharp"); AVal (Some "reviewed")];
     Say Cyan "Rebuilding {} trusted package(s)..." [ANum 2];
     Say Yellow "  Rebuilding: {}" [AStr "esbuild"];
     Spawn (NpmRebuild "esbuild") false;
     Say Red "  Failed to rebuild {}" [AStr "esbuild"]].
Proof.
  exact (runner_log_brackets_each_rebuild worldFirstRebuildFails
           (policyOf ["esbuild"; "sharp"])
           (lockOf [""; "node_modules/esbuild"; "node_modules/react";
                    "node_modules/sharp"])
           eq_refl eq_refl).
Defined.
